(** * pithermon: Raspberry Pi temperature and thermal throttling monitor

    A shallow embedding of [app/pithermon.py] and the properties of its
    throttle-word decoding, CPU load sampling, CSV formatting, console alert
    and scheduler loop. *)

From Stdlib Require Import ZArith List String Ascii Bool Lia.
From Stdlib Require Import Floats.SpecFloat Numbers.DecimalString.
Import ListNotations.

Local Open Scope Z_scope.
Local Open Scope string_scope.

(** ** Python floats: IEEE 754 binary64 *)

Module F64.

Definition prec : Z := 53.
Definition emax : Z := 1024.

Definition f64 : Type := spec_float.

Definition add : f64 -> f64 -> f64 := SFadd prec emax.
Definition sub : f64 -> f64 -> f64 := SFsub prec emax.
Definition mul : f64 -> f64 -> f64 := SFmul prec emax.
Definition div : f64 -> f64 -> f64 := SFdiv prec emax.
(** [a > b] *)
Definition gtb (a b : f64) : bool := SFltb b a.

(** Nearest binary64 to an integer (ties to even); an infinity when the
    integer is beyond the range. *)
Definition of_Z (z : Z) : f64 := binary_normalize prec emax z 0 false.

Definition zero : f64 := S754_zero false.

Definition is_zero (x : f64) : bool :=
  match x with S754_zero _ => true | _ => false end.

Definition is_infinity (x : f64) : bool :=
  match x with S754_infinity _ => true | _ => false end.

(** The literals of the program. *)
Definition lit_100_0 : f64 := of_Z 100.
Definition lit_0_5 : f64 := div (of_Z 1) (of_Z 2).
Definition lit_1_0 : f64 := of_Z 1.
(** [23.04], that is [0x1.70a3d70a3d70ap+4] *)
Definition lit_23_04 : f64 := S754_finite false 6485183463413514 (-48).

End F64.
Import F64.

(** ** The Python runtime the program relies on *)

Module Py.

(** Exceptions that can travel through the modelled code. *)
Inductive exn : Type :=
| ZeroDivisionError
| OverflowError
| ValueError
| NameError
| KeyboardInterrupt
| SystemExit (code : Z)
| OtherError (what : string).

Inductive outcome (A : Type) : Type :=
| Ret (a : A)
| Raise (e : exn).
Arguments Ret {A} a.
Arguments Raise {A} e.

(** *** Strings *)

(** [s.split(sep)] for a one-character separator: empty fields are kept. *)
Fixpoint split (sep : ascii) (s : string) : list string :=
  match s with
  | EmptyString => [EmptyString]
  | String c s' =>
      if Ascii.eqb c sep then EmptyString :: split sep s'
      else match split sep s' with
           | h :: t => String c h :: t
           | [] => [String c EmptyString]
           end
  end.

(** [s.replace(old, new)] for one-character [old] and [new]. *)
Fixpoint replace (old new : ascii) (s : string) : string :=
  match s with
  | EmptyString => EmptyString
  | String c s' =>
      String (if Ascii.eqb c old then new else c) (replace old new s')
  end.

(** The ASCII whitespace that [int] ignores around a literal. *)
Definition is_space (c : ascii) : bool :=
  let n := Z.of_nat (nat_of_ascii c) in
  Z.eqb n 32 || (Z.leb 9 n && Z.leb n 13).

Definition is_digit (c : ascii) : bool :=
  let n := Z.of_nat (nat_of_ascii c) in Z.leb 48 n && Z.leb n 57.

Definition digit_value (c : ascii) : Z := Z.of_nat (nat_of_ascii c) - 48.

Fixpoint lstrip (s : string) : string :=
  match s with
  | String c s' => if is_space c then lstrip s' else s
  | EmptyString => EmptyString
  end.

Fixpoint rstrip (s : string) : string :=
  match s with
  | String c s' =>
      match rstrip s' with
      | EmptyString => if is_space c then EmptyString else String c EmptyString
      | r => String c r
      end
  | EmptyString => EmptyString
  end.

Definition strip (s : string) : string := rstrip (lstrip s).

(** Digits of a base-10 integer literal; single underscores may separate
    digits. *)
Fixpoint parse_digits (acc : Z) (after_digit : bool) (s : string) : option Z :=
  match s with
  | EmptyString => if after_digit then Some acc else None
  | String c s' =>
      if is_digit c then parse_digits (10 * acc + digit_value c) true s'
      else if Ascii.eqb c "_" then
        if after_digit then parse_digits acc false s' else None
      else None
  end.

(** [int(s)] on a string of ASCII characters: surrounding whitespace is
    dropped, a sign may lead, anything else raises [ValueError]. *)
Definition int (s : string) : outcome Z :=
  let parsed :=
    match strip s with
    | String "-" r => option_map Z.opp (parse_digits 0 false r)
    | String "+" r => parse_digits 0 false r
    | r => parse_digits 0 false r
    end in
  match parsed with
  | Some z => Ret z
  | None => Raise ValueError
  end.

(** *** Floats *)

(** [float(z)] on an integer. *)
Definition float (z : Z) : outcome f64 :=
  let f := of_Z z in
  if is_infinity f then Raise OverflowError else Ret f.

(** [a / b] on floats. *)
Definition truediv (a b : f64) : outcome f64 :=
  if is_zero b then Raise ZeroDivisionError else Ret (div a b).

(** The value [m * 2^e] as a fraction. *)
Definition frac (m : positive) (e : Z) : Z * Z :=
  if Z.leb 0 e then (Zpos m * 2 ^ e, 1) else (Zpos m, 2 ^ (- e)).

(** [n / d] rounded to the nearest integer, ties to even ([0 <= n], [0 < d]). *)
Definition div_half_even (n d : Z) : Z :=
  let q := n / d in
  match Z.compare (2 * (n mod d)) d with
  | Lt => q
  | Gt => q + 1
  | Eq => if Z.even q then q else q + 1
  end.

(** [round(x, 1)]: the exact value is rounded to one decimal, ties to
    even, and the nearest float to that decimal is returned. Zeros,
    infinities and NaN round to themselves. *)
Definition round1 (x : f64) : f64 :=
  match x with
  | S754_finite s m e =>
      let '(n, d) := frac m e in
      match div_half_even (10 * n) d with
      | Zpos q => div (S754_finite s q 0) (of_Z 10)
      | _ => S754_zero s
      end
  | _ => x
  end.

(** *** [str] of a float: the shortest decimal that reads back as the
        same float, laid out as [repr] does *)

Definition digits_of (z : Z) : string :=
  match z with
  | Zpos p => NilEmpty.string_of_uint (Pos.to_uint p)
  | _ => "0"
  end.

Definition strlen (s : string) : Z := Z.of_nat (String.length s).

Fixpoint zeros (k : nat) : string :=
  match k with
  | O => EmptyString
  | S k' => String "0" (zeros k')
  end.

Fixpoint strip_zeros (s : string) : string :=
  match s with
  | String c s' =>
      match strip_zeros s' with
      | EmptyString => if Ascii.eqb c "0" then EmptyString else String c EmptyString
      | r => String c r
      end
  | EmptyString => EmptyString
  end.

(** Exact comparison of [c * 10^p] with [b * 2^q]. *)
Definition cmp_scaled (c p b q : Z) : comparison :=
  Z.compare (c * 10 ^ Z.max p 0 * 2 ^ Z.max (- q) 0)
            (b * 2 ^ Z.max q 0 * 10 ^ Z.max (- p) 0).

(** For [n < d]: how many zeros follow the decimal point of [n / d]. *)
Fixpoint lead_zeros (fuel : nat) (n d : Z) : Z :=
  match fuel with
  | O => 0
  | S fuel' =>
      if Z.leb d (10 * n) then 0 else 1 + lead_zeros fuel' (10 * n) d
  end.

(** The decimal exponent [k] of [m * 2^e]: [10^(k-1) <= m * 2^e < 10^k]. *)
Definition decpt (m : positive) (e : Z) : Z :=
  let '(n, d) := frac m e in
  if Z.leb d n then strlen (digits_of (n / d)) else - lead_zeros 400 n d.

(** The [n]-digit decimal [c * 10^(dp - n)] next to [m * 2^e] that reads
    back as [m * 2^e], the nearer one when both neighbours do. *)
Definition candidate (m : positive) (e dp n : Z) : option Z :=
  let p := dp - n in
  let '(num, den) := frac m e in
  let lo := if Z.leb 0 p then num / (den * 10 ^ p) else (num * 10 ^ (- p)) / den in
  let hi := lo + 1 in
  let blo := if Pos.eqb m (2 ^ 52) && Z.ltb (-1074) e
             then 4 * Zpos m - 1 else 4 * Zpos m - 2 in
  let bhi := 4 * Zpos m + 2 in
  let closed := Z.even (Zpos m) in
  let inside c :=
    match cmp_scaled c p blo (e - 2) with
    | Gt => true | Eq => closed | Lt => false
    end &&
    match cmp_scaled c p bhi (e - 2) with
    | Lt => true | Eq => closed | Gt => false
    end in
  match inside lo, inside hi with
  | true, true =>
      match cmp_scaled (lo + hi) p (8 * Zpos m) (e - 2) with
      | Gt => Some lo
      | Lt => Some hi
      | Eq => Some (if Z.even lo then lo else hi)
      end
  | true, false => Some lo
  | false, true => Some hi
  | false, false => None
  end.

(** Fewest digits first; 17 always suffice for binary64. *)
Fixpoint shortest (fuel : nat) (m : positive) (e dp n : Z) : Z * Z :=
  match fuel with
  | O => (0, 0)
  | S fuel' =>
      match candidate m e dp n with
      | Some c => (c, dp - n)
      | None => shortest fuel' m e dp (n + 1)
      end
  end.

(** The exponent as ["%+.02d"] prints it. *)
Definition exp_str (x : Z) : string :=
  (if Z.ltb x 0 then "-" else "+") ++
  (let d := digits_of (Z.abs x) in if Z.ltb (strlen d) 2 then "0" ++ d else d).

Definition repr_finite (m : positive) (e : Z) : string :=
  let '(c, p) := shortest 17 m e (decpt m e) 1 in
  let full := digits_of c in
  let point := p + strlen full in
  let ds := strip_zeros full in
  let len := strlen ds in
  if Z.leb point (-4) || Z.ltb 16 point then
    match ds with
    | String d EmptyString => String d EmptyString
    | String d rest => String d ("." ++ rest)
    | EmptyString => EmptyString
    end ++ "e" ++ exp_str (point - 1)
  else if Z.leb point 0 then
    "0." ++ zeros (Z.to_nat (- point)) ++ ds
  else if Z.ltb point len then
    substring 0 (Z.to_nat point) ds ++ "." ++
    substring (Z.to_nat point) (Z.to_nat (len - point)) ds
  else
    ds ++ zeros (Z.to_nat (point - len)) ++ ".0".

Definition str (x : f64) : string :=
  match x with
  | S754_nan => "nan"
  | S754_infinity s => if s then "-inf" else "inf"
  | S754_zero s => if s then "-0.0" else "0.0"
  | S754_finite s m e => (if s then "-" else "") ++ repr_finite m e
  end.

End Py.
Import Py.

(** ** Built in configuration defaults: class [Config] *)

Record Config : Type := mkConfig {
  Logging_Level : string;
  CSV_File : option string;
  CSV_Dialect : string;
  Interval : f64;
  Console_Alert : option f64
}.

Definition Config_defaults : Config :=
  {| Logging_Level := "STANDARD";
     CSV_File := None;
     CSV_Dialect := "finnish";
     Interval := lit_1_0;
     Console_Alert := None |}.

(** [Config.Logging_Level = args.logging_level] *)
Definition set_Logging_Level (cfg : Config) (level : string) : Config :=
  mkConfig level (CSV_File cfg) (CSV_Dialect cfg) (Interval cfg) (Console_Alert cfg).

(** ** Class for measurement data: [Data] *)

(** A value handed to [csv.writerow]. *)
Inductive cell : Type :=
| CNone
| CStr (s : string)
| CInt (z : Z).

(** Python's [x if c else y] on an integer condition: nonzero is true. *)
Definition truthy (z : Z) : bool := negb (Z.eqb z 0).

(** [1 if self.throttled & mask else 0] *)
Definition flag (throttled mask : Z) : cell :=
  CInt (if truthy (Z.land throttled mask) then 1 else 0).

Module Data.

Record t : Type := mk {
  time : option string;
  cpu_temp : f64;
  cpu_load : f64;
  cpu_freq : f64;
  cpu_volts : f64;
  gpu_temp : f64;
  throttled : Z;
  decimal_separator : ascii
}.

(** [Data(dialect)]: the class attributes, with the separator of the
    finnish dialect when asked for. *)
Definition init (dialect : string) : t :=
  {| time := None;
     cpu_temp := zero;
     cpu_load := zero;
     cpu_freq := zero;
     cpu_volts := zero;
     gpu_temp := zero;
     throttled := 0x00;
     decimal_separator := if String.eqb dialect "finnish" then "," else "." |}.

Definition header (cfg : Config) : list string :=
  if String.eqb (Logging_Level cfg) "BASIC" then
    [ "Time";
      "CPU Temperature";
      "CPU MHz";
      "ARM Frequency Capped";
      "Throttled" ]
  else if String.eqb (Logging_Level cfg) "STANDARD" then
    [ "Time";
      "CPU Temperature";
      "CPU Load";
      "CPU MHz";
      "CPU Volts";
      "Undervoltage";
      "ARM Frequency Capped";
      "Throttled" ]
  else (* FULL *)
    [ "Time";
      "CPU Temperature";
      "CPU Load";
      "CPU MHz";
      "CPU Volts";
      "GPU Temperature";
      "Undervoltage";
      "ARM Frequency Capped";
      "Throttled";
      "Undervoltage has occured";
      "ARM Frequencey Capping has occured";
      "Throttling has occured" ].

(** [Data.__float2str] *)
Definition float2str (self : t) (fval : f64) : string :=
  if negb (Ascii.eqb (decimal_separator self) ".") then
    Py.replace "." (decimal_separator self) (Py.str (Py.round1 fval))
  else
    Py.str (Py.round1 fval).

Definition time_cell (self : t) : cell :=
  match time self with
  | Some s => CStr s
  | None => CNone
  end.

(** [Data.row]; its first cell reads the module-level [data], which is
    the object [row] is called on. *)
Definition row (cfg : Config) (self : t) : list cell :=
  if String.eqb (Logging_Level cfg) "BASIC" then
    [ time_cell self;
      CStr (float2str self (cpu_temp self));
      CStr (float2str self (cpu_freq self));
      flag (throttled self) 0x02;
      flag (throttled self) 0x04 ]
  else if String.eqb (Logging_Level cfg) "STANDARD" then
    [ time_cell self;
      CStr (float2str self (cpu_temp self));
      CStr (float2str self (cpu_load self));
      CStr (float2str self (cpu_freq self));
      CStr (float2str self (cpu_volts self));
      flag (throttled self) 0x01;
      flag (throttled self) 0x02;
      flag (throttled self) 0x04 ]
  else (* FULL *)
    [ time_cell self;
      CStr (float2str self (cpu_temp self));
      CStr (float2str self (cpu_load self));
      CStr (float2str self (cpu_freq self));
      CStr (float2str self (cpu_volts self));
      CStr (float2str self (gpu_temp self));
      flag (throttled self) 0x01;
      flag (throttled self) 0x02;
      flag (throttled self) 0x04;
      flag (throttled self) 0x10000;
      flag (throttled self) 0x20000;
      flag (throttled self) 0x40000 ].

(** [[UAT]] string for stdout *)
Definition throttled_string (self : t) : string :=
  let u := Z.land (throttled self) 0x00010001 in
  let a := Z.land (throttled self) 0x00020002 in
  let t := Z.land (throttled self) 0x00040004 in
  "[" ++
  (if truthy (Z.land u 0x01) then "U" else if Z.gtb u 0x00 then "u" else " ") ++
  (if truthy (Z.land a 0x02) then "A" else if Z.gtb a 0x00 then "a" else " ") ++
  (if truthy (Z.land t 0x04) then "T" else if Z.gtb t 0x00 then "t" else " ") ++
  "]".

Definition set_time (self : t) (v : option string) : t :=
  mk v (cpu_temp self) (cpu_load self) (cpu_freq self) (cpu_volts self)
     (gpu_temp self) (throttled self) (decimal_separator self).
Definition set_cpu_temp (self : t) (v : f64) : t :=
  mk (time self) v (cpu_load self) (cpu_freq self) (cpu_volts self)
     (gpu_temp self) (throttled self) (decimal_separator self).
Definition set_cpu_load (self : t) (v : f64) : t :=
  mk (time self) (cpu_temp self) v (cpu_freq self) (cpu_volts self)
     (gpu_temp self) (throttled self) (decimal_separator self).
Definition set_cpu_freq (self : t) (v : f64) : t :=
  mk (time self) (cpu_temp self) (cpu_load self) v (cpu_volts self)
     (gpu_temp self) (throttled self) (decimal_separator self).
Definition set_cpu_volts (self : t) (v : f64) : t :=
  mk (time self) (cpu_temp self) (cpu_load self) (cpu_freq self) v
     (gpu_temp self) (throttled self) (decimal_separator self).
Definition set_gpu_temp (self : t) (v : f64) : t :=
  mk (time self) (cpu_temp self) (cpu_load self) (cpu_freq self) (cpu_volts self)
     v (throttled self) (decimal_separator self).
Definition set_throttled (self : t) (v : Z) : t :=
  mk (time self) (cpu_temp self) (cpu_load self) (cpu_freq self) (cpu_volts self)
     (gpu_temp self) v (decimal_separator self).

End Data.

(** ** The outside world and the state of the process *)

(** What the program reads from outside; the operations below keep a
    cursor per source, so that the n-th call sees the n-th answer. *)
Record Env : Type := mkEnv {
  (** value of the n-th [time.time()] *)
  clock : nat -> f64;
  (** first line of /proc/stat at its n-th opening; [None]: [IOError] *)
  proc_stat : nat -> option string;
  (** the thermal zone file ([None]: [IOError]) and the [vcgencmd] queries
      at the n-th [Data.read], already parsed, or the exception they end
      with *)
  sysfs_temp : nat -> option (outcome f64);
  vc_measure_clock : nat -> outcome f64;
  vc_measure_volts : nat -> outcome f64;
  vc_measure_temp : nat -> outcome f64;
  vc_get_throttled : nat -> outcome Z;
  (** [time.strftime("%H:%M:%S", time.gmtime(lapsed))] *)
  strftime_gmtime : f64 -> outcome string;
  (** whether the operator's interrupt arrives at the n-th statement
      boundary of the loop body *)
  sigint : nat -> bool
}.

(** Observable effects, oldest first. [Sleep d] records the call
    [time.sleep(d)]; an interrupt that cuts the sleep short is the one
    delivered at the boundary that follows. [StatusLine] carries the
    arguments of the status line's format, [PrintError] stands for the
    line ['ERROR: ...'], [PrintLine s] for [print(s)]. *)
Inductive event : Type :=
| Sleep (duration : f64)
| PrintError
| Bell
| StatusLine (elapsed : string) (cpu_temp cpu_volts cpu_load cpu_freq gpu_temp : f64)
             (tag : string)
| PrintLine (text : string)
| CsvRow (cells : list cell)
| CsvClose.

Record World : Type := mkWorld {
  clock_reads : nat;
  stat_reads : nat;
  sensor_reads : nat;
  boundaries : nat;
  (** function attributes [cpu_load.prev], [lapsed_time.start_time] and
      [console_throttling_alert.last_beep]; [None] before the first
      assignment *)
  cpu_load_prev : option (Z * Z);
  lapsed_time_start_time : option f64;
  last_beep : option f64;
  (** module-level names *)
  data : Data.t;
  next_tick : f64;
  (** [csv_file]: unbound, or bound to a file that is open ([true]) or
      closed *)
  csv_file : option bool;
  trace : list event
}.

Definition set_clock_reads (w : World) (v : nat) : World :=
  mkWorld v (stat_reads w) (sensor_reads w) (boundaries w) (cpu_load_prev w)
          (lapsed_time_start_time w) (last_beep w) (data w) (next_tick w)
          (csv_file w) (trace w).
Definition set_stat_reads (w : World) (v : nat) : World :=
  mkWorld (clock_reads w) v (sensor_reads w) (boundaries w) (cpu_load_prev w)
          (lapsed_time_start_time w) (last_beep w) (data w) (next_tick w)
          (csv_file w) (trace w).
Definition set_sensor_reads (w : World) (v : nat) : World :=
  mkWorld (clock_reads w) (stat_reads w) v (boundaries w) (cpu_load_prev w)
          (lapsed_time_start_time w) (last_beep w) (data w) (next_tick w)
          (csv_file w) (trace w).
Definition set_boundaries (w : World) (v : nat) : World :=
  mkWorld (clock_reads w) (stat_reads w) (sensor_reads w) v (cpu_load_prev w)
          (lapsed_time_start_time w) (last_beep w) (data w) (next_tick w)
          (csv_file w) (trace w).
Definition set_cpu_load_prev (w : World) (v : option (Z * Z)) : World :=
  mkWorld (clock_reads w) (stat_reads w) (sensor_reads w) (boundaries w) v
          (lapsed_time_start_time w) (last_beep w) (data w) (next_tick w)
          (csv_file w) (trace w).
Definition set_lapsed_time_start_time (w : World) (v : option f64) : World :=
  mkWorld (clock_reads w) (stat_reads w) (sensor_reads w) (boundaries w)
          (cpu_load_prev w) v (last_beep w) (data w) (next_tick w)
          (csv_file w) (trace w).
Definition set_last_beep (w : World) (v : option f64) : World :=
  mkWorld (clock_reads w) (stat_reads w) (sensor_reads w) (boundaries w)
          (cpu_load_prev w) (lapsed_time_start_time w) v (data w) (next_tick w)
          (csv_file w) (trace w).
Definition set_data (w : World) (v : Data.t) : World :=
  mkWorld (clock_reads w) (stat_reads w) (sensor_reads w) (boundaries w)
          (cpu_load_prev w) (lapsed_time_start_time w) (last_beep w) v
          (next_tick w) (csv_file w) (trace w).
Definition set_next_tick (w : World) (v : f64) : World :=
  mkWorld (clock_reads w) (stat_reads w) (sensor_reads w) (boundaries w)
          (cpu_load_prev w) (lapsed_time_start_time w) (last_beep w) (data w)
          v (csv_file w) (trace w).
Definition set_csv_file (w : World) (v : option bool) : World :=
  mkWorld (clock_reads w) (stat_reads w) (sensor_reads w) (boundaries w)
          (cpu_load_prev w) (lapsed_time_start_time w) (last_beep w) (data w)
          (next_tick w) v (trace w).
Definition emit (w : World) (ev : event) : World :=
  mkWorld (clock_reads w) (stat_reads w) (sensor_reads w) (boundaries w)
          (cpu_load_prev w) (lapsed_time_start_time w) (last_beep w) (data w)
          (next_tick w) (csv_file w) (trace w ++ [ev])%list.

(** Computations: a result or an exception, and the world after it. *)
Definition M (A : Type) : Type := World -> outcome A * World.

Definition ret {A : Type} (a : A) : M A := fun w => (Ret a, w).

Definition raise {A : Type} (e : exn) : M A := fun w => (Raise e, w).

Definition bind {A B : Type} (c : M A) (k : A -> M B) : M B :=
  fun w =>
    match c w with
    | (Ret a, w') => k a w'
    | (Raise e, w') => (Raise e, w')
    end.

Definition lift {A : Type} (o : outcome A) : M A := fun w => (o, w).

Definition modify (f : World -> World) : M unit := fun w => (Ret tt, f w).

(** [try: body  except <catches>: handler] *)
Definition try_except {A : Type} (body : M A) (catches : exn -> bool)
                      (handler : M A) : M A :=
  fun w =>
    match body w with
    | (Raise e, w') => if catches e then handler w' else (Raise e, w')
    | r => r
    end.

Declare Scope py_scope.
Delimit Scope py_scope with py.
Notation "x <- c1 ;; c2" := (bind c1 (fun x => c2))
  (at level 61, c1 at next level, right associativity) : py_scope.
Notation "c1 ;; c2" := (bind c1 (fun _ => c2))
  (at level 61, right associativity) : py_scope.
Local Open Scope py_scope.

Definition is_ZeroDivisionError (e : exn) : bool :=
  match e with ZeroDivisionError => true | _ => false end.

Definition is_KeyboardInterrupt (e : exn) : bool :=
  match e with KeyboardInterrupt => true | _ => false end.

(** ** Functions of the program *)

Definition active_indeces : list Z := [1; 2; 3; 7; 8].

(** The [for index, element in enumerate(...)] loop of [cpu_times]. *)
Fixpoint cpu_times_loop (index : Z) (elements : list string)
                        (cpuactive cputotal : Z) : outcome (Z * Z) :=
  match elements with
  | [] => Ret (cpuactive, cputotal)
  | element :: rest =>
      match Py.int element with
      | Raise e => Raise e
      | Ret value =>
          let cputotal := cputotal + value in
          let cpuactive :=
            if existsb (Z.eqb index) active_indeces
            then cpuactive + value else cpuactive in
          cpu_times_loop (index + 1) rest cpuactive cputotal
      end
  end.

(** The body of [cpu_times] once the first line has been read. *)
Definition cpu_times_of_line (cputimes : string) : outcome (Z * Z) :=
  cpu_times_loop 0 (skipn 2 (Py.split " " cputimes)) 0 0.

Section Program.

Variable E : Env.
Variable cfg : Config.

Definition time_time : M f64 :=
  fun w => (Ret (clock E (clock_reads w)), set_clock_reads w (S (clock_reads w))).

(** Returns a tuple of active and total CPU times. (active, total) *)
Definition cpu_times : M (Z * Z) :=
  fun w =>
    let w' := set_stat_reads w (S (stat_reads w)) in
    match proc_stat E (stat_reads w) with
    | Some cputimes => (cpu_times_of_line cputimes, w')
    | None => (Raise (SystemExit 3), emit w' PrintError)
    end.

Definition cpu_load : M f64 :=
  prev <- (fun w => match cpu_load_prev w with
                    | Some prev => ret prev w
                    | None => cpu_times w
                    end) ;;
  curr <- cpu_times ;;
  load <- try_except
            (dt <- lift (Py.float (snd curr - snd prev)) ;;
             da <- lift (Py.float (fst curr - fst prev)) ;;
             dt' <- lift (Py.float (snd curr - snd prev)) ;;
             lift (Py.truediv (mul lit_100_0 (sub dt da)) dt'))
            is_ZeroDivisionError
            (ret zero) ;;
  modify (fun w => set_cpu_load_prev w (Some curr)) ;;
  ret load.

Definition cpu_freq : M f64 := fun w => (vc_measure_clock E (sensor_reads w), w).

Definition cpu_temp : M f64 :=
  fun w =>
    match sysfs_temp E (sensor_reads w) with
    | Some r => (r, w)
    | None => (Raise (SystemExit 3), emit w PrintError)
    end.

Definition gpu_temp : M f64 := fun w => (vc_measure_temp E (sensor_reads w), w).

Definition get_throttled : M Z := fun w => (vc_get_throttled E (sensor_reads w), w).

Definition cpu_volts : M f64 := fun w => (vc_measure_volts E (sensor_reads w), w).

(** HH:MM:SS string since the first call. *)
Definition lapsed_time (now : f64) : M string :=
  fun w =>
    let start_time :=
      match lapsed_time_start_time w with
      | Some t => t
      | None => now
      end in
    let lapsed := sub now start_time in
    (strftime_gmtime E lapsed, set_lapsed_time_start_time w (Some start_time)).

Definition set_field (f : Data.t -> Data.t) : M unit :=
  modify (fun w => set_data w (f (data w))).

(** [Data.read] on the module-level [data]. *)
Definition Data_read (now : f64) : M unit :=
  v <- lapsed_time now ;; set_field (fun d => Data.set_time d (Some v)) ;;
  v <- cpu_temp ;; set_field (fun d => Data.set_cpu_temp d v) ;;
  v <- cpu_load ;; set_field (fun d => Data.set_cpu_load d v) ;;
  v <- cpu_freq ;; set_field (fun d => Data.set_cpu_freq d v) ;;
  v <- cpu_volts ;; set_field (fun d => Data.set_cpu_volts d v) ;;
  v <- gpu_temp ;; set_field (fun d => Data.set_gpu_temp d v) ;;
  v <- get_throttled ;; set_field (fun d => Data.set_throttled d v) ;;
  modify (fun w => set_sensor_reads w (S (sensor_reads w))).

(** Issues a console boop every 'interval' seconds, if data.throttled is
    flagged *)
Definition console_throttling_alert (d : Data.t) : M unit :=
  match Console_Alert cfg with
  | None => ret tt
  | Some min_interval =>
      (fun w => match last_beep w with
                | Some _ => ret tt w
                | None => (t <- time_time ;;
                           modify (fun w => set_last_beep w (Some t))) w
                end) ;;
      if Z.eqb (Z.land (Data.throttled d) 0x07) 0 then ret tt
      else
        now <- time_time ;;
        last <- (fun w => match last_beep w with
                          | Some t => ret t w
                          | None => raise NameError w
                          end) ;;
        if gtb (sub now last) min_interval then
          t <- time_time ;;
          modify (fun w => set_last_beep w (Some t)) ;;
          modify (fun w => emit w Bell)
        else ret tt
  end.

(** ** The scheduler loop *)

(** A statement boundary of the loop body, where a pending
    [KeyboardInterrupt] is delivered. *)
Definition boundary : M unit :=
  fun w =>
    let w' := set_boundaries w (S (boundaries w)) in
    if sigint E (boundaries w) then (Raise KeyboardInterrupt, w') else (Ret tt, w').

(** [csv.writerow(cells)] on the writer of [csv_file] *)
Definition csv_writerow (cells : list cell) : M unit :=
  fun w =>
    match csv_file w with
    | Some true => (Ret tt, emit w (CsvRow cells))
    | Some false => (Raise ValueError, w)
    | None => (Raise (OtherError "AttributeError"), w)
    end.

(** [csv_file.close()] *)
Definition csv_file_close : M unit :=
  fun w =>
    match csv_file w with
    | Some true => (Ret tt, set_csv_file (emit w CsvClose) (Some false))
    | Some false => (Ret tt, w)
    | None => (Raise NameError, w)
    end.

Definition print_status : M unit :=
  elapsed <- (fun w => lapsed_time (next_tick w) w) ;;
  modify (fun w =>
    emit w (StatusLine elapsed
                       (Data.cpu_temp (data w))
                       (Data.cpu_volts (data w))
                       (Data.cpu_load (data w))
                       (Data.cpu_freq (data w))
                       (Data.gpu_temp (data w))
                       (Data.throttled_string (data w)))).

(** The statements inside [try:]. *)
Definition loop_body : M unit :=
  boundary ;;
  now <- time_time ;;
  sleep_duration <- (fun w => ret (sub (next_tick w) now) w) ;;
  boundary ;;
  (if gtb sleep_duration zero
   then modify (fun w => emit w (Sleep sleep_duration))
   else ret tt) ;;
  boundary ;;
  (fun w => Data_read (next_tick w) w) ;;
  boundary ;;
  (fun w => console_throttling_alert (data w) w) ;;
  boundary ;;
  match CSV_File cfg with
  | Some _ => (fun w => csv_writerow (Data.row cfg (data w)) w)
  | None => ret tt
  end ;;
  boundary ;;
  print_status ;;
  boundary ;;
  modify (fun w => set_next_tick w (add (next_tick w) (Interval cfg))).

(** The [except KeyboardInterrupt:] suite. *)
Definition interrupt_handler : M unit :=
  try_except csv_file_close (fun _ => true) (ret tt) ;;
  modify (fun w => emit w (PrintLine "")) ;;
  raise (SystemExit 0).

Definition iteration : M unit :=
  try_except loop_body is_KeyboardInterrupt interrupt_handler.

(** [while True:], unrolled [fuel] times. *)
Fixpoint main_loop (fuel : nat) : M unit :=
  match fuel with
  | O => ret tt
  | S fuel' => iteration ;; main_loop fuel'
  end.

(** [start_time = time.time()] and the first [next_tick]; [start_time]
    itself is not read again. *)
Definition loop_init : M unit :=
  start_time <- time_time ;;
  modify (fun w => set_next_tick w (add start_time lit_0_5)).

End Program.

(** ** Predicates of the specification *)

(** What the specification asks of one cell of the tag: [now] and [ever]
    are the bit indices, [upper] and [lower] the two letters. *)
Definition tri_state (w now ever : Z) (upper lower c : ascii) : Prop :=
  let mask := Z.lor (2 ^ now) (2 ^ ever) in
  (c = upper <-> Z.testbit w now = true) /\
  (c = lower <-> Z.land w mask <> 0 /\ Z.testbit w now = false) /\
  (c = " "%char <-> Z.land w mask = 0).

(** The load of the specification between two snapshots
    [(active, total)]: [100 * ((total1 - total0) - (active1 - active0)) /
    (total1 - total0)], in binary64 arithmetic. *)
Definition load_percent (prev curr : Z * Z) : f64 :=
  let total := of_Z (snd curr - snd prev) in
  let active := of_Z (fst curr - fst prev) in
  div (mul lit_100_0 (sub total active)) total.

(** ** The loop body in two parts, and what its steps preserve *)

(** The durations of the sleeps in a trace, oldest first. *)
Fixpoint slept (evs : list event) : list f64 :=
  match evs with
  | [] => []
  | Sleep duration :: rest => duration :: slept rest
  | _ :: rest => slept rest
  end.

(** Steps that neither move [next_tick] nor sleep. *)
Definition quiet (w w' : World) : Prop :=
  next_tick w' = next_tick w /\ slept (trace w') = slept (trace w).

Definition framed {A : Type} (c : M A) : Prop :=
  forall w : World, quiet w (snd (c w)).

(** The statements of the loop body that follow the sleep. *)
Definition measure_and_advance (E : Env) (cfg : Config) : M unit :=
  boundary E ;;
  (fun w => Data_read E (next_tick w) w) ;;
  boundary E ;;
  (fun w => console_throttling_alert E cfg (data w) w) ;;
  boundary E ;;
  match CSV_File cfg with
  | Some _ => (fun w => csv_writerow (Data.row cfg (data w)) w)
  | None => ret tt
  end ;;
  boundary E ;;
  print_status E ;;
  boundary E ;;
  modify (fun w => set_next_tick w (add (next_tick w) (Interval cfg))).

(** Computations that do not sleep, and that move [next_tick] by one
    interval when they complete and not at all when they raise. *)
Definition advances (cfg : Config) (c : M unit) : Prop :=
  forall w : World,
    slept (trace (snd (c w))) = slept (trace w) /\
    next_tick (snd (c w))
    = match fst (c w) with
      | Ret _ => add (next_tick w) (Interval cfg)
      | Raise _ => next_tick w
      end.

(** ** Worlds and environments to run the program in *)

(** The process before any of the functions has run. *)
Definition initial_world (dialect : string) : World :=
  {| clock_reads := 0;
     stat_reads := 0;
     sensor_reads := 0;
     boundaries := 0;
     cpu_load_prev := None;
     lapsed_time_start_time := None;
     last_beep := None;
     data := Data.init dialect;
     next_tick := zero;
     csv_file := None;
     trace := [] |}.

(** A first line of /proc/stat: the label, two spaces, the counters and
    the end of the line. *)
Definition stat_line (counters : string) : string :=
  "cpu  " ++ counters ++ String "010"%char EmptyString.

(** A machine whose /proc/stat shows the given lines one after the other
    (and cannot be opened once they are used up), whose clock shows the
    given times (and zero afterwards), whose sensors answer zero and whose
    throttle word is [throttled]; the interrupt arrives at the statement
    boundary [sigint_at], if any. *)
Definition machine (stat : list string) (times : list f64) (throttled : Z)
                   (sigint_at : option nat) : Env :=
  {| clock := fun n => nth n times zero;
     proc_stat := fun n => nth_error stat n;
     sysfs_temp := fun _ => Some (Ret zero);
     vc_measure_clock := fun _ => Ret zero;
     vc_measure_volts := fun _ => Ret zero;
     vc_measure_temp := fun _ => Ret zero;
     vc_get_throttled := fun _ => Ret throttled;
     strftime_gmtime := fun _ => Ret "00:00:00";
     sigint := fun n => match sigint_at with
                        | Some k => Nat.eqb n k
                        | None => false
                        end |}.

(** A machine started at clock 1700000000 and that is late once: the
    loop reads the clock on time in its first and third iterations and half
    a second after the target in the second. *)
Definition late_machine : Env :=
  machine [ stat_line "100 20 30 800 5 1 2 0 0 0";
            stat_line "100 20 30 800 5 1 2 0 0 0";
            stat_line "130 30 40 880 5 1 2 0 0 0";
            stat_line "150 40 50 960 5 1 2 0 0 0" ]
          [ of_Z 1700000000; of_Z 1700000000; of_Z 1700000002; of_Z 1700000002 ]
          0x50005 None.

(** A configuration that logs to a file. *)
Definition logging_config : Config :=
  mkConfig "FULL" (Some "pithermon.csv") "finnish" lit_1_0 None.

(** The configuration after [-i 0.1]: the interval is the float nearest
    to one tenth. *)
Definition tenth_config : Config :=
  mkConfig "STANDARD" None "finnish" (div (of_Z 1) (of_Z 10)) None.

(** The value of a finite float counted in units of [2^-k], when it is a
    whole number of them. *)
Definition in_units (k : Z) (x : f64) : option Z :=
  match x with
  | S754_zero _ => Some 0
  | S754_finite s m e =>
      if Z.leb 0 (e + k)
      then Some ((if s then Z.neg m else Z.pos m) * 2 ^ (e + k))
      else None
  | _ => None
  end.

(** A machine on which the interrupt arrives while the fifth statement of
    the loop body, the writing of the row, is about to start. *)
Definition interrupted_machine : Env :=
  machine [ stat_line "100 20 30 800 5 1 2 0 0 0";
            stat_line "100 20 30 800 5 1 2 0 0 0" ]
          [ of_Z 1700000000; of_Z 1700000000 ]
          0x50005 (Some 4%nat).

(** ** Notions used to state further properties *)

(** The cell that belongs under a column name. *)
Definition column (d : Data.t) (name : string) : cell :=
  let num (x : f64) := CStr (Data.float2str d x) in
  let bit (i : Z) := CInt (Z.b2z (Z.testbit (Data.throttled d) i)) in
  if String.eqb name "Time" then Data.time_cell d
  else if String.eqb name "CPU Temperature" then num (Data.cpu_temp d)
  else if String.eqb name "CPU Load" then num (Data.cpu_load d)
  else if String.eqb name "CPU MHz" then num (Data.cpu_freq d)
  else if String.eqb name "CPU Volts" then num (Data.cpu_volts d)
  else if String.eqb name "GPU Temperature" then num (Data.gpu_temp d)
  else if String.eqb name "Undervoltage" then bit 0
  else if String.eqb name "ARM Frequency Capped" then bit 1
  else if String.eqb name "Throttled" then bit 2
  else if String.eqb name "Undervoltage has occured" then bit 16
  else if String.eqb name "ARM Frequencey Capping has occured" then bit 17
  else if String.eqb name "Throttling has occured" then bit 18
  else CNone.

(** Whether no two names of a list are the same. *)
Fixpoint distinct (names : list string) : bool :=
  match names with
  | [] => true
  | name :: rest => negb (existsb (String.eqb name) rest) && distinct rest
  end.

(** Whether [s] holds the character [c]. *)
Definition has_char (c : ascii) (s : string) : bool :=
  existsb (Ascii.eqb c) (list_ascii_of_string s).

(** Whether [s] is made of the whitespace that [int] ignores. *)
Definition blank (s : string) : bool :=
  forallb Py.is_space (list_ascii_of_string s).

Definition total_of (values : list Z) : Z := fold_right Z.add 0 values.

(** A machine like [E] whose thermal zone file cannot be opened. *)
Definition without_thermal_zone (E : Env) : Env :=
  {| clock := clock E;
     proc_stat := proc_stat E;
     sysfs_temp := fun _ => None;
     vc_measure_clock := vc_measure_clock E;
     vc_measure_volts := vc_measure_volts E;
     vc_measure_temp := vc_measure_temp E;
     vc_get_throttled := vc_get_throttled E;
     strftime_gmtime := strftime_gmtime E;
     sigint := sigint E |}.

(** The world in which the loop starts: the [Data] object made for the
    dialect, the log file open or not, and [next_tick] set. *)
Definition started (E : Env) (dialect : string) (log_open : bool) : World :=
  snd (loop_init E (set_csv_file (initial_world dialect)
                                 (if log_open then Some true else None))).

(** *** Relations that the steps of the program respect *)

(** Every run of [c] relates the world before to the world after. *)
Definition respects (R : World -> World -> Prop) {A : Type} (c : M A) : Prop :=
  forall w : World, R w (snd (c w)).

(** A reflexive and transitive relation between worlds that holds across
    the moves of the clock and file cursors and across the updates of the
    stored snapshot and of the last bell time. *)
Class Invariant (R : World -> World -> Prop) : Prop := {
  inv_refl : forall w, R w w;
  inv_trans : forall w1 w2 w3, R w1 w2 -> R w2 w3 -> R w1 w3;
  inv_clock_reads : forall w v, R w (set_clock_reads w v);
  inv_stat_reads : forall w v, R w (set_stat_reads w v);
  inv_cpu_load_prev : forall w v, R w (set_cpu_load_prev w v);
  inv_last_beep : forall w v, R w (set_last_beep w v)
}.

(** The observation [obs] is the same after as before. *)
Definition same {X : Type} (obs : World -> X) (w w' : World) : Prop :=
  obs w' = obs w.

(** The trace has grown by events that satisfy [P]. *)
Definition extends (P : event -> Prop) (w w' : World) : Prop :=
  exists evs : list event, trace w' = (trace w ++ evs)%list /\ Forall P evs.

(** The start time of [lapsed_time], once set, is kept. *)
Definition start_kept (w w' : World) : Prop :=
  forall t : f64,
    lapsed_time_start_time w = Some t -> lapsed_time_start_time w' = Some t.

(** Two worlds that show the sampler the same state. *)
Definition same_counters (w a : World) : Prop :=
  stat_reads w = stat_reads a /\ cpu_load_prev w = cpu_load_prev a.

(** Runs of [c] from worlds related by [Q] give the same result and end
    in worlds related by [Q]. *)
Definition lockstep (Q : World -> World -> Prop) {A : Type} (c : M A) : Prop :=
  forall w a : World,
    Q w a -> fst (c w) = fst (c a) /\ Q (snd (c w)) (snd (c a)).

Definition is_status (ev : event) : bool :=
  match ev with StatusLine _ _ _ _ _ _ _ => true | _ => false end.

Definition is_row (ev : event) : bool :=
  match ev with CsvRow _ => true | _ => false end.

(** How many events of a trace satisfy [p]. *)
Definition count (p : event -> bool) (evs : list event) : nat :=
  List.length (filter p evs).

(** ** More of the Python runtime: text *)

Module PyStr.

Definition code (c : ascii) : Z := Z.of_nat (nat_of_ascii c).

(** [c.isspace()] for a character below 256. *)
Definition isspace (c : ascii) : bool :=
  let n := code c in
  (Z.leb 9 n && Z.leb n 13) || (Z.leb 28 n && Z.leb n 32)
  || Z.eqb n 133 || Z.eqb n 160.

(** The whitespace that [int] and [float] ignore around a literal, for
    characters below 256. *)
Definition num_space (c : ascii) : bool :=
  let n := code c in
  (Z.leb 9 n && Z.leb n 13) || Z.eqb n 32 || Z.eqb n 133 || Z.eqb n 160.

Fixpoint lstrip_if (p : ascii -> bool) (s : string) : string :=
  match s with
  | String c s' => if p c then lstrip_if p s' else s
  | EmptyString => EmptyString
  end.

Fixpoint rstrip_if (p : ascii -> bool) (s : string) : string :=
  match s with
  | String c s' =>
      match rstrip_if p s' with
      | EmptyString => if p c then EmptyString else String c EmptyString
      | r => String c r
      end
  | EmptyString => EmptyString
  end.

(** [c in chars] *)
Definition member (chars : string) (c : ascii) : bool :=
  existsb (Ascii.eqb c) (list_ascii_of_string chars).

(** [s.strip()] *)
Definition strip (s : string) : string := rstrip_if isspace (lstrip_if isspace s).

(** [s.strip(chars)] and [s.rstrip(chars)] *)
Definition strip_chars (chars s : string) : string :=
  rstrip_if (member chars) (lstrip_if (member chars) s).

Definition rstrip_chars (chars s : string) : string := rstrip_if (member chars) s.

(** [s.find(c)] for a one-character [c]: the first index, or -1. *)
Fixpoint find (c : ascii) (s : string) : Z :=
  match s with
  | EmptyString => -1
  | String a s' =>
      if Ascii.eqb a c then 0
      else let i := find c s' in if Z.ltb i 0 then -1 else i + 1
  end.

Fixpoint drop (n : nat) (s : string) : string :=
  match n, s with
  | S n', String _ s' => drop n' s'
  | _, _ => s
  end.

(** [s[i:]] *)
Definition slice_from (i : Z) (s : string) : string :=
  let len := Z.of_nat (String.length s) in
  drop (Z.to_nat (if Z.ltb i 0 then Z.max 0 (len + i) else i)) s.

(** [s[0:n]] *)
Definition slice_to (n : nat) (s : string) : string := substring 0 n s.

(** *** [int(s, 16)] *)

Definition hex_value (c : ascii) : option Z :=
  let n := code c in
  if Z.leb 48 n && Z.leb n 57 then Some (n - 48)
  else if Z.leb 97 n && Z.leb n 102 then Some (n - 87)
  else if Z.leb 65 n && Z.leb n 70 then Some (n - 55)
  else None.

(** Hexadecimal digits; single underscores may separate them. *)
Fixpoint parse_hex (acc : Z) (after_digit : bool) (s : string) : option Z :=
  match s with
  | EmptyString => if after_digit then Some acc else None
  | String c s' =>
      match hex_value c with
      | Some d => parse_hex (16 * acc + d) true s'
      | None =>
          if Ascii.eqb c "_" then
            if after_digit then parse_hex acc false s' else None
          else None
      end
  end.

(** A leading sign, and what follows it. *)
Definition split_sign (s : string) : bool * string :=
  match s with
  | String "-" r => (true, r)
  | String "+" r => (false, r)
  | r => (false, r)
  end.

(** The text after the prefix [0x] or [0X], if there is one, and after
    the one underscore that may follow the prefix. *)
Definition skip_0x (s : string) : string :=
  match s with
  | String "0" (String x r) =>
      if Ascii.eqb x "x" || Ascii.eqb x "X" then
        match r with
        | String "_" r' => r'
        | _ => r
        end
      else s
  | _ => s
  end.

(** Surrounding whitespace is dropped, a sign may lead, then the prefix
    may come; anything but digits after that raises [ValueError]. *)
Definition int16 (s : string) : outcome Z :=
  let body := rstrip_if num_space (lstrip_if num_space s) in
  let '(negative, unsigned) := split_sign body in
  match parse_hex 0 false (skip_0x unsigned) with
  | Some z => Ret (if negative then - z else z)
  | None => Raise ValueError
  end.

(** *** [float(s)] *)

(** Underscores may stand between two digits only; they are removed. *)
Fixpoint remove_underscores (prev : ascii) (s : string) : option string :=
  match s with
  | EmptyString => if Ascii.eqb prev "_" then None else Some EmptyString
  | String c s' =>
      if Ascii.eqb c "_" then
        if Py.is_digit prev then remove_underscores c s' else None
      else if Ascii.eqb prev "_" && negb (Py.is_digit c) then None
      else option_map (String c) (remove_underscores c s')
  end.

(** The leading digits of [s]: their value after [acc], their number,
    and what follows them. *)
Fixpoint take_digits (acc : Z) (s : string) : Z * nat * string :=
  match s with
  | String c s' =>
      if Py.is_digit c then
        let '(v, n, r) := take_digits (10 * acc + Py.digit_value c) s' in
        (v, S n, r)
      else (acc, O, s)
  | EmptyString => (acc, O, s)
  end.

Definition lower (c : ascii) : ascii :=
  let n := code c in
  if Z.leb 65 n && Z.leb n 90 then ascii_of_nat (Z.to_nat (n + 32)) else c.

Fixpoint lowercase (s : string) : string :=
  match s with
  | String c s' => String (lower c) (lowercase s')
  | EmptyString => EmptyString
  end.

(** The float nearest to [d * 10^e], ties to even. *)
Definition decimal_to_float (negative : bool) (d e : Z) : f64 :=
  match d with
  | Zpos p =>
      if Z.leb 0 e then
        binary_normalize prec emax ((if negative then - d else d) * 10 ^ e) 0 false
      else
        div (S754_finite negative p 0)
            (S754_finite false (Z.to_pos (10 ^ (- e))) 0)
  | _ => S754_zero negative
  end.

(** The exponent part: nothing, or [e] or [E], a sign if any, and digits
    to the end. *)
Definition parse_exponent (s : string) : option Z :=
  match s with
  | EmptyString => Some 0
  | String c r =>
      if Ascii.eqb (lower c) "e" then
        let '(negative, digits) := split_sign r in
        match take_digits 0 digits with
        | (v, S _, EmptyString) => Some (if negative then - v else v)
        | _ => None
        end
      else None
  end.

(** Digits, a point, digits and an exponent, with a digit on one side of
    the point at least. *)
Definition parse_decimal (negative : bool) (s : string) : option f64 :=
  let '(ip, n_ip, r) := take_digits 0 s in
  let '(d, n_fp, r') :=
    match r with
    | String "." after => take_digits ip after
    | _ => (ip, O, r)
    end in
  if Nat.eqb (n_ip + n_fp) 0 then None
  else
    match parse_exponent r' with
    | Some x => Some (decimal_to_float negative d (x - Z.of_nat n_fp))
    | None => None
    end.

(** [float(s)] on a string: surrounding whitespace is dropped, a sign
    may lead, then comes [inf], [infinity] or [nan] in any case, or a
    decimal number; anything else raises [ValueError]. *)
Definition float (s : string) : outcome f64 :=
  let body := rstrip_if num_space (lstrip_if num_space s) in
  match remove_underscores " " body with
  | None => Raise ValueError
  | Some plain =>
      let '(negative, unsigned) := split_sign plain in
      let word := lowercase unsigned in
      if String.eqb word "inf" || String.eqb word "infinity" then
        Ret (S754_infinity negative)
      else if String.eqb word "nan" then Ret S754_nan
      else
        match parse_decimal negative unsigned with
        | Some x => Ret x
        | None => Raise ValueError
        end
  end.

End PyStr.

(** ** More of the Python runtime: [hex], [zfill], [splitlines], [join]
       and the HH:MM:SS of a count of seconds *)

Module PyFmt.

Definition hex_digit (d : Z) : ascii :=
  match get (Z.to_nat d) "0123456789abcdef" with
  | Some c => c
  | None => "0"%char
  end.

(** The hexadecimal digits of [n], the most significant first, before
    [acc]. *)
Fixpoint hex_loop (fuel : nat) (n : Z) (acc : string) : string :=
  let acc' := String (hex_digit (n mod 16)) acc in
  match fuel with
  | O => acc'
  | S fuel' => if Z.eqb (n / 16) 0 then acc' else hex_loop fuel' (n / 16) acc'
  end.

(** [hex(n)] *)
Definition hex (n : Z) : string :=
  (if Z.ltb n 0 then "-0x" else "0x")
  ++ hex_loop (Z.to_nat (Z.log2 (Z.abs n))) (Z.abs n) EmptyString.

(** [s.zfill(width)] *)
Definition zfill (width : nat) (s : string) : string :=
  let pad := Py.zeros (width - String.length s) in
  match s with
  | String "+" r => String "+" (pad ++ r)
  | String "-" r => String "-" (pad ++ r)
  | _ => pad ++ s
  end.

(** Where [splitlines] breaks a line, for characters below 256. *)
Definition linebreak (c : ascii) : bool :=
  let n := PyStr.code c in
  (Z.leb 10 n && Z.leb n 13) || (Z.leb 28 n && Z.leb n 30) || Z.eqb n 133.

(** [s.splitlines()]: a carriage return and the line feed after it break
    the line once; no empty line follows a final break. *)
Fixpoint splitlines (s : string) : list string :=
  match s with
  | EmptyString => []
  | String c s' =>
      if linebreak c then
        EmptyString ::
        match s' with
        | String c' s'' =>
            if Ascii.eqb c "013" && Ascii.eqb c' "010" then splitlines s''
            else splitlines s'
        | EmptyString => []
        end
      else
        match splitlines s' with
        | line :: rest => String c line :: rest
        | [] => [String c EmptyString]
        end
  end.

(** [sep.join(parts)] *)
Fixpoint join (sep : string) (parts : list string) : string :=
  match parts with
  | [] => EmptyString
  | [part] => part
  | part :: rest => part ++ sep ++ join sep rest
  end.

(** The largest integer not above a finite float. *)
Definition floor (x : f64) : option Z :=
  match x with
  | S754_zero _ => Some 0
  | S754_finite s m e =>
      let z := if s then Zneg m else Zpos m in
      Some (if Z.leb 0 e then z * 2 ^ e else z / 2 ^ (- e))
  | _ => None
  end.

Definition two_digits (n : Z) : string :=
  if Z.ltb n 10 then "0" ++ Py.digits_of n else Py.digits_of n.

(** [time.strftime("%H:%M:%S", time.gmtime(t))] for a count [t] of
    seconds that fits the platform's [time_t]. *)
Definition HMS (t : Z) : string :=
  two_digits ((t / 3600) mod 24) ++ ":" ++ two_digits ((t / 60) mod 60)
  ++ ":" ++ two_digits (t mod 60).

End PyFmt.

(** ** More functions of the program *)

(** [toHex]: two hexadecimal digits for each character, for characters
    below 256. *)
Definition toHex (x : string) : string :=
  concat EmptyString
         (map (fun c => PyFmt.zfill 2 (PyStr.slice_from 2 (PyFmt.hex (PyStr.code c))))
              (list_ascii_of_string x)).

(** What [get_model] makes of the text of the device tree's model file. *)
Definition get_model_of_text (text : string) : string :=
  PyStr.strip_chars (String "000" EmptyString) (PyStr.strip text).

(** The loop of [get_revision] over the lines of /proc/cpuinfo; [None]
    when the loop ends without a [return]. *)
Fixpoint get_revision_of_lines (lines : list string) : option string :=
  match lines with
  | [] => None
  | line :: rest =>
      if String.eqb (PyStr.slice_to 8 line) "Revision" then
        Some (PyStr.strip (PyStr.slice_from (PyStr.find ":" line + 1) line))
      else get_revision_of_lines rest
  end.

(** The loop of [get_serial]. *)
Fixpoint get_serial_of_lines (lines : list string) : option string :=
  match lines with
  | [] => None
  | line :: rest =>
      if String.eqb (PyStr.slice_to 6 line) "Serial" then
        Some (PyStr.strip (PyStr.slice_from (PyStr.find ":" line + 1) line))
      else get_serial_of_lines rest
  end.

(** [1000000.0] *)
Definition lit_1000000_0 : f64 := of_Z 1000000.

(** What [cpu_freq] makes of the answer of [vcgencmd measure_clock arm]. *)
Definition cpu_freq_of_output (string : string) : outcome f64 :=
  match PyStr.float (PyStr.strip (PyStr.slice_from (PyStr.find "=" string + 1) string)) with
  | Ret hz => Py.truediv hz lit_1000000_0
  | Raise e => Raise e
  end.

(** [1000], as the float that the division makes of it *)
Definition lit_1000 : f64 := of_Z 1000.

(** What [cpu_temp] makes of the text of the thermal zone file. *)
Definition cpu_temp_of_text (text : string) : outcome f64 :=
  match PyStr.float text with
  | Ret millidegrees => Py.truediv millidegrees lit_1000
  | Raise e => Raise e
  end.

(** What [gpu_temp] makes of the answer of [vcgencmd measure_temp]. *)
Definition gpu_temp_of_output (string : string) : outcome f64 :=
  PyStr.float
    (PyStr.rstrip_chars "'C"
       (PyStr.strip (PyStr.slice_from (PyStr.find "=" string + 1) string))).

(** What [get_throttled] makes of the answer of [vcgencmd get_throttled]. *)
Definition get_throttled_of_output (string : string) : outcome Z :=
  PyStr.int16 (PyStr.strip (PyStr.slice_from (PyStr.find "=" string + 1) string)).

(** What [cpu_volts] makes of the answer of [vcgencmd measure_volts core]. *)
Definition cpu_volts_of_output (string : string) : outcome f64 :=
  PyStr.float
    (PyStr.rstrip_chars "'V"
       (PyStr.strip (PyStr.slice_from (PyStr.find "=" string + 1) string))).

(** ** Notions used to state the properties of the parsers *)

(** Whether [p] holds of no end of [s]: nothing for
    [lstrip] or [rstrip] to remove. *)
Definition first_char (s : string) : option ascii :=
  match s with
  | String c _ => Some c
  | EmptyString => None
  end.

Fixpoint last_char (s : string) : option ascii :=
  match s with
  | EmptyString => None
  | String c EmptyString => Some c
  | String _ s' => last_char s'
  end.

Definition holds_at (p : ascii -> bool) (c : option ascii) : bool :=
  match c with
  | Some c => p c
  | None => false
  end.

(** Whether every character of [s] satisfies [p]. *)
Definition all_chars (p : ascii -> bool) (s : string) : bool :=
  forallb p (list_ascii_of_string s).

(** The digits of a list, as text, in base 10 or 16. *)
Definition digits_text (ds : list Z) : string :=
  string_of_list_ascii (map PyFmt.hex_digit ds).

(** Whether all of [ds] are digits of the base. *)
Definition digits_below (base : Z) (ds : list Z) : bool :=
  forallb (fun d => Z.leb 0 d && Z.ltb d base) ds.

(** The number that the digits [ds] write in a base, after [acc]. *)
Definition digits_value (base acc : Z) (ds : list Z) : Z :=
  fold_left (fun a d => base * a + d) ds acc.

(** The inverse of [toHex]: two hexadecimal digits make a character. *)
Fixpoint fromHex (s : string) : option string :=
  match s with
  | EmptyString => Some EmptyString
  | String hi (String lo rest) =>
      match PyStr.hex_value hi, PyStr.hex_value lo, fromHex rest with
      | Some h, Some l, Some x => Some (String (ascii_of_nat (Z.to_nat (16 * h + l))) x)
      | _, _, _ => None
      end
  | String _ EmptyString => None
  end.

(** Whether a line of /proc/cpuinfo starts with a key. *)
Definition starts_with (key line : string) : bool :=
  String.eqb (PyStr.slice_to (String.length key) line) key.

Definition is_finite_float (x : f64) : bool :=
  match x with
  | S754_zero _ | S754_finite _ _ _ => true
  | _ => false
  end.

(** An environment formats elapsed times as the C library does, for
    counts of seconds from zero up to what every [time_t] holds. *)
Definition formats_elapsed_time (E : Env) : Prop :=
  forall (lapsed : f64) (t : Z),
    PyFmt.floor lapsed = Some t -> 0 <= t < 2 ^ 31 ->
    strftime_gmtime E lapsed = Ret (PyFmt.HMS t).

(** [time.strftime("%H:%M:%S", time.gmtime(lapsed))] where [time_t] has
    32 bits. *)
Definition strftime_gmtime_32 (lapsed : f64) : outcome string :=
  match PyFmt.floor lapsed with
  | Some t =>
      if Z.leb (- 2 ^ 31) t && Z.ltb t (2 ^ 31) then Ret (PyFmt.HMS t)
      else Raise OverflowError
  | None =>
      match lapsed with
      | S754_nan => Raise ValueError
      | _ => Raise OverflowError
      end
  end.

(** A machine like [E] that formats elapsed times itself. *)
Definition with_clock_format (E : Env) : Env :=
  {| clock := clock E;
     proc_stat := proc_stat E;
     sysfs_temp := sysfs_temp E;
     vc_measure_clock := vc_measure_clock E;
     vc_measure_volts := vc_measure_volts E;
     vc_measure_temp := vc_measure_temp E;
     vc_get_throttled := vc_get_throttled E;
     strftime_gmtime := strftime_gmtime_32;
     sigint := sigint E |}.

(** ** Notions used to state the properties of the text functions *)

(** Whether the two digits that [toHex] writes for [c] read back as [c]. *)
Definition reads_back (c : ascii) : bool :=
  match PyFmt.zfill 2 (PyStr.slice_from 2 (PyFmt.hex (PyStr.code c))) with
  | String hi (String lo EmptyString) =>
      match PyStr.hex_value hi, PyStr.hex_value lo with
      | Some h, Some l => Ascii.eqb (ascii_of_nat (Z.to_nat (16 * h + l))) c
      | _, _ => false
      end
  | _ => false
  end.

(** The cell that [csv_write_header] writes beside 'GPU Firmware':
    [' '.join(get_firmware().splitlines(False))]. *)
Definition firmware_cell (version : string) : string :=
  PyFmt.join " " (PyFmt.splitlines version).

(** Whether [s] holds no character at which [splitlines] breaks a line. *)
Definition unbroken (s : string) : bool :=
  all_chars (fun c => negb (PyFmt.linebreak c)) s.

(** ** Notions used to state how the loop ends *)

(** What a turn of the loop that is not cut short may add to the trace:
    a sleep, a bell, a status line, and a row, but a row only with a CSV
    file configured, and then of the width of the header. *)
Definition measurement_event (cfg : Config) (ev : event) : Prop :=
  match ev with
  | Sleep _ | Bell | StatusLine _ _ _ _ _ _ _ => True
  | CsvRow cells =>
      CSV_File cfg <> None /\ List.length cells = List.length (Data.header cfg)
  | PrintError | PrintLine _ | CsvClose => False
  end.

(** What the interrupt handler adds to the trace when it finds the log
    file in the state [file]. *)
Definition handler_output (file : option bool) : list event :=
  (match file with Some true => [CsvClose] | _ => [] end ++ [PrintLine ""])%list.

(** The trace has grown by [body]; after it comes the error line, if the
    run ended with the exit status 3 of an unreadable file. *)
Definition grown_by {A : Type} (body : list event) (w : World)
           (r : outcome A * World) : Prop :=
  match fst r with
  | Ret _ => trace (snd r) = (trace w ++ body)%list
  | Raise e =>
      trace (snd r) = (trace w ++ body)%list \/
      trace (snd r) = (trace w ++ body ++ [PrintError])%list /\ e = SystemExit 3
  end.

(** Every run of [c] grows the trace by events that satisfy [P], and by
    the error line after them when it ends with exit status 3. *)
Definition shaped (P : event -> Prop) {A : Type} (c : M A) : Prop :=
  forall w : World, exists body : list event, Forall P body /\ grown_by body w (c w).

(** An interrupt pending at a statement boundary that [c] passes ends [c]
    there. *)
Definition prompt (E : Env) {A : Type} (c : M A) : Prop :=
  forall w : World,
    (boundaries w <= boundaries (snd (c w)))%nat /\
    forall k : nat,
      (boundaries w <= k < boundaries (snd (c w)))%nat -> sigint E k = true ->
      fst (c w) = Raise KeyboardInterrupt /\ boundaries (snd (c w)) = S k.

(** * Properties *)

(** ** Conversion of integers to binary64 *)

Section FloatOfInt.

Lemma digits2_pos_size (p : positive) : digits2_pos p = Pos.size p.
Proof. induction p; cbn; congruence. Qed.

Lemma Zdigits2_log2 (m : Z) : 0 < m -> Zdigits2 m = Z.log2 m + 1.
Proof.
  destruct m as [|p|p]; try lia. intros _. cbn [Zdigits2].
  rewrite digits2_pos_size. destruct p; cbn [Pos.size Z.log2]; lia.
Qed.

Lemma Zdigits2_bounds (m : Z) :
  0 < m -> 2 ^ (Zdigits2 m - 1) <= m < 2 ^ Zdigits2 m.
Proof.
  intros Hm. rewrite Zdigits2_log2 by assumption.
  replace (Z.log2 m + 1 - 1) with (Z.log2 m) by lia.
  apply Z.log2_spec. assumption.
Qed.

Lemma Zdigits2_unique (m d : Z) :
  0 < d -> 2 ^ (d - 1) <= m < 2 ^ d -> Zdigits2 m = d.
Proof.
  intros Hd Hm.
  assert (0 < m) by (assert (0 < 2 ^ (d - 1)) by (apply Z.pow_pos_nonneg; lia); lia).
  rewrite Zdigits2_log2 by assumption.
  rewrite (Z.log2_unique m (d - 1)); try lia.
  replace (Z.succ (d - 1)) with d by lia. assumption.
Qed.

Lemma shr_1_m (r : shr_record) :
  0 <= shr_m r -> shr_m (shr_1 r) = shr_m r / 2.
Proof.
  destruct r as [m b s]. cbn [shr_m]. intros Hm.
  rewrite <- Z.div2_div.
  destruct m as [|[p|p|]|p]; try reflexivity; lia.
Qed.

Lemma iter_shr_1_m (k : positive) :
  forall r : shr_record,
    0 <= shr_m r -> shr_m (iter_pos shr_1 k r) = shr_m r / 2 ^ Zpos k.
Proof.
  induction k as [k IH|k IH|]; intros r Hr; cbn [iter_pos].
  - assert (H1 : 0 <= shr_m (shr_1 r)).
    { rewrite shr_1_m by assumption. apply Z.div_pos; lia. }
    assert (H2 : 0 <= shr_m (iter_pos shr_1 k (shr_1 r))).
    { rewrite IH by assumption. apply Z.div_pos; [lia | apply Z.pow_pos_nonneg; lia]. }
    rewrite IH, IH, shr_1_m by assumption.
    assert (Hp : 0 < 2 ^ Zpos k) by (apply Z.pow_pos_nonneg; lia).
    rewrite !Z.div_div by lia.
    f_equal.
    replace (Zpos k~1) with (1 + Zpos k + Zpos k) by lia.
    rewrite !Z.pow_add_r by lia. lia.
  - assert (H2 : 0 <= shr_m (iter_pos shr_1 k r)).
    { rewrite IH by assumption. apply Z.div_pos; [lia | apply Z.pow_pos_nonneg; lia]. }
    rewrite IH, IH by assumption.
    assert (Hp : 0 < 2 ^ Zpos k) by (apply Z.pow_pos_nonneg; lia).
    rewrite !Z.div_div by lia.
    f_equal.
    replace (Zpos k~0) with (Zpos k + Zpos k) by lia.
    rewrite !Z.pow_add_r by lia. lia.
  - rewrite shr_1_m by assumption. reflexivity.
Qed.

(** The mantissa and exponent after [shr_fexp], for binary64. *)
Lemma shr_fexp_m (m e : Z) (l : location) :
  0 < m ->
  let n := Z.max 0 (fexp prec emax (Zdigits2 m + e) - e) in
  shr_m (fst (shr_fexp prec emax m e l)) = m / 2 ^ n /\
  snd (shr_fexp prec emax m e l) = e + n.
Proof.
  intros Hm n. unfold shr_fexp, shr. subst n.
  assert (Hrec : shr_m (shr_record_of_loc m l) = m)
    by (destruct l as [|[]]; reflexivity).
  destruct (fexp prec emax (Zdigits2 m + e) - e) as [|k|k] eqn:Hk; cbn [fst snd].
  - rewrite Hrec. cbn. rewrite Z.div_1_r. lia.
  - rewrite iter_shr_1_m by (rewrite Hrec; lia).
    rewrite Hrec. rewrite Z.max_r by lia. split; reflexivity.
  - rewrite Hrec. rewrite Z.max_l by lia. cbn. rewrite Z.div_1_r. lia.
Qed.

Lemma round_nearest_even_bounds (m : Z) (l : location) :
  m <= round_nearest_even m l <= m + 1.
Proof.
  destruct l as [|[]]; cbn; try lia. destruct (Z.even m); lia.
Qed.


Lemma fexp_normal (x : Z) : -1021 <= x -> fexp prec emax x = x - 53.
Proof. intros H. unfold fexp, emin, prec, emax. lia. Qed.

(** Rounding a mantissa of at least 53 bits whose value is within the
    normal range yields a finite float. *)
Lemma binary_round_aux_finite (s : bool) (m e : Z) (l : location) :
  0 < m -> 53 <= Zdigits2 m -> -1021 <= Zdigits2 m + e <= 1023 ->
  exists (m' : positive) (e' : Z),
    binary_round_aux prec emax s m e l = S754_finite s m' e'.
Proof.
  intros Hm Hd He. unfold binary_round_aux.
  destruct (shr_fexp_m m e l Hm) as [H1 H2].
  destruct (shr_fexp prec emax m e l) as [mrs' e'] eqn:E1.
  cbn [fst snd] in H1, H2.
  rewrite fexp_normal in H1, H2 by lia.
  set (d := Zdigits2 m) in *.
  replace (Z.max 0 (d + e - 53 - e)) with (d - 53) in H1, H2 by lia.
  pose proof (Zdigits2_bounds m Hm) as Hb. fold d in Hb.
  assert (HP : 0 < 2 ^ (d - 53)) by (apply Z.pow_pos_nonneg; lia).
  assert (Hlo : 2 ^ (d - 1) = 2 ^ 52 * 2 ^ (d - 53)).
  { rewrite <- Z.pow_add_r by lia. f_equal. lia. }
  assert (Hhi : 2 ^ d = 2 ^ 53 * 2 ^ (d - 53)).
  { rewrite <- Z.pow_add_r by lia. f_equal. lia. }
  assert (Hm1 : 2 ^ 52 <= shr_m mrs' < 2 ^ 53).
  { rewrite H1. split.
    - apply Z.div_le_lower_bound; lia.
    - apply Z.div_lt_upper_bound; lia. }
  set (m2 := round_nearest_even (shr_m mrs') (loc_of_shr_record mrs')).
  pose proof (round_nearest_even_bounds (shr_m mrs') (loc_of_shr_record mrs')) as Hr.
  fold m2 in Hr.
  assert (Hm2 : 2 ^ 52 <= m2 <= 2 ^ 53) by lia.
  assert (Hm2pos : 0 < m2) by (change (2 ^ 52) with 4503599627370496 in Hm2; lia).
  destruct (shr_fexp_m m2 e' loc_Exact Hm2pos) as [H3 H4].
  destruct (shr_fexp prec emax m2 e' loc_Exact) as [mrs'' e''] eqn:E2.
  cbn [fst snd] in H3, H4.
  assert (Hd2 : Zdigits2 m2 = 53 \/ (Zdigits2 m2 = 54 /\ m2 = 2 ^ 53)).
  { destruct (Z.eq_dec m2 (2 ^ 53)) as [->|Hne].
    - right. split; reflexivity.
    - left. apply Zdigits2_unique; [lia |]. change (53 - 1) with 52. lia. }
  assert (Hres : 0 < shr_m mrs'' /\ e'' <= 971).
  { destruct Hd2 as [Hd2|[Hd2 Hpow]]; rewrite Hd2 in H3, H4;
      rewrite fexp_normal in H3, H4 by lia.
    - replace (Z.max 0 (53 + e' - 53 - e')) with 0 in H3, H4 by lia.
      rewrite H3, H4. change (2 ^ 0) with 1. rewrite Z.div_1_r.
      change (2 ^ 52) with 4503599627370496 in Hm2. lia.
    - replace (Z.max 0 (54 + e' - 53 - e')) with 1 in H3, H4 by lia.
      rewrite H3, H4, Hpow. cbn. lia. }
  destruct Hres as [Hpos Hle].
  destruct (shr_m mrs'') as [|q|q]; try lia.
  unfold prec, emax. change (1024 - 53) with 971.
  destruct (Z.leb_spec e'' 971); [| lia].
  eauto.
Qed.

Lemma iter_xO_value (m k : positive) :
  Zpos (Pos.iter xO m k) = Zpos m * 2 ^ Zpos k.
Proof.
  rewrite (Pos.iter_swap_gen _ _ Zpos xO (Z.mul 2)) by reflexivity.
  change (Pos.iter (Z.mul 2) (Zpos m) k) with (Z.shiftl (Zpos m) (Zpos k)).
  apply Z.shiftl_mul_pow2. lia.
Qed.

(** [float(z)] yields a finite float for nonzero [z] below [2^1023] in
    size. *)
Lemma of_Z_finite (z : Z) :
  z <> 0 -> Z.abs z < 2 ^ 1023 ->
  exists (m : positive) (e : Z), of_Z z = S754_finite (Z.ltb z 0) m e.
Proof.
  intros Hz Hb.
  assert (Hgen : forall (s : bool) (p : positive),
             Zpos p < 2 ^ 1023 ->
             exists (m : positive) (e : Z),
               binary_round prec emax s p 0 = S754_finite s m e).
  { intros s p Hp. unfold binary_round.
    pose proof (Zdigits2_bounds (Zpos p) ltac:(lia)) as Hd.
    cbn [Zdigits2] in Hd.
    set (d := Zpos (digits2_pos p)) in *.
    assert (Hd1 : 0 < d) by (subst d; lia).
    assert (Hd2 : d <= 1023).
    { destruct (Z.le_gt_cases d 1023) as [|Hgt]; [assumption |].
      assert (2 ^ 1023 <= 2 ^ (d - 1)) by (apply Z.pow_le_mono_r; lia). lia. }
    replace (d + 0) with d by lia.
    rewrite fexp_normal by lia.
    unfold shl_align.
    destruct (d - 53 - 0) as [|k|k] eqn:Hk.
    - apply binary_round_aux_finite; cbn [Zdigits2]; fold d; lia.
    - apply binary_round_aux_finite; cbn [Zdigits2]; fold d; lia.
    - assert (Hdig : Zdigits2 (Zpos (Pos.iter xO p k)) = 53).
      { apply Zdigits2_unique; [lia |].
        rewrite iter_xO_value.
        assert (Hk' : Zpos k = 53 - d) by lia. rewrite Hk'.
        assert (HP : 0 < 2 ^ (53 - d)) by (apply Z.pow_pos_nonneg; lia).
        replace (2 ^ (53 - 1)) with (2 ^ (d - 1) * 2 ^ (53 - d))
          by (rewrite <- Z.pow_add_r by lia; f_equal; lia).
        replace (2 ^ 53) with (2 ^ d * 2 ^ (53 - d))
          by (rewrite <- Z.pow_add_r by lia; f_equal; lia).
        nia. }
      apply binary_round_aux_finite; rewrite ?Hdig; lia. }
  unfold of_Z, binary_normalize.
  destruct z as [|p|p]; [congruence | |].
  - apply Hgen. lia.
  - apply Hgen. lia.
Qed.

End FloatOfInt.


(** ** The throttle word *)

Section Bits.

Lemma land_pow2 (w i : Z) :
  0 <= i -> Z.land w (2 ^ i) = if Z.testbit w i then 2 ^ i else 0.
Proof.
  intros Hi. apply Z.bits_inj'. intros n Hn.
  rewrite Z.land_spec, Z.pow2_bits_eqb by assumption.
  destruct (Z.testbit w i) eqn:Hw.
  - rewrite Z.pow2_bits_eqb by assumption.
    destruct (Z.eqb_spec i n) as [Heq|Hne].
    + subst n. now rewrite Hw.
    + apply andb_false_r.
  - rewrite Z.bits_0.
    destruct (Z.eqb_spec i n) as [Heq|Hne].
    + subst n. now rewrite Hw.
    + apply andb_false_r.
Qed.

Lemma land_two_bits (w i j : Z) :
  0 <= i -> 0 <= j ->
  Z.land w (Z.lor (2 ^ i) (2 ^ j)) =
  Z.lor (if Z.testbit w i then 2 ^ i else 0) (if Z.testbit w j then 2 ^ j else 0).
Proof.
  intros Hi Hj. now rewrite Z.land_lor_distr_r, !land_pow2.
Qed.

(** One cell of the tag, as [throttled_string] computes it. *)
Lemma cell_render (w i j : Z) (upper lower : string) :
  0 <= i < j ->
  (let x := Z.land w (Z.lor (2 ^ i) (2 ^ j)) in
   if truthy (Z.land x (2 ^ i)) then upper
   else if Z.gtb x 0 then lower else " ")
  = if Z.testbit w i then upper else if Z.testbit w j then lower else " ".
Proof.
  intros Hij. cbv zeta.
  rewrite land_two_bits by lia.
  assert (Hpi : 0 < 2 ^ i) by (apply Z.pow_pos_nonneg; lia).
  assert (Hpj : 0 < 2 ^ j) by (apply Z.pow_pos_nonneg; lia).
  assert (Hj_i : Z.testbit (2 ^ j) i = false) by (apply Z.pow2_bits_false; lia).
  assert (Hnz : forall b : bool,
             truthy (Z.land (Z.lor (2 ^ i) (if b then 2 ^ j else 0)) (2 ^ i)) = true).
  { intros b. rewrite land_pow2, Z.lor_spec, Z.pow2_bits_true by lia.
    cbn. unfold truthy. destruct (Z.eqb_spec (2 ^ i) 0); [lia | reflexivity]. }
  destruct (Z.testbit w i) eqn:Hwi.
  - now rewrite Hnz.
  - rewrite Z.lor_0_l.
    destruct (Z.testbit w j) eqn:Hwj.
    + rewrite land_pow2, Hj_i by lia. cbn.
      destruct (Z.gtb_spec (2 ^ j) 0); [reflexivity | lia].
    + reflexivity.
Qed.

(** A mask of two bits meets [w] exactly when one of the bits is set. *)
Lemma land_two_bits_zero (w i j : Z) :
  0 <= i -> 0 <= j ->
  (Z.land w (Z.lor (2 ^ i) (2 ^ j)) = 0 <->
   Z.testbit w i = false /\ Z.testbit w j = false).
Proof.
  intros Hi Hj. rewrite land_two_bits by assumption.
  assert (Hpi : 0 < 2 ^ i) by (apply Z.pow_pos_nonneg; lia).
  assert (Hpj : 0 < 2 ^ j) by (apply Z.pow_pos_nonneg; lia).
  rewrite Z.lor_eq_0_iff.
  destruct (Z.testbit w i), (Z.testbit w j); split; intros [? ?];
    try discriminate; try lia; auto.
Qed.

(** Bits outside a mask do not matter to the masked value. *)
Lemma land_lxor_outside (w x m : Z) :
  Z.land x m = 0 -> Z.land (Z.lxor w x) m = Z.land w m.
Proof.
  intros H. apply Z.bits_inj'. intros n Hn.
  rewrite !Z.land_spec, Z.lxor_spec.
  assert (Hx : Z.testbit (Z.land x m) n = false) by (rewrite H; apply Z.bits_0).
  rewrite Z.land_spec in Hx.
  destruct (Z.testbit w n), (Z.testbit x n), (Z.testbit m n);
    simpl in *; congruence.
Qed.

End Bits.

Lemma tri_state_intro (w now ever : Z) (upper lower : ascii) :
  0 <= now -> 0 <= ever ->
  upper <> lower -> upper <> " "%char -> lower <> " "%char ->
  tri_state w now ever upper lower
    (if Z.testbit w now then upper
     else if Z.testbit w ever then lower else " "%char).
Proof.
  intros Hn He Hul Hu Hl. unfold tri_state. cbv zeta.
  rewrite land_two_bits_zero by assumption.
  destruct (Z.testbit w now), (Z.testbit w ever); intuition congruence.
Qed.

Lemma throttled_string_bits (d : Data.t) :
  let w := Data.throttled d in
  Data.throttled_string d =
  "[" ++
  (if Z.testbit w 0 then "U" else if Z.testbit w 16 then "u" else " ") ++
  (if Z.testbit w 1 then "A" else if Z.testbit w 17 then "a" else " ") ++
  (if Z.testbit w 2 then "T" else if Z.testbit w 18 then "t" else " ") ++
  "]".
Proof.
  intros w. unfold Data.throttled_string. fold w.
  pose proof (cell_render w 0 16 "U" "u" ltac:(lia)) as HU.
  pose proof (cell_render w 1 17 "A" "a" ltac:(lia)) as HA.
  pose proof (cell_render w 2 18 "T" "t" ltac:(lia)) as HT.
  cbv zeta in HU, HA, HT.
  change (Z.lor (2 ^ 0) (2 ^ 16)) with 0x00010001 in HU.
  change (Z.lor (2 ^ 1) (2 ^ 17)) with 0x00020002 in HA.
  change (Z.lor (2 ^ 2) (2 ^ 18)) with 0x00040004 in HT.
  change (2 ^ 0) with 0x01 in HU.
  change (2 ^ 1) with 0x02 in HA.
  change (2 ^ 2) with 0x04 in HT.
  cbv zeta. now rewrite HU, HA, HT.
Qed.

(** C1. For every throttle word the display tag is ['['], three cells and
    [']']; the cells U, A and T test the bit pairs {0,16}, {1,17} and
    {2,18}: a cell is its uppercase letter exactly when its now-bit is set,
    its lowercase letter exactly when its mask meets the word and the
    now-bit is clear, and a blank exactly when the mask misses the word.
    The word 0x70000 gives the cells "uat" and 0x07 gives "UAT". *)
Theorem throttled_string_tri_state :
  forall d : Data.t,
    (exists cu ca ct : ascii,
        Data.throttled_string d
        = String "[" (String cu (String ca (String ct "]"))) /\
        tri_state (Data.throttled d) 0 16 "U" "u" cu /\
        tri_state (Data.throttled d) 1 17 "A" "a" ca /\
        tri_state (Data.throttled d) 2 18 "T" "t" ct) /\
    Data.throttled_string (Data.set_throttled d 0x70000) = "[uat]" /\
    Data.throttled_string (Data.set_throttled d 0x07) = "[UAT]".
Proof.
  intros d. split; [| split; reflexivity].
  set (w := Data.throttled d).
  exists (if Z.testbit w 0 then "U" else if Z.testbit w 16 then "u" else " ")%char,
         (if Z.testbit w 1 then "A" else if Z.testbit w 17 then "a" else " ")%char,
         (if Z.testbit w 2 then "T" else if Z.testbit w 18 then "t" else " ")%char.
  split.
  - rewrite throttled_string_bits. fold w.
    destruct (Z.testbit w 0), (Z.testbit w 16), (Z.testbit w 1),
      (Z.testbit w 17), (Z.testbit w 2), (Z.testbit w 18); reflexivity.
  - split; [| split]; apply tri_state_intro; (lia || discriminate).
Qed.

(** ** The flag columns of a row *)

Lemma flag_bit (w i : Z) :
  0 <= i -> flag w (2 ^ i) = CInt (Z.b2z (Z.testbit w i)).
Proof.
  intros Hi. unfold flag, truthy. rewrite land_pow2 by assumption.
  assert (Hp : 0 < 2 ^ i) by (apply Z.pow_pos_nonneg; lia).
  destruct (Z.testbit w i); cbn.
  - destruct (Z.eqb_spec (2 ^ i) 0); [lia | reflexivity].
  - reflexivity.
Qed.

Lemma flag_lxor_outside (w x m : Z) :
  Z.land x m = 0 -> flag (Z.lxor w x) m = flag w m.
Proof.
  intros H. unfold flag. now rewrite land_lxor_outside.
Qed.

Lemma row_lxor_outside (cfg : Config) (d : Data.t) (x : Z) :
  Z.land x 0x70007 = 0 ->
  Data.row cfg (Data.set_throttled d (Z.lxor (Data.throttled d) x)) = Data.row cfg d.
Proof.
  intros H.
  assert (Hm : forall i, 0 <= i -> Z.testbit 0x70007 i = true ->
                         Z.land x (2 ^ i) = 0).
  { intros i Hi Hb. rewrite land_pow2 by assumption.
    assert (Hx : Z.testbit (Z.land x 0x70007) i = false) by (rewrite H; apply Z.bits_0).
    rewrite Z.land_spec, Hb, andb_true_r in Hx. now rewrite Hx. }
  destruct d as [tm ct cl cf cv gt w sep].
  unfold Data.row, Data.set_throttled, Data.time_cell, Data.float2str.
  cbn [Data.time Data.cpu_temp Data.cpu_load Data.cpu_freq Data.cpu_volts
       Data.gpu_temp Data.throttled Data.decimal_separator].
  rewrite (flag_lxor_outside w x 0x01) by (apply (Hm 0); [lia | reflexivity]).
  rewrite (flag_lxor_outside w x 0x02) by (apply (Hm 1); [lia | reflexivity]).
  rewrite (flag_lxor_outside w x 0x04) by (apply (Hm 2); [lia | reflexivity]).
  rewrite (flag_lxor_outside w x 0x10000) by (apply (Hm 16); [lia | reflexivity]).
  rewrite (flag_lxor_outside w x 0x20000) by (apply (Hm 17); [lia | reflexivity]).
  rewrite (flag_lxor_outside w x 0x40000) by (apply (Hm 18); [lia | reflexivity]).
  reflexivity.
Qed.

Lemma throttled_string_lxor_outside (d : Data.t) (x : Z) :
  Z.land x 0x70007 = 0 ->
  Data.throttled_string (Data.set_throttled d (Z.lxor (Data.throttled d) x))
  = Data.throttled_string d.
Proof.
  intros H.
  assert (Hm : forall m, Z.land m 0x70007 = m -> Z.land x m = 0).
  { intros m Hm. rewrite <- Hm, Z.land_assoc, (Z.land_comm x m), <- Z.land_assoc, H.
    apply Z.land_0_r. }
  destruct d as [tm ct cl cf cv gt w sep].
  unfold Data.throttled_string, Data.set_throttled.
  cbn [Data.throttled].
  rewrite (land_lxor_outside w x 0x00010001) by (apply Hm; reflexivity).
  rewrite (land_lxor_outside w x 0x00020002) by (apply Hm; reflexivity).
  rewrite (land_lxor_outside w x 0x00040004) by (apply Hm; reflexivity).
  reflexivity.
Qed.

(** C5, as the code has it. At the FULL level a row ends with six flags,
    the bits 0, 1, 2, 16, 17 and 18 of the throttle word in this order (at
    STANDARD with bits 0, 1, 2 and at BASIC with bits 1, 2); the soft-limit
    bits 3 and 19 are not decoded: flipping either of them changes neither
    the row, at any level, nor the display tag. *)
Theorem row_decodes_six_bits :
  forall (cfg : Config) (d : Data.t),
    let w := Data.throttled d in
    let bits := map (fun i => CInt (Z.b2z (Z.testbit w i))) in
    skipn 6 (Data.row (set_Logging_Level cfg "FULL") d) = bits [0; 1; 2; 16; 17; 18] /\
    skipn 5 (Data.row (set_Logging_Level cfg "STANDARD") d) = bits [0; 1; 2] /\
    skipn 3 (Data.row (set_Logging_Level cfg "BASIC") d) = bits [1; 2] /\
    Data.row cfg (Data.set_throttled d (Z.lxor w (2 ^ 3))) = Data.row cfg d /\
    Data.row cfg (Data.set_throttled d (Z.lxor w (2 ^ 19))) = Data.row cfg d /\
    Data.throttled_string (Data.set_throttled d (Z.lxor w (2 ^ 3)))
    = Data.throttled_string d /\
    Data.throttled_string (Data.set_throttled d (Z.lxor w (2 ^ 19)))
    = Data.throttled_string d.
Proof.
  intros cfg d w bits.
  pose proof (flag_bit w 0 ltac:(lia)) as H0.
  pose proof (flag_bit w 1 ltac:(lia)) as H1.
  pose proof (flag_bit w 2 ltac:(lia)) as H2.
  pose proof (flag_bit w 16 ltac:(lia)) as H16.
  pose proof (flag_bit w 17 ltac:(lia)) as H17.
  pose proof (flag_bit w 18 ltac:(lia)) as H18.
  change (2 ^ 0) with 0x01 in H0. change (2 ^ 1) with 0x02 in H1.
  change (2 ^ 2) with 0x04 in H2. change (2 ^ 16) with 0x10000 in H16.
  change (2 ^ 17) with 0x20000 in H17. change (2 ^ 18) with 0x40000 in H18.
  repeat split.
  - unfold Data.row, bits. cbn [set_Logging_Level Logging_Level String.eqb Ascii.eqb Bool.eqb skipn map].
    fold w. now rewrite H0, H1, H2, H16, H17, H18.
  - unfold Data.row, bits. cbn [set_Logging_Level Logging_Level String.eqb Ascii.eqb Bool.eqb skipn map].
    fold w. now rewrite H0, H1, H2.
  - unfold Data.row, bits. cbn [set_Logging_Level Logging_Level String.eqb Ascii.eqb Bool.eqb skipn map].
    fold w. now rewrite H1, H2.
  - apply row_lxor_outside. reflexivity.
  - apply row_lxor_outside. reflexivity.
  - apply throttled_string_lxor_outside. reflexivity.
  - apply throttled_string_lxor_outside. reflexivity.
Qed.

(** C5, as stated, fails: nothing computed from a row and the display tag
    tells whether bit 3, or bit 19, of the throttle word is set. *)
Lemma soft_limit_bits_not_exposed :
  ~ (exists f : list cell * string -> bool,
       forall (cfg : Config) (d : Data.t),
         f (Data.row cfg d, Data.throttled_string d) = Z.testbit (Data.throttled d) 3) /\
  ~ (exists f : list cell * string -> bool,
       forall (cfg : Config) (d : Data.t),
         f (Data.row cfg d, Data.throttled_string d) = Z.testbit (Data.throttled d) 19).
Proof.
  set (cfg := set_Logging_Level Config_defaults "FULL").
  set (d0 := Data.init "excel").
  split; intros [f H].
  - pose proof (H cfg d0) as Ha.
    pose proof (H cfg (Data.set_throttled d0 0x8)) as Hb.
    vm_compute in Ha, Hb. congruence.
  - pose proof (H cfg d0) as Ha.
    pose proof (H cfg (Data.set_throttled d0 0x80000)) as Hb.
    vm_compute in Ha, Hb. congruence.
Qed.

(** ** Column names *)

(** C7. The header has 5 names at BASIC, 8 at STANDARD and 12 at FULL;
    every BASIC name is a STANDARD name and every STANDARD name is a FULL
    name, each inclusion being strict; the FULL names are the STANDARD
    names together with the GPU temperature and the three "has occured"
    flags. *)
Theorem header_levels :
  forall cfg : Config,
    let basic := Data.header (set_Logging_Level cfg "BASIC") in
    let standard := Data.header (set_Logging_Level cfg "STANDARD") in
    let full := Data.header (set_Logging_Level cfg "FULL") in
    List.length basic = 5%nat /\ List.length standard = 8%nat /\
    List.length full = 12%nat /\
    incl basic standard /\ incl standard full /\ incl basic full /\
    ~ incl standard basic /\ ~ incl full standard /\
    NoDup full /\
    (forall name : string,
        In name full <->
        In name standard \/
        In name [ "GPU Temperature";
                  "Undervoltage has occured";
                  "ARM Frequencey Capping has occured";
                  "Throttling has occured" ]).
Proof.
  intros cfg basic standard full.
  change basic with (Data.header (set_Logging_Level Config_defaults "BASIC")).
  change standard with (Data.header (set_Logging_Level Config_defaults "STANDARD")).
  change full with (Data.header (set_Logging_Level Config_defaults "FULL")).
  clear basic standard full.
  repeat match goal with |- _ /\ _ => split end.
  - reflexivity.
  - reflexivity.
  - reflexivity.
  - intros x Hx. vm_compute in Hx |- *. tauto.
  - intros x Hx. vm_compute in Hx |- *. tauto.
  - intros x Hx. vm_compute in Hx |- *. tauto.
  - intros H. specialize (H "CPU Load" ltac:(vm_compute; tauto)).
    vm_compute in H.
    repeat (destruct H as [H|H]; [discriminate H |]). exact H.
  - intros H. specialize (H "GPU Temperature" ltac:(vm_compute; tauto)).
    vm_compute in H.
    repeat (destruct H as [H|H]; [discriminate H |]). exact H.
  - vm_compute.
    repeat (constructor; [ intros H; repeat (destruct H as [H|H]; [discriminate H |]); exact H |]).
    constructor.
  - intros name. vm_compute. tauto.
Qed.

(** ** Numbers in a row *)


Lemma frac_positive (m : positive) (e : Z) :
  0 < fst (Py.frac m e) /\ 0 < snd (Py.frac m e).
Proof.
  unfold Py.frac. destruct (Z.leb_spec 0 e); cbn [fst snd].
  - assert (0 < 2 ^ e) by (apply Z.pow_pos_nonneg; lia). nia.
  - assert (0 < 2 ^ (- e)) by (apply Z.pow_pos_nonneg; lia). lia.
Qed.



(** ** Reading /proc/stat *)

(** What the loop over the counters computes, whatever their number: the
    total is the sum of all of them, the active part the sum of those at
    the positions 1, 2, 3, 7 and 8 counted from the first counter at 0. *)
Lemma cpu_times_loop_spec (values : list Z) :
  forall (elements : list string) (index cpuactive cputotal : Z),
    Forall2 (fun element value => Py.int element = Ret value) elements values ->
    cpu_times_loop index elements cpuactive cputotal
    = Ret (fold_left Z.add
             (map snd (filter (fun iv => existsb (Z.eqb (fst iv)) active_indeces)
                              (combine (map (fun k => index + Z.of_nat k)
                                            (seq 0 (List.length values)))
                                       values)))
             cpuactive,
           fold_left Z.add values cputotal).
Proof.
  induction values as [|v values IH]; intros elements index cpuactive cputotal H;
    inversion H as [|element ? rest ? Hint Hrest]; subst; [reflexivity |].
  cbn [cpu_times_loop]. rewrite Hint.
  rewrite (IH rest (index + 1)) by assumption.
  cbn [List.length seq map combine filter fst snd fold_left].
  rewrite Z.add_0_r.
  rewrite <- seq_shift, map_map.
  assert (Hmap : map (fun k => index + 1 + Z.of_nat k) (seq 0 (List.length values))
                 = map (fun k => index + Z.of_nat (S k)) (seq 0 (List.length values))).
  { apply map_ext. intros k. lia. }
  rewrite Hmap.
  destruct (existsb (Z.eqb index) active_indeces); reflexivity.
Qed.

(** With the ten counters of a line, in the order of /proc/stat. *)
Lemma cpu_times_ten_counters
      (elements : list string)
      (user nice system idle iowait irq softirq steal guest guest_nice : Z) :
  Forall2 (fun element value => Py.int element = Ret value) elements
          [user; nice; system; idle; iowait; irq; softirq; steal; guest; guest_nice] ->
  cpu_times_loop 0 elements 0 0
  = Ret (nice + system + idle + steal + guest,
         user + nice + system + idle + iowait + irq + softirq + steal + guest
         + guest_nice).
Proof.
  intros H. rewrite (cpu_times_loop_spec _ _ _ _ _ H).
  cbn. do 2 f_equal; lia.
Qed.

(** C3, on the code: a tick of the first counter (user) enters the total
    but not the active count, and so does a tick of the seventh (softirq);
    a tick of the fourth counter (idle) or of the ninth (guest) is counted
    as active. Ticks of nice, system and steal are active, ticks of iowait
    and irq are not. *)
Theorem cpu_times_active_columns :
  cpu_times_of_line (stat_line "1 0 0 0 0 0 0 0 0 0") = Ret (0, 1) /\
  cpu_times_of_line (stat_line "0 1 0 0 0 0 0 0 0 0") = Ret (1, 1) /\
  cpu_times_of_line (stat_line "0 0 1 0 0 0 0 0 0 0") = Ret (1, 1) /\
  cpu_times_of_line (stat_line "0 0 0 1 0 0 0 0 0 0") = Ret (1, 1) /\
  cpu_times_of_line (stat_line "0 0 0 0 1 0 0 0 0 0") = Ret (0, 1) /\
  cpu_times_of_line (stat_line "0 0 0 0 0 1 0 0 0 0") = Ret (0, 1) /\
  cpu_times_of_line (stat_line "0 0 0 0 0 0 1 0 0 0") = Ret (0, 1) /\
  cpu_times_of_line (stat_line "0 0 0 0 0 0 0 1 0 0") = Ret (1, 1) /\
  cpu_times_of_line (stat_line "0 0 0 0 0 0 0 0 1 0") = Ret (1, 1) /\
  cpu_times_of_line (stat_line "0 0 0 0 0 0 0 0 0 1") = Ret (0, 1) /\
  cpu_times_of_line (stat_line "2255 34 2290 22625563 6290 127 456 0 0 0")
  = Ret (34 + 2290 + 22625563 + 0 + 0, 22637015).
Proof.
  repeat split; vm_compute; reflexivity.
Qed.

(** ** The CPU load sampler *)

Lemma float_in_range (z : Z) : Z.abs z < 2 ^ 1023 -> Py.float z = Ret (of_Z z).
Proof.
  intros Hb. unfold Py.float.
  destruct (Z.eq_dec z 0) as [->|Hz]; [reflexivity |].
  destruct (of_Z_finite z Hz Hb) as (m & e & ->). reflexivity.
Qed.

Lemma of_Z_is_zero (z : Z) :
  Z.abs z < 2 ^ 1023 -> is_zero (of_Z z) = Z.eqb z 0.
Proof.
  intros Hb. destruct (Z.eqb_spec z 0) as [->|Hz]; [reflexivity |].
  destruct (of_Z_finite z Hz Hb) as (m & e & ->). reflexivity.
Qed.

(** The [try] statement of [cpu_load], given both snapshots. *)
Lemma cpu_load_try (prev curr : Z * Z) (w : World) :
  Z.abs (snd curr - snd prev) < 2 ^ 1023 ->
  Z.abs (fst curr - fst prev) < 2 ^ 1023 ->
  try_except
    (bind (lift (Py.float (snd curr - snd prev))) (fun dt =>
     bind (lift (Py.float (fst curr - fst prev))) (fun da =>
     bind (lift (Py.float (snd curr - snd prev))) (fun dt' =>
     lift (Py.truediv (mul lit_100_0 (sub dt da)) dt')))))
    is_ZeroDivisionError (ret zero) w
  = (Ret (if Z.eqb (snd curr) (snd prev) then zero else load_percent prev curr), w).
Proof.
  intros Ht Ha. unfold try_except, bind, lift.
  rewrite !float_in_range by assumption.
  unfold Py.truediv. rewrite of_Z_is_zero by assumption.
  destruct (Z.eqb_spec (snd curr - snd prev) 0) as [H0|H0].
  - cbn. destruct (Z.eqb_spec (snd curr) (snd prev)); [reflexivity | lia].
  - destruct (Z.eqb_spec (snd curr) (snd prev)); [lia | reflexivity].
Qed.

(** C2. With a previous snapshot [(active0, total0)] stored and the
    counters now at [(active1, total1)], the sampler returns
    [100 * ((total1 - total0) - (active1 - active0)) / (total1 - total0)]
    when the totals differ and 0.0, without an exception, when they are
    equal; it stores the new snapshot. From (100, 200) to (150, 250) the
    load is 0, to (120, 250) it is 60. The differences are assumed within
    the range of a float. *)
Theorem cpu_load_sample :
  forall (E : Env) (w : World) (prev curr : Z * Z) (cputimes : string),
    cpu_load_prev w = Some prev ->
    proc_stat E (stat_reads w) = Some cputimes ->
    cpu_times_of_line cputimes = Ret curr ->
    Z.abs (snd curr - snd prev) < 2 ^ 1023 ->
    Z.abs (fst curr - fst prev) < 2 ^ 1023 ->
    cpu_load E w
    = (Ret (if Z.eqb (snd curr) (snd prev) then zero else load_percent prev curr),
       set_cpu_load_prev (set_stat_reads w (S (stat_reads w))) (Some curr)) /\
    load_percent (100, 200) (150, 250) = zero /\
    load_percent (100, 200) (120, 250) = of_Z 60.
Proof.
  intros E w prev curr cputimes Hprev Hstat Hline Ht Ha.
  split; [| split; reflexivity].
  unfold cpu_load. unfold bind at 1. rewrite Hprev. unfold ret at 1.
  unfold bind at 1. unfold cpu_times. rewrite Hstat, Hline.
  unfold bind at 1. rewrite cpu_load_try by assumption.
  reflexivity.
Qed.

(** From the snapshot (100, 200) to the counters (120, 250). *)
Lemma cpu_load_sample_witness :
  let E := machine [stat_line "130 120 0 0 0 0 0 0 0 0"] [] 0 None in
  let w := set_cpu_load_prev (initial_world "finnish") (Some (100, 200)) in
  cpu_load_prev w = Some (100, 200) /\
  proc_stat E (stat_reads w) = Some (stat_line "130 120 0 0 0 0 0 0 0 0") /\
  cpu_times_of_line (stat_line "130 120 0 0 0 0 0 0 0 0") = Ret (120, 250) /\
  fst (cpu_load E w) = Ret (of_Z 60).
Proof.
  intros E w.
  split; [reflexivity | split; [reflexivity | split; [reflexivity |]]].
  rewrite (proj1 (cpu_load_sample E w (100, 200) (120, 250)
                    (stat_line "130 120 0 0 0 0 0 0 0 0")
                    eq_refl eq_refl eq_refl eq_refl eq_refl)).
  reflexivity.
Defined.

(** C4, as the code has it. On its first call the sampler reads the
    counters twice and returns the load between these two readings: 0.0
    when their totals are equal, as they are when the counters have not
    moved in between, and the load formula otherwise; the second reading
    is stored. *)
Theorem cpu_load_first_call :
  forall (E : Env) (w : World) (first second : Z * Z) (line1 line2 : string),
    cpu_load_prev w = None ->
    proc_stat E (stat_reads w) = Some line1 ->
    proc_stat E (S (stat_reads w)) = Some line2 ->
    cpu_times_of_line line1 = Ret first ->
    cpu_times_of_line line2 = Ret second ->
    Z.abs (snd second - snd first) < 2 ^ 1023 ->
    Z.abs (fst second - fst first) < 2 ^ 1023 ->
    cpu_load E w
    = (Ret (if Z.eqb (snd second) (snd first) then zero
            else load_percent first second),
       set_cpu_load_prev (set_stat_reads w (2 + stat_reads w)) (Some second)).
Proof.
  intros E w first second line1 line2 Hprev H1 H2 Hl1 Hl2 Ht Ha.
  unfold cpu_load. unfold bind at 1. rewrite Hprev.
  unfold cpu_times at 1. rewrite H1, Hl1.
  unfold bind at 1. unfold cpu_times. cbn [stat_reads set_stat_reads].
  rewrite H2, Hl2.
  unfold bind at 1. rewrite cpu_load_try by assumption.
  reflexivity.
Qed.

(** A first call between whose two readings the counters stand still. *)
Lemma cpu_load_first_call_witness :
  let E := machine [stat_line "1 100 0 100 0 0 0 0 0 0";
                    stat_line "1 100 0 100 0 0 0 0 0 0"] [] 0 None in
  let w := initial_world "finnish" in
  cpu_load_prev w = None /\
  fst (cpu_load E w) = Ret zero /\
  stat_reads (snd (cpu_load E w)) = 2%nat.
Proof.
  intros E w. split; [reflexivity |].
  rewrite (cpu_load_first_call E w (200, 201) (200, 201)
             (stat_line "1 100 0 100 0 0 0 0 0 0")
             (stat_line "1 100 0 100 0 0 0 0 0 0")
             eq_refl eq_refl eq_refl eq_refl eq_refl eq_refl eq_refl).
  split; reflexivity.
Defined.

(** C4, as stated, fails: the counters may move between the two readings
    of the first call. *)
Lemma cpu_load_first_call_nonzero :
  let E := machine [stat_line "100 100 0 0 0 0 0 0 0 0";
                    stat_line "130 120 0 0 0 0 0 0 0 0"] [] 0 None in
  let w := initial_world "finnish" in
  cpu_load_prev w = None /\ fst (cpu_load E w) = Ret (of_Z 60) /\
  fst (cpu_load E w) <> Ret zero.
Proof.
  intros E w. split; [reflexivity |].
  assert (H : fst (cpu_load E w) = Ret (of_Z 60)) by (vm_compute; reflexivity).
  split; [exact H |]. rewrite H. discriminate.
Qed.

(** ** The console alert *)

Lemma land_7_zero (w : Z) :
  Z.land w 0x07 = 0 <->
  Z.testbit w 0 = false /\ Z.testbit w 1 = false /\ Z.testbit w 2 = false.
Proof.
  change 0x07 with (Z.lor (2 ^ 0) (Z.lor (2 ^ 1) (2 ^ 2))).
  rewrite !Z.land_lor_distr_r, !Z.lor_eq_0_iff, !land_pow2 by lia.
  destruct (Z.testbit w 0), (Z.testbit w 1), (Z.testbit w 2); cbn;
    intuition congruence.
Qed.

(** C10. The alert hook leaves the trace alone or adds one bell to it; it
    adds the bell only with a minimum interval configured, with one of the
    bits 0 to 2 of the throttle word set, and with the clock, read for the
    comparison, more than the minimum interval past the last bell time.
    That time is the stored one or, on the first call, the clock as first
    read in this very call; it stays stored when no bell rings, and a bell
    replaces it by a fresh reading of the clock. A word with only bit 3 or
    only bits among 16 to 19 set never rings. *)
Theorem alert_rings_only_when_due :
  forall (E : Env) (cfg : Config) (d : Data.t) (w : World),
    let w' := snd (console_throttling_alert E cfg d w) in
    let last :=
      match last_beep w with
      | Some t => t
      | None => clock E (clock_reads w)
      end in
    let now :=
      match last_beep w with
      | Some _ => clock E (clock_reads w)
      | None => clock E (S (clock_reads w))
      end in
    let rung :=
      match last_beep w with
      | Some _ => clock E (S (clock_reads w))
      | None => clock E (S (S (clock_reads w)))
      end in
    (trace w' = trace w /\
     (Console_Alert cfg = None \/ last_beep w' = Some last)
     \/
     trace w' = (trace w ++ [Bell])%list /\
     last_beep w' = Some rung /\
     exists min_interval : f64,
       Console_Alert cfg = Some min_interval /\
       Z.land (Data.throttled d) 0x07 <> 0 /\
       (Z.testbit (Data.throttled d) 0 || Z.testbit (Data.throttled d) 1
        || Z.testbit (Data.throttled d) 2 = true) /\
       gtb (sub now last) min_interval = true) /\
    (let only_soft := Data.set_throttled d 0x00000008 in
     trace (snd (console_throttling_alert E cfg only_soft w)) = trace w) /\
    (let only_ever := Data.set_throttled d 0x000F0000 in
     trace (snd (console_throttling_alert E cfg only_ever w)) = trace w).
Proof.
  intros E cfg d w w' last now rung.
  assert (Hquiet : forall d0 : Data.t,
             Z.land (Data.throttled d0) 0x07 = 0 ->
             trace (snd (console_throttling_alert E cfg d0 w)) = trace w).
  { intros d0 H0. unfold console_throttling_alert.
    destruct (Console_Alert cfg) as [min_interval|]; [| reflexivity].
    unfold bind at 1. rewrite H0. cbn [Z.eqb].
    destruct (last_beep w); reflexivity. }
  split; [| split; apply Hquiet; destruct d; reflexivity].
  subst w' last now rung.
  unfold console_throttling_alert, bind, ret, modify, time_time, raise.
  destruct (Console_Alert cfg) as [min_interval|]; [| left; split; [reflexivity | now left]].
  destruct (Z.eqb_spec (Z.land (Data.throttled d) 0x07) 0) as [H0|H0].
  - left. destruct (last_beep w) as [t|] eqn:Hlast; cbn; rewrite ?Hlast; auto.
  - assert (Hbits : Z.testbit (Data.throttled d) 0 || Z.testbit (Data.throttled d) 1
                    || Z.testbit (Data.throttled d) 2 = true).
    { destruct (Z.testbit (Data.throttled d) 0) eqn:B0,
               (Z.testbit (Data.throttled d) 1) eqn:B1,
               (Z.testbit (Data.throttled d) 2) eqn:B2; try reflexivity.
      exfalso. apply H0. apply land_7_zero. auto. }
    destruct (last_beep w) as [t|] eqn:Hlast;
      cbn [last_beep set_last_beep set_clock_reads clock_reads]; rewrite ?Hlast.
    + destruct (gtb (sub (clock E (clock_reads w)) t) min_interval) eqn:Hgt.
      * right. split; [reflexivity |]. split; [reflexivity |].
        exists min_interval. auto.
      * left. split; [reflexivity |]. right. cbn. assumption.
    + destruct (gtb (sub (clock E (S (clock_reads w))) (clock E (clock_reads w)))
                    min_interval) eqn:Hgt.
      * right. split; [reflexivity |]. split; [reflexivity |].
        exists min_interval. auto.
      * left. split; [reflexivity |]. right. reflexivity.
Qed.

(** ** The scheduler loop *)

Lemma slept_app (a b : list event) : slept (a ++ b) = (slept a ++ slept b)%list.
Proof.
  induction a as [|ev a IH]; [reflexivity |].
  destruct ev; cbn; now rewrite IH.
Qed.

Lemma quiet_refl (w : World) : quiet w w.
Proof. split; reflexivity. Qed.

Lemma quiet_trans (w1 w2 w3 : World) : quiet w1 w2 -> quiet w2 w3 -> quiet w1 w3.
Proof. intros [H1 H2] [H3 H4]. split; congruence. Qed.

Lemma quiet_emit (w : World) (ev : event) :
  slept [ev] = [] -> quiet w (emit w ev).
Proof.
  intros H. split; [reflexivity |]. cbn [emit trace].
  now rewrite slept_app, H, app_nil_r.
Qed.

Create HintDb frames discriminated.

Section Frames.

Variable E : Env.
Variable cfg : Config.

Lemma framed_ret {A : Type} (a : A) : framed (ret a).
Proof. intros w. apply quiet_refl. Qed.

Lemma framed_raise {A : Type} (e : exn) : framed (@raise A e).
Proof. intros w. apply quiet_refl. Qed.

Lemma framed_lift {A : Type} (o : outcome A) : framed (lift o).
Proof. intros w. apply quiet_refl. Qed.

Lemma framed_bind {A B : Type} (c : M A) (k : A -> M B) :
  framed c -> (forall a, framed (k a)) -> framed (bind c k).
Proof.
  intros Hc Hk w. unfold bind. specialize (Hc w).
  destruct (c w) as [[a|e] w1]; cbn [snd] in *.
  - eapply quiet_trans; [exact Hc | apply Hk].
  - exact Hc.
Qed.

Lemma framed_try_except {A : Type} (body handler : M A) (catches : exn -> bool) :
  framed body -> framed handler -> framed (try_except body catches handler).
Proof.
  intros Hb Hh w. unfold try_except. specialize (Hb w).
  destruct (body w) as [[a|e] w1]; cbn [snd] in *; [exact Hb |].
  destruct (catches e); [| exact Hb].
  eapply quiet_trans; [exact Hb | apply Hh].
Qed.

Lemma framed_modify (f : World -> World) :
  (forall w, quiet w (f w)) -> framed (modify f).
Proof. intros H w. apply H. Qed.

(** A computation that first looks at the world. *)
Lemma framed_reading {A B : Type} (f : World -> B) (c : B -> M A) :
  (forall b, framed (c b)) -> framed (fun w => c (f w) w).
Proof. intros H w. apply H. Qed.

#[local] Hint Resolve quiet_refl framed_ret framed_raise framed_lift framed_bind
  framed_try_except framed_modify : frames.
#[local] Hint Extern 1 (quiet ?w (emit ?w _)) => apply quiet_emit; reflexivity : frames.
#[local] Hint Extern 2 (quiet _ _) => split; reflexivity : frames.

(** Peels the binds of a computation and closes the steps from the hint
    base. *)
Ltac frame := auto 40 with frames.

Lemma framed_time_time : framed (time_time E).
Proof. intros w. frame. Qed.

Lemma framed_boundary : framed (boundary E).
Proof.
  intros w. unfold boundary. destruct (sigint E (boundaries w)); frame.
Qed.

Lemma framed_cpu_times : framed (cpu_times E).
Proof.
  intros w. unfold cpu_times. destruct (proc_stat E (stat_reads w)); cbn [snd].
  - frame.
  - apply (quiet_trans w (set_stat_reads w (S (stat_reads w)))); frame.
Qed.

#[local] Hint Resolve framed_time_time framed_boundary framed_cpu_times : frames.

Lemma framed_cpu_load : framed (cpu_load E).
Proof.
  unfold cpu_load. apply framed_bind; [| frame].
  intros w. destruct (cpu_load_prev w); [frame | apply framed_cpu_times].
Qed.

Lemma framed_lapsed_time (now : f64) : framed (lapsed_time E now).
Proof. intros w. frame. Qed.

Lemma framed_set_field (f : Data.t -> Data.t) : framed (set_field f).
Proof. unfold set_field. frame. Qed.

Lemma framed_cpu_temp : framed (cpu_temp E).
Proof.
  intros w. unfold cpu_temp. destruct (sysfs_temp E (sensor_reads w)); cbn [snd]; frame.
Qed.

Lemma framed_sensor {A : Type} (q : nat -> outcome A) :
  framed (fun w => (q (sensor_reads w), w)).
Proof. intros w. frame. Qed.

#[local] Hint Resolve framed_cpu_load framed_lapsed_time framed_set_field
  framed_cpu_temp : frames.

Lemma framed_Data_read (now : f64) : framed (Data_read E now).
Proof.
  unfold Data_read, cpu_freq, cpu_volts, gpu_temp, get_throttled.
  pose proof (framed_sensor (vc_measure_clock E)).
  pose proof (framed_sensor (vc_measure_volts E)).
  pose proof (framed_sensor (vc_measure_temp E)).
  pose proof (framed_sensor (vc_get_throttled E)).
  frame.
Qed.

Lemma framed_console_throttling_alert (d : Data.t) :
  framed (console_throttling_alert E cfg d).
Proof.
  unfold console_throttling_alert.
  destruct (Console_Alert cfg) as [min_interval|]; [| frame].
  apply framed_bind.
  { intros w. destruct (last_beep w); [frame |]. apply framed_bind; frame. }
  intros _. destruct (Z.eqb _ 0); [frame |].
  apply framed_bind; [frame | intros now].
  apply framed_bind.
  { intros w. destruct (last_beep w); frame. }
  intros last. destruct (gtb _ _); frame.
Qed.

Lemma framed_csv_writerow (cells : list cell) : framed (csv_writerow cells).
Proof.
  intros w. unfold csv_writerow. destruct (csv_file w) as [[|]|]; cbn [snd]; frame.
Qed.

Lemma framed_csv_file_close : framed csv_file_close.
Proof.
  intros w. unfold csv_file_close. destruct (csv_file w) as [[|]|]; cbn [snd].
  - apply (quiet_trans w (emit w CsvClose)); frame.
  - frame.
  - frame.
Qed.

Lemma framed_print_status : framed (print_status E).
Proof.
  unfold print_status. apply framed_bind; [| frame].
  apply (framed_reading next_tick (lapsed_time E)). frame.
Qed.

Lemma framed_interrupt_handler : framed interrupt_handler.
Proof.
  pose proof framed_csv_file_close. unfold interrupt_handler. frame.
Qed.

Lemma advances_bind {A : Type} (c : M A) (k : A -> M unit) :
  framed c -> (forall a, advances cfg (k a)) -> advances cfg (bind c k).
Proof.
  intros Hc Hk w. unfold bind. destruct (Hc w) as [Hn Hs].
  destruct (c w) as [[a|e] w1]; cbn [fst snd] in *.
  - destruct (Hk a w1) as [Hs' Hn']. rewrite Hs', Hn', Hs, Hn. now split.
  - now split.
Qed.

Lemma advances_measure : advances cfg (measure_and_advance E cfg).
Proof.
  unfold measure_and_advance.
  apply advances_bind; [apply framed_boundary | intros _].
  apply advances_bind.
  { apply (framed_reading next_tick (Data_read E)), framed_Data_read. }
  intros _. apply advances_bind; [apply framed_boundary | intros _].
  apply advances_bind.
  { apply (framed_reading data (console_throttling_alert E cfg)),
      framed_console_throttling_alert. }
  intros _. apply advances_bind; [apply framed_boundary | intros _].
  apply advances_bind.
  { destruct (CSV_File cfg); [| apply framed_ret].
    apply (framed_reading (fun w => Data.row cfg (data w)) csv_writerow),
      framed_csv_writerow. }
  intros _. apply advances_bind; [apply framed_boundary | intros _].
  apply advances_bind; [apply framed_print_status | intros _].
  apply advances_bind; [apply framed_boundary | intros _].
  intros w. split; reflexivity.
Qed.

Lemma loop_body_unfold :
  loop_body E cfg
  = (boundary E ;;
     now <- time_time E ;;
     sleep_duration <- (fun w => ret (sub (next_tick w) now) w) ;;
     boundary E ;;
     (if gtb sleep_duration zero
      then modify (fun w => emit w (Sleep sleep_duration))
      else ret tt) ;;
     measure_and_advance E cfg).
Proof. reflexivity. Qed.

(** One pass through the loop body: it sleeps at most once, for the
    positive [next_tick - now], and moves [next_tick] when it completes. *)
Lemma loop_body_spec (w : World) :
  let d := sub (next_tick w) (clock E (clock_reads w)) in
  let r := loop_body E cfg w in
  match fst r with
  | Ret _ =>
      next_tick (snd r) = add (next_tick w) (Interval cfg) /\
      slept (trace (snd r))
      = (slept (trace w) ++ if gtb d zero then [d] else [])%list
  | Raise _ =>
      next_tick (snd r) = next_tick w /\
      (slept (trace (snd r)) = slept (trace w) \/
       gtb d zero = true /\
       slept (trace (snd r)) = (slept (trace w) ++ [d])%list)
  end.
Proof.
  intros d r. subst r. rewrite loop_body_unfold.
  unfold bind, boundary, time_time, ret, modify.
  destruct (sigint E (boundaries w)); [cbn; auto |].
  cbn [boundaries clock_reads set_boundaries set_clock_reads next_tick].
  destruct (sigint E (S (boundaries w))); [cbn; auto |].
  fold d.
  destruct (gtb d zero) eqn:Hgt; cbv beta iota.
  - match goal with
    | |- context [measure_and_advance E cfg ?w3] =>
        destruct (advances_measure w3) as [Hs Hn];
        destruct (measure_and_advance E cfg w3) as [[u|e] w4]
    end; cbn [fst snd] in *; rewrite Hn, Hs; cbn [trace emit next_tick];
      rewrite slept_app; cbn; auto.
  - match goal with
    | |- context [measure_and_advance E cfg ?w3] =>
        destruct (advances_measure w3) as [Hs Hn];
        destruct (measure_and_advance E cfg w3) as [[u|e] w4]
    end; cbn [fst snd] in *; rewrite Hn, Hs; cbn [trace next_tick];
      rewrite ?app_nil_r; auto.
Qed.

Lemma iteration_spec (w : World) :
  let d := sub (next_tick w) (clock E (clock_reads w)) in
  let r := iteration E cfg w in
  match fst r with
  | Ret _ =>
      next_tick (snd r) = add (next_tick w) (Interval cfg) /\
      slept (trace (snd r))
      = (slept (trace w) ++ if gtb d zero then [d] else [])%list
  | Raise _ =>
      next_tick (snd r) = next_tick w /\
      (slept (trace (snd r)) = slept (trace w) \/
       gtb d zero = true /\
       slept (trace (snd r)) = (slept (trace w) ++ [d])%list)
  end.
Proof.
  intros d r. subst r. unfold iteration, try_except.
  pose proof (loop_body_spec w) as Hb. cbv zeta in Hb. fold d in Hb.
  destruct (loop_body E cfg w) as [[u|e] w1]; cbn [fst snd] in *; [exact Hb |].
  destruct (is_KeyboardInterrupt e); [| exact Hb].
  destruct (framed_interrupt_handler w1) as [Hn Hs].
  destruct (interrupt_handler w1) as [[u|e'] w2] eqn:Hh; cbn [fst snd] in *.
  - unfold interrupt_handler, bind, try_except, modify, raise in Hh.
    destruct (csv_file_close w1) as [[?|?] ?]; discriminate Hh.
  - rewrite Hn, Hs. exact Hb.
Qed.

(** After [n] turns of the loop [next_tick] has moved by [n] intervals,
    and by fewer when the loop was left earlier. *)
Lemma main_loop_next_tick (n : nat) :
  forall w : World,
    let r := main_loop E cfg n w in
    match fst r with
    | Ret _ =>
        next_tick (snd r)
        = Nat.iter n (fun t => add t (Interval cfg)) (next_tick w)
    | Raise _ =>
        exists k : nat,
          (k < n)%nat /\
          next_tick (snd r)
          = Nat.iter k (fun t => add t (Interval cfg)) (next_tick w)
    end.
Proof.
  induction n as [|n IH]; intros w; [reflexivity |].
  cbn [main_loop]. unfold bind.
  pose proof (iteration_spec w) as Hi. cbv zeta in Hi.
  destruct (iteration E cfg w) as [[u|e] w1]; cbn [fst snd] in *.
  - destruct Hi as [Hi _]. specialize (IH w1). cbv zeta in IH.
    destruct (fst (main_loop E cfg n w1)).
    + now rewrite IH, Hi, Nat.iter_succ_r.
    + destruct IH as (k & Hk & IH). exists (S k). split; [lia |].
      now rewrite IH, Hi, Nat.iter_succ_r.
  - destruct Hi as [Hi _]. exists 0%nat. split; [lia | exact Hi].
Qed.

End Frames.


(** C6, as the code has it. The loop starts with [next_tick] half a
    second after the start time. An iteration sleeps at most once, and
    only for a positive [next_tick - now]; when it completes, [next_tick]
    is the floating-point sum of the old target and the configured
    interval, whatever the clock and the sensors did in between, and when
    it is left by an exception [next_tick] has not moved. So after [n]
    completed iterations [next_tick] is the first target with the
    interval added [n] times, each addition rounded. Where the additions
    are exact the targets are the interval apart: a run of three
    iterations with the interval 1.0, the second of them late and without
    a sleep, shows the targets one second apart. *)
Theorem scheduler_cadence :
  forall (E : Env) (cfg : Config) (w : World),
    next_tick (snd (loop_init E w)) = add (clock E (clock_reads w)) lit_0_5 /\
    (let d := sub (next_tick w) (clock E (clock_reads w)) in
     let r := iteration E cfg w in
     match fst r with
     | Ret _ =>
         next_tick (snd r) = add (next_tick w) (Interval cfg) /\
         slept (trace (snd r))
         = (slept (trace w) ++ if gtb d zero then [d] else [])%list
     | Raise _ =>
         next_tick (snd r) = next_tick w /\
         (slept (trace (snd r)) = slept (trace w) \/
          gtb d zero = true /\
          slept (trace (snd r)) = (slept (trace w) ++ [d])%list)
     end) /\
    (forall n : nat,
        let r := main_loop E cfg n w in
        match fst r with
        | Ret _ =>
            next_tick (snd r)
            = Nat.iter n (fun t => add t (Interval cfg)) (next_tick w)
        | Raise _ =>
            exists k : nat,
              (k < n)%nat /\
              next_tick (snd r)
              = Nat.iter k (fun t => add t (Interval cfg)) (next_tick w)
        end) /\
    (let run n := (loop_init late_machine ;; main_loop late_machine Config_defaults n)
                    (initial_world "finnish") in
     fst (run 3%nat) = Ret tt /\
     map (fun n => next_tick (snd (run n))) [0; 1; 2; 3]%nat
     = map (fun second => add (of_Z second) lit_0_5)
           [1700000000; 1700000001; 1700000002; 1700000003] /\
     slept (trace (snd (run 3%nat))) = [lit_0_5; lit_0_5]).
Proof.
  intros E cfg w. split; [reflexivity |]. split; [| split].
  - apply iteration_spec.
  - intros n. apply main_loop_next_tick.
  - vm_compute. repeat split.
Qed.

(** C6, as stated, fails: successive targets need not differ by exactly
    the interval, because the addition rounds. With the interval 0.1 and
    the first target 1700000000.5 the completed iteration moves the target
    to 1700000000.6 (the nearest float), which is 0.09999990463256836
    later: counted in units of [2^-56], the targets are 7205752531845120
    apart and the interval is 7205759403792794. *)
Lemma scheduler_cadence_inexact :
  let E := late_machine in
  let cfg := tenth_config in
  let w := snd (loop_init E (initial_world "finnish")) in
  let r := iteration E cfg w in
  fst r = Ret tt /\
  next_tick w = add (of_Z 1700000000) lit_0_5 /\
  match in_units 56 (next_tick (snd r)), in_units 56 (next_tick w),
        in_units 56 (Interval cfg) with
  | Some t1, Some t0, Some i => t1 - t0 = 7205752531845120 /\ i = 7205759403792794
  | _, _, _ => False
  end /\
  sub (next_tick (snd r)) (next_tick w) <> Interval cfg.
Proof.
  intros E cfg w r.
  split; [vm_compute; reflexivity |].
  split; [vm_compute; reflexivity |].
  split; [vm_compute; split; reflexivity |].
  vm_compute. discriminate.
Qed.

(** ** The interrupt *)

(** An interrupt pending at the first statement boundary is delivered
    there. *)
Lemma loop_body_interrupted_at_once (E : Env) (cfg : Config) (w : World) :
  sigint E (boundaries w) = true ->
  loop_body E cfg w
  = (Raise KeyboardInterrupt, set_boundaries w (S (boundaries w))).
Proof.
  intros H. rewrite loop_body_unfold. unfold bind at 1. unfold boundary at 1.
  now rewrite H.
Qed.



(** * Further properties *)

(** ** Rows and headers *)

Lemma distinct_NoDup (names : list string) : distinct names = true -> NoDup names.
Proof.
  induction names as [|name rest IH]; intros H; [constructor |].
  cbn [distinct] in H. apply andb_true_iff in H as [Hname Hrest].
  constructor; [| now apply IH].
  intros Hin. apply negb_true_iff in Hname.
  assert (existsb (String.eqb name) rest = true); [| congruence].
  apply existsb_exists. exists name. split; [assumption | apply String.eqb_refl].
Qed.

Lemma row_length (cfg : Config) (d : Data.t) :
  List.length (Data.row cfg d) = List.length (Data.header cfg).
Proof.
  unfold Data.row, Data.header.
  destruct (String.eqb (Logging_Level cfg) "BASIC");
    [| destruct (String.eqb (Logging_Level cfg) "STANDARD")]; reflexivity.
Qed.

(** X1. Whatever the logging level is set to, the names of the header are
    pairwise distinct and the row is the header read through one table
    from column names to values: the elapsed time under "Time", the
    rendered floats under their names, and the bits 0, 1, 2, 16, 17 and 18
    of the throttle word under the six flag names. Row and header have
    the same number of cells. *)
Theorem row_follows_header :
  forall (cfg : Config) (d : Data.t),
    NoDup (Data.header cfg) /\
    Data.row cfg d = map (column d) (Data.header cfg) /\
    List.length (Data.row cfg d) = List.length (Data.header cfg).
Proof.
  intros cfg d. split; [| split; [| apply row_length]].
  - unfold Data.header.
    destruct (String.eqb (Logging_Level cfg) "BASIC");
      [| destruct (String.eqb (Logging_Level cfg) "STANDARD")];
      apply distinct_NoDup; reflexivity.
  - unfold Data.row, Data.header.
    change 0x01 with (2 ^ 0). change 0x02 with (2 ^ 1). change 0x04 with (2 ^ 2).
    change 0x10000 with (2 ^ 16). change 0x20000 with (2 ^ 17).
    change 0x40000 with (2 ^ 18).
    rewrite !flag_bit by lia.
    destruct (String.eqb (Logging_Level cfg) "BASIC");
      [| destruct (String.eqb (Logging_Level cfg) "STANDARD")]; reflexivity.
Qed.

(** X2. Bits of the throttle word outside the mask 0x70007 are ignored:
    flipping any set of them changes neither the row, at any level, nor
    the display tag. *)
Theorem unrecognised_bits_ignored :
  forall (cfg : Config) (d : Data.t) (x : Z),
    Z.land x 0x70007 = 0 ->
    let d' := Data.set_throttled d (Z.lxor (Data.throttled d) x) in
    Data.row cfg d' = Data.row cfg d /\
    Data.throttled_string d' = Data.throttled_string d.
Proof.
  intros cfg d x H d'. split.
  - now apply row_lxor_outside.
  - now apply throttled_string_lxor_outside.
Qed.

(** All the other bits of a 32-bit word at once. *)
Lemma unrecognised_bits_ignored_witness :
  let d := Data.set_throttled (Data.init "finnish") 0x50005 in
  let d' := Data.set_throttled d (Z.lxor 0x50005 0xFFF8FFF8) in
  Z.land 0xFFF8FFF8 0x70007 = 0 /\
  Data.row logging_config d' = Data.row logging_config d /\
  Data.throttled_string d' = Data.throttled_string d.
Proof.
  intros d d'. split; [reflexivity |].
  apply (unrecognised_bits_ignored logging_config d 0xFFF8FFF8). reflexivity.
Defined.

(** ** Rendering of floats *)

Lemma replace_removes (old new : ascii) (s : string) :
  new <> old -> has_char old (Py.replace old new s) = false.
Proof.
  intros Hne. unfold has_char. induction s as [|c s IH]; [reflexivity |].
  cbn [Py.replace list_ascii_of_string existsb]. rewrite IH, orb_false_r.
  destruct (Ascii.eqb_spec c old) as [->|Hc]; apply Ascii.eqb_neq; congruence.
Qed.

(** X3. With a decimal separator other than the point, the comma of the
    finnish dialect for one, no point is left in a rendered float. *)
Theorem float2str_leaves_no_point :
  forall (self : Data.t) (fval : f64),
    Data.decimal_separator self <> "."%char ->
    has_char "." (Data.float2str self fval) = false.
Proof.
  intros self fval Hsep. unfold Data.float2str.
  destruct (Ascii.eqb_spec (Data.decimal_separator self) "."); [contradiction |].
  cbn [negb]. now apply replace_removes.
Qed.

Lemma float2str_leaves_no_point_witness :
  Data.decimal_separator (Data.init "finnish") <> "."%char /\
  has_char "." (Data.float2str (Data.init "finnish") lit_23_04) = false.
Proof.
  assert (H : Data.decimal_separator (Data.init "finnish") <> "."%char)
    by (vm_compute; discriminate).
  split; [exact H | apply (float2str_leaves_no_point _ lit_23_04 H)].
Defined.

(** X4. A finite value below 0.05 in magnitude is rendered as a zero that
    keeps the sign of the value: "0.0" or "-0.0", with the separator of
    the object in place of the point. *)
Theorem float2str_small_keeps_sign :
  forall (self : Data.t) (s : bool) (m : positive) (e : Z),
    20 * fst (Py.frac m e) < snd (Py.frac m e) ->
    Data.float2str self (S754_finite s m e)
    = (if s then "-0" else "0") ++ String (Data.decimal_separator self) "0".
Proof.
  intros self s m e H.
  pose proof (frac_positive m e) as [Hn Hd].
  assert (Hr : Py.round1 (S754_finite s m e) = S754_zero s).
  { unfold Py.round1. destruct (Py.frac m e) as [n d]. cbn [fst snd] in *.
    unfold Py.div_half_even.
    rewrite Z.div_small, Z.mod_small by lia.
    destruct (Z.compare_spec (2 * (10 * n)) d); try lia. reflexivity. }
  unfold Data.float2str. rewrite Hr.
  destruct (Ascii.eqb_spec (Data.decimal_separator self) ".") as [->|Hne];
    destruct s; reflexivity.
Qed.

(** -0.04, that is [-0x1.47ae147ae147bp-5], in the finnish dialect. *)
Lemma float2str_small_keeps_sign_witness :
  20 * fst (Py.frac 5764607523034235 (-57)) < snd (Py.frac 5764607523034235 (-57)) /\
  Data.float2str (Data.init "finnish") (S754_finite true 5764607523034235 (-57))
  = "-0,0".
Proof.
  assert (H : 20 * fst (Py.frac 5764607523034235 (-57))
              < snd (Py.frac 5764607523034235 (-57))) by (vm_compute; reflexivity).
  split; [exact H |].
  exact (float2str_small_keeps_sign (Data.init "finnish") true _ _ H).
Defined.

(** ** The first line of /proc/stat *)

Lemma split_not_nil (sep : ascii) (s : string) : Py.split sep s <> [].
Proof.
  destruct s as [|c s]; cbn; [discriminate |].
  destruct (Ascii.eqb c sep); [discriminate |].
  destruct (Py.split sep s); discriminate.
Qed.

Lemma has_char_cons (sep c : ascii) (s : string) :
  has_char sep (String c s) = Ascii.eqb sep c || has_char sep s.
Proof. reflexivity. Qed.

(** The field before a separator. *)
Lemma split_field (sep : ascii) (a r : string) :
  has_char sep a = false ->
  Py.split sep (a ++ String sep r) = a :: Py.split sep r.
Proof.
  induction a as [|c a IH]; cbn [append Py.split]; intros H.
  - now rewrite Ascii.eqb_refl.
  - rewrite has_char_cons in H. apply orb_false_iff in H as [Hc Ha].
    rewrite Ascii.eqb_sym, Hc, IH by assumption. reflexivity.
Qed.

Lemma split_last_field (sep : ascii) (a : string) :
  has_char sep a = false -> Py.split sep a = [a].
Proof.
  induction a as [|c a IH]; cbn [Py.split]; intros H; [reflexivity |].
  rewrite has_char_cons in H. apply orb_false_iff in H as [Hc Ha].
  rewrite Ascii.eqb_sym, Hc, IH by assumption. reflexivity.
Qed.

(** A string with the separator in it has at least two fields. *)
Lemma split_two_fields (sep : ascii) (s : string) :
  has_char sep s = true -> exists a b rest, Py.split sep s = a :: b :: rest.
Proof.
  induction s as [|c s IH]; [discriminate |].
  rewrite has_char_cons. cbn [Py.split]. intros H.
  destruct (Ascii.eqb_spec c sep) as [->|Hc].
  - destruct (Py.split sep s) as [|b rest] eqn:Hs; [now apply split_not_nil in Hs |].
    now exists EmptyString, b, rest.
  - apply orb_true_iff in H as [H|H].
    + apply Ascii.eqb_eq in H. congruence.
    + destruct (IH H) as (a & b & rest & ->). now exists (String c a), b, rest.
Qed.

Lemma split_app (sep : ascii) (s r : string) :
  Py.split sep (s ++ String sep r)
  = (Py.split sep s ++ Py.split sep r)%list.
Proof.
  induction s as [|c s IH]; cbn [append Py.split].
  - now rewrite Ascii.eqb_refl.
  - destruct (Ascii.eqb c sep); [now rewrite IH |].
    rewrite IH.
    destruct (Py.split sep s) as [|h t] eqn:Hs; [now apply split_not_nil in Hs |].
    reflexivity.
Qed.

Lemma int_raises_ValueError (s : string) (e : exn) :
  Py.int s = Raise e -> e = ValueError.
Proof.
  unfold Py.int.
  destruct (match strip s with
            | String "-" r => option_map Z.opp (parse_digits 0 false r)
            | String "+" r => parse_digits 0 false r
            | r => parse_digits 0 false r
            end); congruence.
Qed.

Lemma cpu_times_loop_raises (elements : list string) :
  forall (index cpuactive cputotal : Z) (e : exn),
    cpu_times_loop index elements cpuactive cputotal = Raise e -> e = ValueError.
Proof.
  induction elements as [|element rest IH]; cbn; intros index a t e H; [discriminate |].
  destruct (Py.int element) as [value|e'] eqn:Hint.
  - now apply IH in H.
  - injection H as <-. now apply int_raises_ValueError in Hint.
Qed.

Lemma int_blank (s : string) : blank s = true -> Py.int s = Raise ValueError.
Proof.
  intros H.
  assert (Hl : Py.lstrip s = EmptyString).
  { unfold blank in H. induction s as [|c s IH]; [reflexivity |].
    cbn [list_ascii_of_string forallb] in H. apply andb_true_iff in H as [Hc Hs].
    cbn [Py.lstrip]. rewrite Hc. now apply IH. }
  unfold Py.int, Py.strip. now rewrite Hl.
Qed.

Lemma cpu_times_loop_blank (before : list string) (field : string)
                           (after : list string) :
  Py.int field = Raise ValueError ->
  forall index cpuactive cputotal : Z,
    cpu_times_loop index (before ++ field :: after) cpuactive cputotal
    = Raise ValueError.
Proof.
  intros Hb. induction before as [|element rest IH]; cbn; intros index a t.
  - now rewrite Hb.
  - destruct (Py.int element) as [value|e] eqn:Hint.
    + apply IH.
    + now apply int_raises_ValueError in Hint as ->.
Qed.

Lemma parsed_Forall2 (elements : list string) (values : list Z) :
  map Py.int elements = map Ret values ->
  Forall2 (fun element value => Py.int element = Ret value) elements values.
Proof.
  revert values. induction elements as [|element rest IH]; intros [|v values] H;
    try discriminate; constructor.
  - now injection H.
  - apply IH. now injection H.
Qed.

Lemma cpu_times_loop_bounds (values : list Z) :
  forall (elements : list string) (index cpuactive cputotal : Z),
    Forall2 (fun element value => Py.int element = Ret value) elements values ->
    forallb (Z.leb 0) values = true ->
    0 <= cpuactive <= cputotal ->
    exists active total : Z,
      cpu_times_loop index elements cpuactive cputotal = Ret (active, total) /\
      total = cputotal + total_of values /\
      0 <= active <= total.
Proof.
  induction values as [|v values IH]; intros elements index a t H Hpos Hat;
    inversion H as [|element ? rest ? Hint Hrest]; subst.
  - exists a, t. cbn. repeat split; lia.
  - cbn [forallb] in Hpos. apply andb_true_iff in Hpos as [Hv Hvs].
    apply Z.leb_le in Hv.
    cbn [cpu_times_loop]. rewrite Hint.
    destruct (IH rest (index + 1)
                 (if existsb (Z.eqb index) active_indeces then a + v else a)
                 (t + v) Hrest Hvs) as (a' & t' & Hrun & Ht & Ha).
    { destruct (existsb (Z.eqb index) active_indeces); lia. }
    exists a', t'. rewrite Hrun. cbn [total_of fold_right]. fold (total_of values).
    repeat split; lia.
Qed.

(** X5. When every field after the first two of the line reads as a
    non-negative integer, however many there are, [cpu_times] returns a
    pair whose total is the sum of all of them and whose active part lies
    between zero and the total. *)
Theorem cpu_times_active_within_total :
  forall (line : string) (values : list Z),
    map Py.int (skipn 2 (Py.split " " line)) = map Ret values ->
    forallb (Z.leb 0) values = true ->
    exists active total : Z,
      cpu_times_of_line line = Ret (active, total) /\
      total = total_of values /\
      0 <= active <= total.
Proof.
  intros line values H Hpos. apply parsed_Forall2 in H.
  destruct (cpu_times_loop_bounds values _ 0 0 0 H Hpos ltac:(lia))
    as (a & t & Hrun & Ht & Ha).
  exists a, t. repeat split; try assumption; lia.
Qed.

(** A line of a kernel that shows eleven counters. *)
Lemma cpu_times_active_within_total_witness :
  exists active total : Z,
    cpu_times_of_line (stat_line "2255 34 2290 22625563 6290 127 456 0 0 0 7")
    = Ret (active, total) /\
    total = 22637022 /\
    0 <= active <= total.
Proof.
  apply (cpu_times_active_within_total
           (stat_line "2255 34 2290 22625563 6290 127 456 0 0 0 7")
           [2255; 34; 2290; 22625563; 6290; 127; 456; 0; 0; 0; 7]);
    vm_compute; reflexivity.
Defined.

(** X6. The first two space-separated fields of the line, the label and
    what follows its first space, are dropped unread: a line without a
    second space gives (0, 0), the empty line included, and otherwise the
    result is that of the fields after the second space. So in a line
    with a single space after the label, as the per-core lines have, the
    first counter is left out. *)
Theorem cpu_times_skips_two_fields :
  forall label pad rest : string,
    has_char " " label = false -> has_char " " pad = false ->
    cpu_times_of_line label = Ret (0, 0) /\
    cpu_times_of_line (label ++ " " ++ pad) = Ret (0, 0) /\
    cpu_times_of_line (label ++ " " ++ pad ++ " " ++ rest)
    = cpu_times_loop 0 (Py.split " " rest) 0 0.
Proof.
  intros label pad rest Hl Hp. unfold cpu_times_of_line.
  change (label ++ " " ++ pad) with (label ++ String " " pad).
  change (label ++ " " ++ pad ++ " " ++ rest)
    with (label ++ String " " (pad ++ String " " rest)).
  rewrite !split_field, !split_last_field by assumption.
  repeat split.
Qed.

(** The line of the first core: its user counter, 5, is not counted. *)
Lemma cpu_times_skips_two_fields_witness :
  cpu_times_of_line "" = Ret (0, 0) /\
  cpu_times_of_line ("cpu0 5 7 9" ++ String "010" "") = Ret (9, 16).
Proof.
  destruct (cpu_times_skips_two_fields "" "" "" eq_refl eq_refl) as (H0 & _).
  destruct (cpu_times_skips_two_fields "cpu0" "5" ("7 9" ++ String "010" "")
                                       eq_refl eq_refl) as (_ & _ & H).
  split; [exact H0 |]. cbn [append] in H. cbn [append]. rewrite H.
  vm_compute. reflexivity.
Defined.

(** X7. A blank field after the first two, as a doubled space between
    counters or a space before the end of the line leaves one, makes
    [cpu_times] raise [ValueError]. *)
Theorem cpu_times_blank_field :
  forall label field rest : string,
    has_char " " label = true ->
    blank field = true ->
    has_char " " field = false ->
    cpu_times_of_line (label ++ " " ++ field) = Raise ValueError /\
    cpu_times_of_line (label ++ " " ++ field ++ " " ++ rest) = Raise ValueError.
Proof.
  intros label field rest Hlabel Hblank Hsp.
  destruct (split_two_fields " " label Hlabel) as (a & b & l & Hl).
  pose proof (int_blank field Hblank) as Hint.
  unfold cpu_times_of_line. split.
  - change (label ++ " " ++ field) with (label ++ String " " field).
    rewrite split_app, Hl, split_last_field by assumption.
    cbn [skipn app]. now apply cpu_times_loop_blank.
  - change (label ++ " " ++ field ++ " " ++ rest)
      with (label ++ String " " (field ++ String " " rest)).
    rewrite split_app, Hl, split_field by assumption.
    cbn [skipn app]. now apply cpu_times_loop_blank.
Qed.

(** A space before the end of the line, and a doubled space. *)
Lemma cpu_times_blank_field_witness :
  cpu_times_of_line ("cpu  1 2 " ++ String "010" "") = Raise ValueError /\
  cpu_times_of_line "cpu  1 2  3" = Raise ValueError.
Proof.
  split.
  - exact (proj1 (cpu_times_blank_field "cpu  1 2" (String "010" "") ""
                                        eq_refl eq_refl eq_refl)).
  - exact (proj2 (cpu_times_blank_field "cpu  1 2" "" "3" eq_refl eq_refl eq_refl)).
Defined.

(** ** How the sampler can end *)

Lemma float_raises_OverflowError (z : Z) (e : exn) :
  Py.float z = Raise e -> e = OverflowError.
Proof.
  unfold Py.float. destruct (is_infinity (of_Z z)); congruence.
Qed.

(** How [cpu_times] can end: an unreadable file prints the error and
    exits with status 3, a malformed counter raises [ValueError]. *)
Lemma cpu_times_outcome (E : Env) (w : World) :
  let r := cpu_times E w in
  cpu_load_prev (snd r) = cpu_load_prev w /\
  stat_reads (snd r) = S (stat_reads w) /\
  match fst r with
  | Ret _ => trace (snd r) = trace w
  | Raise e =>
      e = SystemExit 3 /\ trace (snd r) = (trace w ++ [PrintError])%list \/
      e = ValueError /\ trace (snd r) = trace w
  end.
Proof.
  cbv zeta. unfold cpu_times.
  destruct (proc_stat E (stat_reads w)) as [line|]; cbn [fst snd].
  - split; [reflexivity |]. split; [reflexivity |].
    destruct (cpu_times_of_line line) as [r|e] eqn:H; [reflexivity |].
    right. unfold cpu_times_of_line in H. apply cpu_times_loop_raises in H.
    now split.
  - split; [reflexivity |]. split; [reflexivity |]. left. now split.
Qed.

(** How [cpu_load] can end. *)
Lemma cpu_load_outcome (E : Env) (w : World) :
  let r := cpu_load E w in
  match fst r with
  | Ret _ =>
      (exists curr : Z * Z, cpu_load_prev (snd r) = Some curr) /\
      trace (snd r) = trace w
  | Raise e =>
      (e = SystemExit 3 /\ trace (snd r) = (trace w ++ [PrintError])%list \/
       (e = ValueError \/ e = OverflowError) /\ trace (snd r) = trace w) /\
      cpu_load_prev (snd r) = cpu_load_prev w
  end.
Proof.
  cbv zeta.
  destruct (cpu_load E w) as [o w'] eqn:Hrun. cbn [fst snd].
  unfold cpu_load in Hrun. unfold bind at 1 in Hrun. cbv beta in Hrun.
  assert (Hfirst :
    let r := match cpu_load_prev w with
             | Some prev => ret prev w
             | None => cpu_times E w
             end in
    cpu_load_prev (snd r) = cpu_load_prev w /\
    match fst r with
    | Ret _ => trace (snd r) = trace w
    | Raise e =>
        e = SystemExit 3 /\ trace (snd r) = (trace w ++ [PrintError])%list \/
        e = ValueError /\ trace (snd r) = trace w
    end).
  { cbv zeta. destruct (cpu_load_prev w) eqn:Hprev.
    - split; [exact Hprev | reflexivity].
    - rewrite <- Hprev. pose proof (cpu_times_outcome E w) as H. cbv zeta in H. tauto. }
  cbv zeta in Hfirst.
  destruct (match cpu_load_prev w with
            | Some prev => ret prev w
            | None => cpu_times E w
            end) as [[prev|e] w1]; cbn [fst snd] in Hfirst.
  2:{ injection Hrun as <- <-. destruct Hfirst as [Hp [[-> Ht]|[-> Ht]]]; auto. }
  destruct Hfirst as [Hp1 Ht1].
  unfold bind at 1 in Hrun.
  pose proof (cpu_times_outcome E w1) as (Hp2 & _ & Hc). cbv zeta in Hc.
  destruct (cpu_times E w1) as [[curr|e] w2]; cbn [fst snd] in Hc, Hp2.
  2:{ injection Hrun as <- <-. split; [| congruence].
      destruct Hc as [[-> Ht]|[-> Ht]]; rewrite Ht, Ht1; auto. }
  unfold try_except, bind, lift, ret, modify in Hrun.
  destruct (Py.float (snd curr - snd prev)) as [dt|e] eqn:Hdt.
  2:{ apply float_raises_OverflowError in Hdt as ->. cbn in Hrun.
      injection Hrun as <- <-. split; [right; split; [auto | congruence] | congruence]. }
  destruct (Py.float (fst curr - fst prev)) as [da|e] eqn:Hda.
  2:{ apply float_raises_OverflowError in Hda as ->. cbn in Hrun.
      injection Hrun as <- <-. split; [right; split; [auto | congruence] | congruence]. }
  unfold Py.truediv in Hrun.
  destruct (is_zero dt); cbn in Hrun; injection Hrun as <- <-;
    (split; [exists curr; reflexivity | cbn; congruence]).
Qed.

(** X8. [cpu_load] ends in one of four ways. It returns a load, and then
    a snapshot is stored and nothing was printed; or /proc/stat could not
    be opened, and then the error line was printed and the exit status is
    3; or a counter was malformed ([ValueError]) or a difference too large
    for a float ([OverflowError]), and then nothing was printed. When it
    raises, the stored snapshot is the one from before the call. It
    never raises [ZeroDivisionError]. *)
Theorem cpu_load_failures :
  forall (E : Env) (w : World),
    let r := cpu_load E w in
    match fst r with
    | Ret _ =>
        (exists curr : Z * Z, cpu_load_prev (snd r) = Some curr) /\
        trace (snd r) = trace w
    | Raise e =>
        (e = SystemExit 3 /\ trace (snd r) = (trace w ++ [PrintError])%list \/
         (e = ValueError \/ e = OverflowError) /\ trace (snd r) = trace w) /\
        cpu_load_prev (snd r) = cpu_load_prev w
    end.
Proof. exact cpu_load_outcome. Qed.

(** ** What the steps of the loop respect *)

Section Respects.

Variable E : Env.
Variable cfg : Config.
Variable R : World -> World -> Prop.
Context {HR : Invariant R}.

Lemma respects_ret {A : Type} (a : A) : respects R (ret a).
Proof. intros w. apply inv_refl. Qed.

Lemma respects_raise {A : Type} (e : exn) : respects R (@raise A e).
Proof. intros w. apply inv_refl. Qed.

Lemma respects_lift {A : Type} (o : outcome A) : respects R (lift o).
Proof. intros w. apply inv_refl. Qed.

Lemma respects_bind {A B : Type} (c : M A) (k : A -> M B) :
  respects R c -> (forall a, respects R (k a)) -> respects R (bind c k).
Proof.
  intros Hc Hk w. unfold bind. specialize (Hc w).
  destruct (c w) as [[a|e] w1]; cbn [snd] in *.
  - eapply inv_trans; [exact Hc | apply Hk].
  - exact Hc.
Qed.

Lemma respects_try_except {A : Type} (body handler : M A) (catches : exn -> bool) :
  respects R body -> respects R handler ->
  respects R (try_except body catches handler).
Proof.
  intros Hb Hh w. unfold try_except. specialize (Hb w).
  destruct (body w) as [[a|e] w1]; cbn [snd] in *; [exact Hb |].
  destruct (catches e); [| exact Hb].
  eapply inv_trans; [exact Hb | apply Hh].
Qed.

Lemma respects_modify (f : World -> World) :
  (forall w, R w (f w)) -> respects R (modify f).
Proof. intros H w. apply H. Qed.

Lemma respects_reading {A B : Type} (f : World -> B) (c : B -> M A) :
  (forall b, respects R (c b)) -> respects R (fun w => c (f w) w).
Proof. intros H w. apply H. Qed.

Lemma respects_time_time : respects R (time_time E).
Proof. intros w. apply inv_clock_reads. Qed.

(** What the relation is asked to hold across, step by step. *)
Hypothesis R_error : forall w, R w (emit w PrintError).
Hypothesis R_bell : forall w, R w (emit w Bell).
Hypothesis R_lapsed_time : forall now, respects R (lapsed_time E now).
Hypothesis R_data : forall w v, R w (set_data w v).
Hypothesis R_sensor_reads : forall w v, R w (set_sensor_reads w v).
Hypothesis R_sleep : forall w d, R w (emit w (Sleep d)).
Hypothesis R_row : forall w, CSV_File cfg <> None ->
                             R w (emit w (CsvRow (Data.row cfg (data w)))).
Hypothesis R_status :
  forall w elapsed,
    R w (emit w (StatusLine elapsed
                            (Data.cpu_temp (data w)) (Data.cpu_volts (data w))
                            (Data.cpu_load (data w)) (Data.cpu_freq (data w))
                            (Data.gpu_temp (data w))
                            (Data.throttled_string (data w)))).
Hypothesis R_next_tick : forall w v, R w (set_next_tick w v).
Hypothesis R_close : forall w, R w (set_csv_file (emit w CsvClose) (Some false)).
Hypothesis R_line : forall w, R w (emit w (PrintLine "")).
Hypothesis R_boundaries : forall w v, R w (set_boundaries w v).

Lemma respects_boundary : respects R (boundary E).
Proof.
  intros w. unfold boundary.
  destruct (sigint E (boundaries w)); apply R_boundaries.
Qed.

Lemma respects_cpu_times : respects R (cpu_times E).
Proof.
  intros w. unfold cpu_times. destruct (proc_stat E (stat_reads w)); cbn [snd].
  - apply inv_stat_reads.
  - eapply inv_trans; [apply inv_stat_reads | apply R_error].
Qed.

Lemma respects_cpu_load : respects R (cpu_load E).
Proof.
  unfold cpu_load. apply respects_bind.
  { intros w. destruct (cpu_load_prev w); [apply respects_ret | apply respects_cpu_times]. }
  intros prev. apply respects_bind; [apply respects_cpu_times | intros curr].
  apply respects_bind.
  { apply respects_try_except; [| apply respects_ret].
    repeat (apply respects_bind; [apply respects_lift | intros ?]).
    apply respects_lift. }
  intros load. apply respects_bind; [| intros; apply respects_ret].
  apply respects_modify. intros w. apply inv_cpu_load_prev.
Qed.

Lemma respects_cpu_temp : respects R (cpu_temp E).
Proof.
  intros w. unfold cpu_temp.
  destruct (sysfs_temp E (sensor_reads w)); cbn [snd]; [apply inv_refl | apply R_error].
Qed.

Lemma respects_set_field (f : Data.t -> Data.t) : respects R (set_field f).
Proof. apply respects_modify. intros w. apply R_data. Qed.

Lemma respects_Data_read (now : f64) : respects R (Data_read E now).
Proof.
  unfold Data_read, cpu_freq, cpu_volts, gpu_temp, get_throttled.
  repeat (apply respects_bind;
          [first [ apply R_lapsed_time | apply respects_set_field
                 | apply respects_cpu_temp | apply respects_cpu_load
                 | intros w; apply inv_refl ]
          | intros ?]).
  apply respects_modify. intros w. apply R_sensor_reads.
Qed.

Lemma respects_console_throttling_alert (d : Data.t) :
  respects R (console_throttling_alert E cfg d).
Proof.
  unfold console_throttling_alert.
  destruct (Console_Alert cfg) as [min_interval|]; [| apply respects_ret].
  assert (Hset : forall t, respects R (modify (fun w => set_last_beep w (Some t)))).
  { intros t. apply respects_modify. intros w. apply inv_last_beep. }
  apply respects_bind.
  { intros w. destruct (last_beep w); [apply respects_ret |].
    apply respects_bind; [apply respects_time_time | intros t; apply Hset]. }
  intros _. destruct (Z.eqb _ 0); [apply respects_ret |].
  apply respects_bind; [apply respects_time_time | intros now].
  apply respects_bind.
  { intros w. destruct (last_beep w); [apply respects_ret | apply respects_raise]. }
  intros last. destruct (gtb _ _); [| apply respects_ret].
  apply respects_bind; [apply respects_time_time | intros t].
  apply respects_bind; [apply Hset | intros _].
  apply respects_modify, R_bell.
Qed.

Lemma respects_row_step :
  respects R match CSV_File cfg with
             | Some _ => fun w => csv_writerow (Data.row cfg (data w)) w
             | None => ret tt
             end.
Proof.
  destruct (CSV_File cfg) as [name|] eqn:Hfile; [| apply respects_ret].
  intros w. unfold csv_writerow.
  destruct (csv_file w) as [[|]|]; cbn [snd]; try apply inv_refl.
  apply R_row. discriminate.
Qed.

Lemma respects_print_status : respects R (print_status E).
Proof.
  unfold print_status. apply respects_bind.
  - apply (respects_reading next_tick (lapsed_time E)), R_lapsed_time.
  - intros elapsed. apply respects_modify. intros w. apply R_status.
Qed.

Lemma respects_loop_body : respects R (loop_body E cfg).
Proof.
  unfold loop_body.
  apply respects_bind; [apply respects_boundary | intros _].
  apply respects_bind; [apply respects_time_time | intros now].
  apply respects_bind; [intros w; apply inv_refl | intros d].
  apply respects_bind; [apply respects_boundary | intros _].
  apply respects_bind.
  { destruct (gtb d zero); [| apply respects_ret].
    apply respects_modify. intros w. apply R_sleep. }
  intros _. apply respects_bind; [apply respects_boundary | intros _].
  apply respects_bind.
  { apply (respects_reading next_tick (Data_read E)), respects_Data_read. }
  intros _. apply respects_bind; [apply respects_boundary | intros _].
  apply respects_bind.
  { apply (respects_reading data (console_throttling_alert E cfg)),
      respects_console_throttling_alert. }
  intros _. apply respects_bind; [apply respects_boundary | intros _].
  apply respects_bind; [apply respects_row_step | intros _].
  apply respects_bind; [apply respects_boundary | intros _].
  apply respects_bind; [apply respects_print_status | intros _].
  apply respects_bind; [apply respects_boundary | intros _].
  apply respects_modify. intros w. apply R_next_tick.
Qed.

Lemma respects_interrupt_handler : respects R interrupt_handler.
Proof.
  unfold interrupt_handler.
  apply respects_bind.
  { apply respects_try_except; [| apply respects_ret].
    intros w. unfold csv_file_close.
    destruct (csv_file w) as [[|]|]; cbn [snd]; try apply inv_refl. apply R_close. }
  intros _. apply respects_bind; [| intros _; apply respects_raise].
  apply respects_modify, R_line.
Qed.

Lemma respects_iteration : respects R (iteration E cfg).
Proof.
  apply respects_try_except;
    [apply respects_loop_body | apply respects_interrupt_handler].
Qed.

Lemma respects_main_loop (n : nat) : respects R (main_loop E cfg n).
Proof.
  induction n as [|n IH]; [apply respects_ret |].
  cbn [main_loop]. apply respects_bind; [apply respects_iteration | intros _; exact IH].
Qed.

End Respects.

Lemma same_invariant {X : Type} (obs : World -> X) :
  (forall w v, obs (set_clock_reads w v) = obs w) ->
  (forall w v, obs (set_stat_reads w v) = obs w) ->
  (forall w v, obs (set_cpu_load_prev w v) = obs w) ->
  (forall w v, obs (set_last_beep w v) = obs w) ->
  Invariant (same obs).
Proof.
  intros. constructor; unfold same; try assumption; [reflexivity | congruence].
Qed.

#[local] Instance same_data : Invariant (same data).
Proof. apply same_invariant; reflexivity. Qed.

#[local] Instance same_sensor_reads : Invariant (same sensor_reads).
Proof. apply same_invariant; reflexivity. Qed.

#[local] Instance same_csv_file : Invariant (same csv_file).
Proof. apply same_invariant; reflexivity. Qed.

#[local] Instance same_start_time : Invariant (same lapsed_time_start_time).
Proof. apply same_invariant; reflexivity. Qed.

#[local] Instance same_next_tick : Invariant (same next_tick).
Proof. apply same_invariant; reflexivity. Qed.

#[local] Instance start_kept_invariant : Invariant start_kept.
Proof. constructor; unfold start_kept; auto. Qed.

Lemma extends_emit (P : event -> Prop) (w : World) (ev : event) :
  P ev -> extends P w (emit w ev).
Proof. intros H. exists [ev]. split; [reflexivity | now constructor]. Qed.

#[local] Instance extends_invariant (P : event -> Prop) : Invariant (extends P).
Proof.
  constructor; try (intros w v; exists []; split; [cbn; now rewrite app_nil_r | constructor]).
  - intros w. exists []. split; [now rewrite app_nil_r | constructor].
  - intros w1 w2 w3 (a & Ha & Pa) (b & Hb & Pb). exists (a ++ b)%list. split.
    + now rewrite Hb, Ha, app_assoc.
    + apply Forall_app. now split.
Qed.

Lemma bind_ret_inv {A B : Type} (c : M A) (k : A -> M B) (w w' : World) (b : B) :
  bind c k w = (Ret b, w') ->
  exists (a : A) (w1 : World), c w = (Ret a, w1) /\ k a w1 = (Ret b, w').
Proof.
  unfold bind. destruct (c w) as [[a|e] w1]; [| discriminate].
  intros H. now exists a, w1.
Qed.

Section Lockstep.

Variable Q : World -> World -> Prop.

Lemma lockstep_ret {A : Type} (x : A) : lockstep Q (ret x).
Proof. intros w a H. now split. Qed.

Lemma lockstep_lift {A : Type} (o : outcome A) : lockstep Q (lift o).
Proof. intros w a H. now split. Qed.

Lemma lockstep_bind {A B : Type} (c : M A) (k : A -> M B) :
  lockstep Q c -> (forall x, lockstep Q (k x)) -> lockstep Q (bind c k).
Proof.
  intros Hc Hk w a H. unfold bind. destruct (Hc w a H) as [Hf Hs].
  destruct (c w) as [[x|e] w1], (c a) as [[y|e'] a1]; cbn [fst snd] in *;
    try discriminate.
  - injection Hf as <-. now apply Hk.
  - injection Hf as <-. now split.
Qed.

Lemma lockstep_try_except {A : Type} (body handler : M A) (catches : exn -> bool) :
  lockstep Q body -> lockstep Q handler ->
  lockstep Q (try_except body catches handler).
Proof.
  intros Hb Hh w a H. unfold try_except. destruct (Hb w a H) as [Hf Hs].
  destruct (body w) as [[x|e] w1], (body a) as [[y|e'] a1]; cbn [fst snd] in *;
    try discriminate.
  - split; assumption.
  - injection Hf as <-. destruct (catches e); [now apply Hh | now split].
Qed.

End Lockstep.

Lemma lockstep_cpu_times (E : Env) : lockstep same_counters (cpu_times E).
Proof.
  intros w a [Hs Hp]. unfold cpu_times. rewrite Hs.
  destruct (proc_stat E (stat_reads a)); cbn [fst snd]; (split; [reflexivity |]);
    split; cbn; congruence.
Qed.

Lemma lockstep_cpu_load (E : Env) : lockstep same_counters (cpu_load E).
Proof.
  unfold cpu_load. apply lockstep_bind.
  { intros w a H. destruct H as [Hs Hp]. rewrite Hp.
    destruct (cpu_load_prev a) eqn:Ha.
    - split; [reflexivity | split; cbn; congruence].
    - apply lockstep_cpu_times. split; congruence. }
  intros prev. apply lockstep_bind; [apply lockstep_cpu_times | intros curr].
  apply lockstep_bind.
  { apply lockstep_try_except; [| apply lockstep_ret].
    repeat (apply lockstep_bind; [apply lockstep_lift | intros ?]).
    apply lockstep_lift. }
  intros load. apply lockstep_bind; [| intros; apply lockstep_ret].
  intros w a [Hs Hp]. split; [reflexivity |]. split; cbn; congruence.
Qed.

(** The sampler's result depends on the stored snapshot and on the
    cursor of /proc/stat alone. *)
Lemma cpu_load_same_counters (E : Env) (w a : World) :
  stat_reads w = stat_reads a -> cpu_load_prev w = cpu_load_prev a ->
  fst (cpu_load E w) = fst (cpu_load E a).
Proof. intros Hs Hp. now apply lockstep_cpu_load. Qed.

(** What the alert hook does to the world. *)
Lemma alert_effect (E : Env) (cfg : Config) (d : Data.t) (w : World) :
  let r := console_throttling_alert E cfg d w in
  fst r = Ret tt /\
  (trace (snd r) = trace w \/ trace (snd r) = (trace w ++ [Bell])%list) /\
  (clock_reads w <= clock_reads (snd r) <= clock_reads w + 3)%nat /\
  (Console_Alert cfg = None -> snd r = w) /\
  data (snd r) = data w /\
  sensor_reads (snd r) = sensor_reads w /\
  lapsed_time_start_time (snd r) = lapsed_time_start_time w /\
  next_tick (snd r) = next_tick w /\
  csv_file (snd r) = csv_file w.
Proof.
  cbv zeta. unfold console_throttling_alert, bind, ret, modify, time_time, raise.
  destruct (Console_Alert cfg) as [min_interval|];
    [| cbn; repeat split; auto; lia].
  destruct (Z.eqb (Z.land (Data.throttled d) 0x07) 0);
    destruct (last_beep w) as [t|] eqn:Hlast;
    cbn [last_beep set_last_beep set_clock_reads clock_reads fst snd trace];
    rewrite ?Hlast;
    repeat match goal with
           | |- context [if gtb ?a ?b then _ else _] => destruct (gtb a b)
           end;
    cbn [last_beep set_last_beep set_clock_reads clock_reads fst snd trace emit];
    repeat split; auto; try lia; try discriminate.
Qed.

Lemma boundary_ret (E : Env) (w w' : World) :
  boundary E w = (Ret tt, w') ->
  sigint E (boundaries w) = false /\ w' = set_boundaries w (S (boundaries w)).
Proof.
  unfold boundary. destruct (sigint E (boundaries w)); [discriminate |].
  intros H. injection H as <-. now split.
Qed.

Lemma row_step_ret (cfg : Config) (w w' : World) :
  match CSV_File cfg with
  | Some _ => fun w => csv_writerow (Data.row cfg (data w)) w
  | None => ret tt
  end w = (Ret tt, w') ->
  w' = match CSV_File cfg with
       | Some _ => emit w (CsvRow (Data.row cfg (data w)))
       | None => w
       end.
Proof.
  destruct (CSV_File cfg); [| intros H; now injection H as <-].
  unfold csv_writerow. destruct (csv_file w) as [[|]|]; try discriminate.
  intros H. now injection H as <-.
Qed.

Lemma print_status_ret (E : Env) (w w' : World) :
  print_status E w = (Ret tt, w') ->
  let start := match lapsed_time_start_time w with
               | Some t => t
               | None => next_tick w
               end in
  exists elapsed : string,
    strftime_gmtime E (sub (next_tick w) start) = Ret elapsed /\
    w' = emit (set_lapsed_time_start_time w (Some start))
              (StatusLine elapsed
                          (Data.cpu_temp (data w)) (Data.cpu_volts (data w))
                          (Data.cpu_load (data w)) (Data.cpu_freq (data w))
                          (Data.gpu_temp (data w))
                          (Data.throttled_string (data w))).
Proof.
  intros H start. unfold print_status, bind, lapsed_time, modify in H.
  fold start in H.
  destruct (strftime_gmtime E (sub (next_tick w) start)) as [elapsed|e];
    [| discriminate].
  injection H as <-. now exists elapsed.
Qed.

(** Reduces the projections of updated worlds and data objects. *)
Ltac simpl_world_in H :=
  cbn [clock_reads stat_reads sensor_reads boundaries cpu_load_prev
       lapsed_time_start_time last_beep data next_tick csv_file trace
       set_clock_reads set_stat_reads set_sensor_reads set_boundaries
       set_cpu_load_prev set_lapsed_time_start_time set_last_beep set_data
       set_next_tick set_csv_file emit
       Data.set_time Data.set_cpu_temp Data.set_cpu_load Data.set_cpu_freq
       Data.set_cpu_volts Data.set_gpu_temp Data.set_throttled
       Data.time Data.cpu_temp Data.cpu_load Data.cpu_freq Data.cpu_volts
       Data.gpu_temp Data.throttled Data.decimal_separator fst snd] in H.

Lemma set_field_ret (f : Data.t -> Data.t) (w w' : World) :
  set_field f w = (Ret tt, w') -> w' = set_data w (f (data w)).
Proof. intros H. now injection H as <-. Qed.

Lemma sensor_ret {A : Type} (q : nat -> outcome A) (w w' : World) (a : A) :
  (fun w : World => (q (sensor_reads w), w)) w = (Ret a, w') ->
  q (sensor_reads w) = Ret a /\ w' = w.
Proof. intros H. injection H as H <-. now split. Qed.

(** What the sampler leaves alone, and what a sample that succeeds
    leaves alone. *)
Lemma cpu_load_ret (E : Env) (w w' : World) (l : f64) :
  cpu_load E w = (Ret l, w') ->
  data w' = data w /\ sensor_reads w' = sensor_reads w /\
  lapsed_time_start_time w' = lapsed_time_start_time w /\
  next_tick w' = next_tick w /\ csv_file w' = csv_file w /\
  trace w' = trace w.
Proof.
  intros H.
  pose proof (respects_cpu_load E (same data) (fun _ => eq_refl) w) as Hd.
  pose proof (respects_cpu_load E (same sensor_reads) (fun _ => eq_refl) w) as Hs.
  pose proof (respects_cpu_load E (same lapsed_time_start_time) (fun _ => eq_refl) w)
    as Hst.
  pose proof (respects_cpu_load E (same next_tick) (fun _ => eq_refl) w) as Hn.
  pose proof (respects_cpu_load E (same csv_file) (fun _ => eq_refl) w) as Hf.
  pose proof (cpu_load_outcome E w) as Hout.
  unfold same in *. cbv zeta in Hout. rewrite H in *. cbn [fst snd] in *.
  destruct Hout as [_ Ht]. repeat split; assumption.
Qed.

(** A [Data.read] that completes. *)
Lemma Data_read_ret (E : Env) (now : f64) (w w' : World) :
  Data_read E now w = (Ret tt, w') ->
  let start := match lapsed_time_start_time w with Some t => t | None => now end in
  exists (elapsed : string) (t l f v g : f64) (th : Z),
    strftime_gmtime E (sub now start) = Ret elapsed /\
    sysfs_temp E (sensor_reads w) = Some (Ret t) /\
    fst (cpu_load E w) = Ret l /\
    vc_measure_clock E (sensor_reads w) = Ret f /\
    vc_measure_volts E (sensor_reads w) = Ret v /\
    vc_measure_temp E (sensor_reads w) = Ret g /\
    vc_get_throttled E (sensor_reads w) = Ret th /\
    data w' = Data.mk (Some elapsed) t l f v g th (Data.decimal_separator (data w)) /\
    sensor_reads w' = S (sensor_reads w) /\
    lapsed_time_start_time w' = Some start /\
    next_tick w' = next_tick w /\
    csv_file w' = csv_file w /\
    trace w' = trace w.
Proof.
  intros H start. unfold Data_read in H.
  apply bind_ret_inv in H as (elapsed & w1 & H1 & H).
  unfold lapsed_time in H1. fold start in H1. injection H1 as He Hw1.
  apply bind_ret_inv in H as ([] & w2 & H2 & H). apply set_field_ret in H2.
  apply bind_ret_inv in H as (t & w3 & H3 & H).
  assert (Ht : sysfs_temp E (sensor_reads w2) = Some (Ret t) /\ w3 = w2).
  { unfold cpu_temp in H3.
    destruct (sysfs_temp E (sensor_reads w2)) as [[t'|e]|]; try discriminate.
    injection H3 as -> <-. now split. }
  destruct Ht as [Ht ->].
  apply bind_ret_inv in H as ([] & w4 & H4 & H). apply set_field_ret in H4.
  apply bind_ret_inv in H as (l & w5 & H5 & H).
  pose proof (cpu_load_ret E w4 w5 l H5) as (Hd5 & Hs5 & Hst5 & Hn5 & Hf5 & Htr5).
  assert (Hl : fst (cpu_load E w) = Ret l).
  { rewrite <- (cpu_load_same_counters E w4 w); [now rewrite H5 | |];
      subst w4 w2 w1; reflexivity. }
  apply bind_ret_inv in H as ([] & w6 & H6 & H). apply set_field_ret in H6.
  apply bind_ret_inv in H as (f & w7 & H7 & H).
  apply (sensor_ret (vc_measure_clock E)) in H7 as [Hf ->].
  apply bind_ret_inv in H as ([] & w8 & H8 & H). apply set_field_ret in H8.
  apply bind_ret_inv in H as (v & w9 & H9 & H).
  apply (sensor_ret (vc_measure_volts E)) in H9 as [Hv ->].
  apply bind_ret_inv in H as ([] & w10 & H10 & H). apply set_field_ret in H10.
  apply bind_ret_inv in H as (g & w11 & H11 & H).
  apply (sensor_ret (vc_measure_temp E)) in H11 as [Hg ->].
  apply bind_ret_inv in H as ([] & w12 & H12 & H). apply set_field_ret in H12.
  apply bind_ret_inv in H as (th & w13 & H13 & H).
  apply (sensor_ret (vc_get_throttled E)) in H13 as [Hth ->].
  apply bind_ret_inv in H as ([] & w14 & H14 & H). apply set_field_ret in H14.
  unfold modify in H. injection H as Hw'.
  assert (F2 : sensor_reads w2 = sensor_reads w) by (subst w2 w1; reflexivity).
  assert (F6 : sensor_reads w6 = sensor_reads w).
  { subst w6. cbn [sensor_reads set_data]. rewrite Hs5. subst w4. exact F2. }
  assert (F8 : sensor_reads w8 = sensor_reads w) by (subst w8; exact F6).
  assert (F10 : sensor_reads w10 = sensor_reads w) by (subst w10; exact F8).
  assert (F12 : sensor_reads w12 = sensor_reads w) by (subst w12; exact F10).
  rewrite F2 in Ht. rewrite F6 in Hf. rewrite F8 in Hv. rewrite F10 in Hg.
  rewrite F12 in Hth.
  exists elapsed, t, l, f, v, g, th.
  repeat (split; [assumption |]).
  assert (D5 : data w5 = Data.mk (Some elapsed) t (Data.cpu_load (data w))
                                 (Data.cpu_freq (data w)) (Data.cpu_volts (data w))
                                 (Data.gpu_temp (data w)) (Data.throttled (data w))
                                 (Data.decimal_separator (data w))).
  { rewrite Hd5. subst w4 w2 w1. reflexivity. }
  subst w' w14 w12 w10 w8 w6.
  simpl_world_in D5.
  cbn [data sensor_reads lapsed_time_start_time next_tick csv_file trace
       set_data set_sensor_reads].
  rewrite D5, Hs5, Hst5, Hn5, Hf5, Htr5. subst w4 w2 w1.
  repeat split.
Qed.

(** A pass through the loop body that completes: the sample it stores
    and what it adds to the trace. *)
Lemma loop_body_ret (E : Env) (cfg : Config) (w w' : World) :
  loop_body E cfg w = (Ret tt, w') ->
  let sleep := sub (next_tick w) (clock E (clock_reads w)) in
  let start := match lapsed_time_start_time w with
               | Some t => t
               | None => next_tick w
               end in
  let d := data w' in
  exists (elapsed : string) (bell : list event),
    strftime_gmtime E (sub (next_tick w) start) = Ret elapsed /\
    d = Data.mk (Some elapsed) (Data.cpu_temp d) (Data.cpu_load d)
                (Data.cpu_freq d) (Data.cpu_volts d) (Data.gpu_temp d)
                (Data.throttled d) (Data.decimal_separator (data w)) /\
    sysfs_temp E (sensor_reads w) = Some (Ret (Data.cpu_temp d)) /\
    fst (cpu_load E w) = Ret (Data.cpu_load d) /\
    vc_measure_clock E (sensor_reads w) = Ret (Data.cpu_freq d) /\
    vc_measure_volts E (sensor_reads w) = Ret (Data.cpu_volts d) /\
    vc_measure_temp E (sensor_reads w) = Ret (Data.gpu_temp d) /\
    vc_get_throttled E (sensor_reads w) = Ret (Data.throttled d) /\
    sensor_reads w' = S (sensor_reads w) /\
    lapsed_time_start_time w' = Some start /\
    (bell = [] \/ bell = [Bell]) /\
    trace w'
    = (trace w
       ++ (if gtb sleep zero then [Sleep sleep] else [])
       ++ bell
       ++ match CSV_File cfg with
          | Some _ => [CsvRow (Data.row cfg d)]
          | None => []
          end
       ++ [StatusLine elapsed (Data.cpu_temp d) (Data.cpu_volts d)
                      (Data.cpu_load d) (Data.cpu_freq d) (Data.gpu_temp d)
                      (Data.throttled_string d)])%list.
Proof.
  intros H sleep start d. rewrite loop_body_unfold in H.
  unfold bind at 1 2 3 4 5 in H. unfold boundary at 1 2, time_time, ret in H.
  destruct (sigint E (boundaries w)); [discriminate |].
  cbn [boundaries clock_reads set_boundaries set_clock_reads next_tick] in H.
  destruct (sigint E (S (boundaries w))); [discriminate |].
  fold sleep in H.
  set (w3 := snd ((if gtb sleep zero
                   then modify (fun w => emit w (Sleep sleep))
                   else ret tt)
                    (set_boundaries
                       (set_clock_reads (set_boundaries w (S (boundaries w)))
                                        (S (clock_reads w)))
                       (S (S (boundaries w)))))).
  assert (H3 : measure_and_advance E cfg w3 = (Ret tt, w')).
  { subst w3. destruct (gtb sleep zero); exact H. }
  assert (Htrace3 : trace w3
                    = (trace w ++ if gtb sleep zero then [Sleep sleep] else [])%list).
  { subst w3. destruct (gtb sleep zero); cbn; now rewrite ?app_nil_r. }
  assert (Hw3 : data w3 = data w /\ sensor_reads w3 = sensor_reads w /\
                lapsed_time_start_time w3 = lapsed_time_start_time w /\
                next_tick w3 = next_tick w /\ stat_reads w3 = stat_reads w /\
                cpu_load_prev w3 = cpu_load_prev w).
  { subst w3. destruct (gtb sleep zero); repeat split. }
  destruct Hw3 as (Hd3 & Hs3 & Hst3 & Hn3 & Hsr3 & Hp3).
  clear H. unfold measure_and_advance in H3.
  apply bind_ret_inv in H3 as ([] & w4 & Hb4 & H3).
  apply boundary_ret in Hb4 as [_ ->].
  apply bind_ret_inv in H3 as ([] & w5 & Hread & H3).
  apply Data_read_ret in Hread
    as (elapsed & t & l & f & v & g & th & He & Ht & Hl & Hf & Hv & Hg & Hth
        & Hd5 & Hs5 & Hst5 & Hn5 & _ & Ht5).
  cbn [sensor_reads data lapsed_time_start_time next_tick trace set_boundaries]
    in He, Ht, Hf, Hv, Hg, Hth, Hd5, Hs5, Hst5, Hn5, Ht5.
  rewrite Hs3 in Ht, Hf, Hv, Hg, Hth, Hs5. rewrite Hst3, Hn3 in He, Hst5.
  rewrite Hn3 in Hn5. rewrite Hd3 in Hd5. fold start in He, Hst5.
  rewrite (cpu_load_same_counters E _ w) in Hl by (cbn; assumption).
  apply bind_ret_inv in H3 as ([] & w6 & Hb6 & H3).
  apply boundary_ret in Hb6 as [_ ->].
  apply bind_ret_inv in H3 as ([] & w7 & Halert & H3).
  pose proof (alert_effect E cfg (data (set_boundaries w5 (S (boundaries w5))))
                           (set_boundaries w5 (S (boundaries w5))))
    as (_ & Hbell & _ & _ & Hd7 & Hs7 & Hst7 & Hn7 & _).
  rewrite Halert in Hbell, Hd7, Hs7, Hst7, Hn7.
  cbn [snd data sensor_reads lapsed_time_start_time next_tick trace set_boundaries]
    in Hbell, Hd7, Hs7, Hst7, Hn7.
  apply bind_ret_inv in H3 as ([] & w8 & Hb8 & H3).
  apply boundary_ret in Hb8 as [_ ->].
  apply bind_ret_inv in H3 as ([] & w9 & Hrow & H3).
  apply row_step_ret in Hrow.
  cbn [data set_boundaries] in Hrow.
  apply bind_ret_inv in H3 as ([] & w10 & Hb10 & H3).
  apply boundary_ret in Hb10 as [_ ->].
  apply bind_ret_inv in H3 as ([] & w11 & Hstatus & H3).
  apply print_status_ret in Hstatus as (elapsed' & He' & ->).
  apply bind_ret_inv in H3 as ([] & w12 & Hb12 & H3).
  apply boundary_ret in Hb12 as [_ ->].
  unfold modify in H3. injection H3 as <-.
  assert (Hd9 : data w9 = data w5).
  { rewrite Hrow, <- Hd7. destruct (CSV_File cfg); reflexivity. }
  assert (Hs9 : sensor_reads w9 = sensor_reads w5).
  { rewrite Hrow, <- Hs7. destruct (CSV_File cfg); reflexivity. }
  assert (Hst9 : lapsed_time_start_time w9 = lapsed_time_start_time w5).
  { rewrite Hrow, <- Hst7. destruct (CSV_File cfg); reflexivity. }
  assert (Hn9 : next_tick w9 = next_tick w5).
  { rewrite Hrow, <- Hn7. destruct (CSV_File cfg); reflexivity. }
  assert (Ht9 : trace w9
                = (trace w7 ++ match CSV_File cfg with
                               | Some _ => [CsvRow (Data.row cfg (data w5))]
                               | None => []
                               end)%list).
  { rewrite Hrow, <- Hd7. destruct (CSV_File cfg); cbn; now rewrite ?app_nil_r. }
  cbn [lapsed_time_start_time next_tick set_boundaries] in He'.
  rewrite Hst9, Hn9, Hst5, Hn5, He in He'. injection He' as <-.
  subst d.
  cbn [data sensor_reads lapsed_time_start_time trace set_next_tick set_boundaries
       emit set_lapsed_time_start_time].
  rewrite Hd9, Hs9, Hst9, Hd5.
  cbn [Data.cpu_temp Data.cpu_load Data.cpu_freq Data.cpu_volts Data.gpu_temp
       Data.throttled Data.decimal_separator].
  assert (Htrace : exists bell : list event,
             (bell = [] \/ bell = [Bell]) /\ trace w7 = (trace w5 ++ bell)%list).
  { destruct Hbell as [Hb|Hb]; [exists [] | exists [Bell]]; rewrite Hb, ?app_nil_r; auto. }
  destruct Htrace as (bell & Hbell' & Ht7).
  exists elapsed, bell.
  repeat (split; [first [assumption | reflexivity] |]).
  split; [now rewrite Hst5 |].
  split; [assumption |].
  rewrite Ht9, Ht7, Ht5, Htrace3, Hd5, <- !app_assoc. reflexivity.
Qed.

(** ** The alert hook *)

(** X9. The alert hook always returns normally: the branch that would
    raise [NameError] for a missing last bell time is never taken. It
    reads the clock at most three times, and with no alert configured it
    leaves the whole state as it was; in any case the sample, the
    schedule, the log file and the start time are as before. *)
Theorem alert_always_returns :
  forall (E : Env) (cfg : Config) (d : Data.t) (w : World),
    let r := console_throttling_alert E cfg d w in
    fst r = Ret tt /\
    (clock_reads w <= clock_reads (snd r) <= clock_reads w + 3)%nat /\
    match Console_Alert cfg with
    | None => snd r = w
    | Some _ => True
    end /\
    data (snd r) = data w /\
    next_tick (snd r) = next_tick w /\
    csv_file (snd r) = csv_file w /\
    lapsed_time_start_time (snd r) = lapsed_time_start_time w.
Proof.
  intros E cfg d w r. subst r.
  destruct (alert_effect E cfg d w) as (Hret & _ & Hclock & Hnone & Hd & _ & Hst & Hn & Hf).
  repeat split; try assumption; try apply Hclock.
  destruct (Console_Alert cfg); [exact I | now apply Hnone].
Qed.

(** ** The loop as a whole *)

Lemma interrupt_handler_exits (w : World) :
  fst (interrupt_handler w) = Raise (SystemExit 0).
Proof.
  unfold interrupt_handler, bind, try_except, csv_file_close, modify, raise, ret.
  destruct (csv_file w) as [[|]|]; reflexivity.
Qed.

Lemma iteration_ret (E : Env) (cfg : Config) (w w' : World) :
  iteration E cfg w = (Ret tt, w') -> loop_body E cfg w = (Ret tt, w').
Proof.
  unfold iteration, try_except.
  destruct (loop_body E cfg w) as [[[]|e] w1]; [auto |].
  destruct (is_KeyboardInterrupt e); [| discriminate].
  pose proof (interrupt_handler_exits w1) as Hh.
  destruct (interrupt_handler w1) as [o w2]. cbn in Hh. subst o. discriminate.
Qed.

(** ** How the loop ends *)

(** *** The shape of the trace *)

#[local] Instance same_boundaries : Invariant (same boundaries).
Proof. apply same_invariant; reflexivity. Qed.

Section Shape.

Variable E : Env.
Variable P : event -> Prop.

Lemma extends_quiet (w w' : World) : trace w' = trace w -> extends P w w'.
Proof. intros H. exists []. split; [now rewrite app_nil_r | constructor]. Qed.

Lemma shaped_of_respects {A : Type} (c : M A) :
  respects (extends P) c -> shaped P c.
Proof.
  intros H w. destruct (H w) as (evs & Ht & Hp). exists evs. split; [exact Hp |].
  unfold grown_by. destruct (fst (c w)); [exact Ht | left; exact Ht].
Qed.

Lemma shaped_bind {A B : Type} (c : M A) (k : A -> M B) :
  shaped P c -> (forall a, shaped P (k a)) -> shaped P (bind c k).
Proof.
  intros Hc Hk w. unfold bind. destruct (Hc w) as (b1 & P1 & G1).
  unfold grown_by in *.
  destruct (c w) as [[a|e] w1]; cbn [fst snd] in *.
  - destruct (Hk a w1) as (b2 & P2 & G2). exists (b1 ++ b2)%list.
    split; [apply Forall_app; now split |].
    unfold grown_by in G2. destruct (k a w1) as [[b|e] w2]; cbn [fst snd] in *.
    + now rewrite G2, G1, app_assoc.
    + destruct G2 as [G2 | [G2 He]]; [left | right; split; [| exact He]];
        rewrite G2, G1, <- ?app_assoc; reflexivity.
  - exists b1. split; [exact P1 | exact G1].
Qed.

Lemma shaped_cpu_times : shaped P (cpu_times E).
Proof.
  intros w. exists []. split; [constructor |].
  unfold grown_by, cpu_times. destruct (proc_stat E (stat_reads w)); cbn [fst snd].
  - destruct (cpu_times_of_line s); [| left]; cbn; now rewrite app_nil_r.
  - right. split; reflexivity.
Qed.

Lemma shaped_cpu_temp : shaped P (cpu_temp E).
Proof.
  intros w. exists []. split; [constructor |].
  unfold grown_by, cpu_temp. destruct (sysfs_temp E (sensor_reads w)); cbn [fst snd].
  - destruct o; [| left]; now rewrite app_nil_r.
  - right. split; reflexivity.
Qed.

Lemma shaped_cpu_load : shaped P (cpu_load E).
Proof.
  unfold cpu_load. apply shaped_bind.
  { intros w. destruct (cpu_load_prev w) eqn:Hp.
    - exists []. split; [constructor |]. unfold grown_by. cbn.
      now rewrite app_nil_r.
    - apply shaped_cpu_times. }
  intros prev. apply shaped_bind; [apply shaped_cpu_times | intros curr].
  apply shaped_bind.
  { apply shaped_of_respects, respects_try_except;
      [exact _ | | apply respects_ret; exact _].
    repeat (apply respects_bind; [exact _ | apply respects_lift; exact _ | intros ?]).
    apply respects_lift. exact _. }
  intros load. apply shaped_of_respects.
  apply respects_bind; [exact _ | | intros; apply respects_ret; exact _].
  apply respects_modify. intros w. now apply extends_quiet.
Qed.

Lemma shaped_Data_read (now : f64) : shaped P (Data_read E now).
Proof.
  assert (Hset : forall f, shaped P (set_field f)).
  { intros f. apply shaped_of_respects, respects_modify. intros w. now apply extends_quiet. }
  assert (Hsensor : forall (A : Type) (f : nat -> outcome A),
             shaped P (fun w => (f (sensor_reads w), w))).
  { intros A f. apply shaped_of_respects. intros w. now apply extends_quiet. }
  unfold Data_read, cpu_freq, cpu_volts, gpu_temp, get_throttled.
  apply shaped_bind.
  { apply shaped_of_respects. intros w. now apply extends_quiet. }
  intros v. apply shaped_bind; [apply Hset | intros _].
  apply shaped_bind; [apply shaped_cpu_temp | intros v1].
  apply shaped_bind; [apply Hset | intros _].
  apply shaped_bind; [apply shaped_cpu_load | intros v2].
  apply shaped_bind; [apply Hset | intros _].
  apply shaped_bind; [apply Hsensor | intros v3].
  apply shaped_bind; [apply Hset | intros _].
  apply shaped_bind; [apply Hsensor | intros v4].
  apply shaped_bind; [apply Hset | intros _].
  apply shaped_bind; [apply Hsensor | intros v5].
  apply shaped_bind; [apply Hset | intros _].
  apply shaped_bind; [apply Hsensor | intros v6].
  apply shaped_bind; [apply Hset | intros _].
  apply shaped_of_respects, respects_modify. intros w. now apply extends_quiet.
Qed.

End Shape.

Lemma shaped_loop_body (E : Env) (cfg : Config) :
  shaped (measurement_event cfg) (loop_body E cfg).
Proof.
  pose proof (extends_quiet (measurement_event cfg)) as Hquiet.
  assert (Hstep : forall f : World -> World,
             (forall w, trace (f w) = trace w) ->
             shaped (measurement_event cfg) (modify f)).
  { intros f Hf. apply shaped_of_respects, respects_modify. intros w. apply Hquiet, Hf. }
  assert (Hb : shaped (measurement_event cfg) (boundary E)).
  { apply shaped_of_respects, respects_boundary. intros w v. now apply Hquiet. }
  unfold loop_body.
  apply shaped_bind; [exact Hb | intros _].
  apply shaped_bind.
  { apply shaped_of_respects. intros w. now apply Hquiet. }
  intros now. apply shaped_bind.
  { apply shaped_of_respects. intros w. now apply Hquiet. }
  intros d. apply shaped_bind; [exact Hb | intros _].
  apply shaped_bind.
  { apply shaped_of_respects. destruct (gtb d zero); [| apply respects_ret; exact _].
    apply respects_modify. intros w. now apply extends_emit. }
  intros _. apply shaped_bind; [exact Hb | intros _].
  apply shaped_bind.
  { intros w. apply shaped_Data_read. }
  intros _. apply shaped_bind; [exact Hb | intros _].
  apply shaped_bind.
  { apply shaped_of_respects.
    apply (respects_reading (extends (measurement_event cfg)) data
                            (console_throttling_alert E cfg)).
    intros d0. apply respects_console_throttling_alert; [exact _ |].
    intros w. now apply extends_emit. }
  intros _. apply shaped_bind; [exact Hb | intros _].
  apply shaped_bind.
  { apply shaped_of_respects, respects_row_step; [exact _ |].
    intros w Hfile. apply extends_emit. split; [exact Hfile | apply row_length]. }
  intros _. apply shaped_bind; [exact Hb | intros _].
  apply shaped_bind.
  { apply shaped_of_respects, respects_print_status; [exact _ | |].
    - intros now0 w. now apply Hquiet.
    - intros w elapsed. now apply extends_emit. }
  intros _. apply shaped_bind; [exact Hb | intros _].
  apply Hstep. reflexivity.
Qed.

Lemma interrupt_handler_run (w : World) :
  interrupt_handler w
  = (Raise (SystemExit 0),
     emit (match csv_file w with
           | Some true => set_csv_file (emit w CsvClose) (Some false)
           | _ => w
           end) (PrintLine "")).
Proof.
  unfold interrupt_handler, bind, try_except, csv_file_close, modify, raise, ret.
  destruct (csv_file w) as [[|]|]; reflexivity.
Qed.

Lemma interrupt_handler_effect (w : World) :
  let w' := snd (interrupt_handler w) in
  trace w' = (trace w ++ handler_output (csv_file w))%list /\
  csv_file w' = match csv_file w with Some _ => Some false | None => None end /\
  boundaries w' = boundaries w.
Proof.
  rewrite interrupt_handler_run. cbn [snd]. unfold handler_output.
  destruct (csv_file w) as [[|]|] eqn:Hc; cbn [trace emit set_csv_file csv_file boundaries];
    rewrite <- ?app_assoc, ?Hc; repeat split.
Qed.

Lemma loop_body_keeps_csv_file (E : Env) (cfg : Config) :
  respects (same csv_file) (loop_body E cfg).
Proof.
  apply respects_loop_body; try exact _; try (intros; reflexivity); try (intros ? ?; reflexivity).
Qed.

(** *** Interrupts at the statement boundaries *)

Section Prompt.

Variable E : Env.

Lemma prompt_idle {A : Type} (c : M A) :
  respects (same boundaries) c -> prompt E c.
Proof.
  intros H w. specialize (H w). unfold same in H. rewrite H.
  split; [lia | intros k Hk; lia].
Qed.

Lemma prompt_boundary : prompt E (boundary E).
Proof.
  intros w. unfold boundary.
  destruct (sigint E (boundaries w)) eqn:Hs; cbn [fst snd boundaries set_boundaries];
    (split; [lia |]); intros k Hk Hk'; assert (k = boundaries w) by lia; subst k.
  - now split.
  - congruence.
Qed.

Lemma prompt_bind {A B : Type} (c : M A) (f : A -> M B) :
  prompt E c -> (forall a, prompt E (f a)) -> prompt E (bind c f).
Proof.
  intros Hc Hf w. unfold bind. destruct (Hc w) as [Hle Hint].
  destruct (c w) as [[a|e] w1]; cbn [fst snd] in *.
  - destruct (Hf a w1) as [Hle' Hint']. split; [lia |].
    intros k Hk Hk'. destruct (Nat.lt_ge_cases k (boundaries w1)) as [Hlt | Hge].
    + destruct (Hint k ltac:(lia) Hk') as [Habs _]. discriminate.
    + apply Hint'; [lia | exact Hk'].
  - split; [exact Hle |]. intros k Hk Hk'.
    destruct (Hint k Hk Hk') as [He Hb]. injection He as ->. now split.
Qed.

End Prompt.

Lemma prompt_loop_body (E : Env) (cfg : Config) : prompt E (loop_body E cfg).
Proof.
  assert (Hidle : forall f : World -> World,
             (forall w, boundaries (f w) = boundaries w) -> prompt E (modify f)).
  { intros f Hf. apply prompt_idle, respects_modify. exact Hf. }
  unfold loop_body.
  apply prompt_bind; [apply prompt_boundary | intros _].
  apply prompt_bind; [apply prompt_idle; intros w; reflexivity | intros now].
  apply prompt_bind; [apply prompt_idle; intros w; reflexivity | intros d].
  apply prompt_bind; [apply prompt_boundary | intros _].
  apply prompt_bind.
  { destruct (gtb d zero); [apply Hidle; reflexivity |].
    apply prompt_idle. intros w. reflexivity. }
  intros _. apply prompt_bind; [apply prompt_boundary | intros _].
  apply prompt_bind.
  { apply prompt_idle.
    apply (respects_reading (same boundaries) next_tick (Data_read E)).
    intros now0. apply respects_Data_read; try exact _; try (intros; reflexivity); try (intros ? ?; reflexivity). }
  intros _. apply prompt_bind; [apply prompt_boundary | intros _].
  apply prompt_bind.
  { apply prompt_idle.
    apply (respects_reading (same boundaries) data (console_throttling_alert E cfg)).
    intros d0. apply respects_console_throttling_alert; try exact _; try (intros; reflexivity); try (intros ? ?; reflexivity). }
  intros _. apply prompt_bind; [apply prompt_boundary | intros _].
  apply prompt_bind.
  { apply prompt_idle, respects_row_step; try exact _; try (intros; reflexivity); try (intros ? ?; reflexivity). }
  intros _. apply prompt_bind; [apply prompt_boundary | intros _].
  apply prompt_bind.
  { apply prompt_idle, respects_print_status; try exact _; try (intros; reflexivity); try (intros ? ?; reflexivity). }
  intros _. apply prompt_bind; [apply prompt_boundary | intros _].
  apply Hidle. reflexivity.
Qed.

(** *** One turn of the loop *)

Lemma iteration_shape (E : Env) (cfg : Config) (w : World) :
  let r := iteration E cfg w in
  exists body tail : list event,
    trace (snd r) = (trace w ++ body ++ tail)%list /\
    Forall (measurement_event cfg) body /\
    match fst r with
    | Ret _ => tail = [] /\ csv_file (snd r) = csv_file w
    | Raise e =>
        tail = [] \/
        (tail = [PrintError] /\ e = SystemExit 3) \/
        (tail = handler_output (csv_file w) /\ e = SystemExit 0)
    end.
Proof.
  cbv zeta. destruct (shaped_loop_body E cfg w) as (body & Pb & G).
  pose proof (loop_body_keeps_csv_file E cfg w) as Hfile. unfold same in Hfile.
  unfold iteration, try_except. unfold grown_by in G.
  destruct (loop_body E cfg w) as [[[]|e] w1]; cbn [fst snd] in *.
  - exists body, []. rewrite app_nil_r. now repeat split.
  - destruct (is_KeyboardInterrupt e) eqn:He.
    + destruct (interrupt_handler_effect w1) as (Ht & _ & _). cbv zeta in Ht.
      rewrite interrupt_handler_run in *. cbn [fst snd] in *.
      exists body, (handler_output (csv_file w)).
      destruct G as [G | [_ ->]]; [| discriminate].
      rewrite Ht, G, Hfile, <- app_assoc. split; [reflexivity |].
      split; [exact Pb |]. right. right. now split.
    + destruct G as [G | [G ->]].
      * exists body, []. rewrite app_nil_r.
        split; [exact G | split; [exact Pb | now left]].
      * exists body, [PrintError].
        split; [exact G | split; [exact Pb | right; left; now split]].
Qed.

Lemma iteration_boundaries (E : Env) (cfg : Config) (w : World) :
  let r := iteration E cfg w in
  (boundaries w <= boundaries (snd r))%nat /\
  (forall u : unit, fst r = Ret u ->
     forall j : nat, (boundaries w <= j < boundaries (snd r))%nat -> sigint E j = false).
Proof.
  cbv zeta. destruct (prompt_loop_body E cfg w) as [Hle Hint].
  unfold iteration, try_except.
  destruct (loop_body E cfg w) as [[[]|e] w1]; cbn [fst snd] in *.
  - split; [exact Hle |]. intros _ _ j Hj.
    destruct (sigint E j) eqn:Hs; [| reflexivity].
    destruct (Hint j Hj Hs) as [Habs _]. discriminate.
  - destruct (is_KeyboardInterrupt e).
    + destruct (interrupt_handler_effect w1) as (_ & _ & Hb). cbv zeta in Hb.
      rewrite Hb, interrupt_handler_run. cbn [fst]. split; [exact Hle | discriminate].
    + cbn [fst snd]. split; [exact Hle | discriminate].
Qed.

Lemma iteration_interrupted (E : Env) (cfg : Config) (w : World) (k : nat) :
  (boundaries w <= k < boundaries (snd (iteration E cfg w)))%nat ->
  sigint E k = true ->
  let r := iteration E cfg w in
  fst r = Raise (SystemExit 0) /\
  boundaries (snd r) = S k /\
  (forall j : nat, (boundaries w <= j < k)%nat -> sigint E j = false) /\
  (exists body : list event,
      trace (snd r) = (trace w ++ body ++ handler_output (csv_file w))%list /\
      Forall (measurement_event cfg) body) /\
  csv_file (snd r) = match csv_file w with Some _ => Some false | None => None end.
Proof.
  cbv zeta. destruct (prompt_loop_body E cfg w) as [Hle Hint].
  destruct (shaped_loop_body E cfg w) as (body & Pb & G). unfold grown_by in G.
  pose proof (loop_body_keeps_csv_file E cfg w) as Hfile. unfold same in Hfile.
  unfold iteration, try_except.
  destruct (loop_body E cfg w) as [[[]|e] w1]; cbn [fst snd] in *.
  - intros Hk Hs. destruct (Hint k Hk Hs) as [Habs _]. discriminate.
  - destruct (is_KeyboardInterrupt e) eqn:He.
    + destruct (interrupt_handler_effect w1) as (Ht & Hc & Hb). cbv zeta in Ht, Hc, Hb.
      rewrite Hb, Ht, Hc, Hfile, interrupt_handler_exits. intros Hk Hs.
      destruct (Hint k Hk Hs) as [_ Hlast].
      split; [reflexivity |]. split; [exact Hlast |]. split; [| split; [| reflexivity]].
      { intros j Hj. destruct (sigint E j) eqn:Hsj; [| reflexivity].
        destruct (Hint j ltac:(lia) Hsj) as [_ Hlast']. lia. }
      exists body. split; [| exact Pb].
      destruct G as [G | [_ ->]]; [| discriminate].
      now rewrite G, <- app_assoc.
    + cbn [fst snd]. intros Hk Hs. destruct (Hint k Hk Hs) as [Habs _].
      injection Habs as ->. discriminate.
Qed.

(** X10. An interrupt that is pending at a statement boundary of the [try]
    which the loop passes, in whichever turn, ends the program there: no
    earlier boundary of the run had one pending, that boundary is the last
    one passed, the run ends with exit status 0, the log file is closed
    if it was open, and the trace is measurements followed by the output
    of the handler. *)
Theorem first_interrupt_ends_the_run :
  forall (E : Env) (cfg : Config) (n : nat) (w : World) (k : nat),
    (boundaries w <= k < boundaries (snd (main_loop E cfg n w)))%nat ->
    sigint E k = true ->
    let r := main_loop E cfg n w in
    fst r = Raise (SystemExit 0) /\
    boundaries (snd r) = S k /\
    (forall j : nat, (boundaries w <= j < k)%nat -> sigint E j = false) /\
    (exists body : list event,
        trace (snd r) = (trace w ++ body ++ handler_output (csv_file w))%list /\
        Forall (measurement_event cfg) body) /\
    csv_file (snd r) = match csv_file w with Some _ => Some false | None => None end.
Proof.
  intros E cfg n. induction n as [|n IH]; intros w k Hk Hs; cbv zeta.
  - cbn in Hk. lia.
  - cbn [main_loop] in *. unfold bind in *.
    destruct (iteration_boundaries E cfg w) as [Hle Hnone]. cbv zeta in Hle, Hnone.
    pose proof (iteration_interrupted E cfg w k) as Hint. cbv zeta in Hint.
    destruct (iteration_shape E cfg w) as (body1 & tail1 & Ht1 & Pb1 & Hend1).
    cbv zeta in Ht1, Hend1.
    destruct (iteration E cfg w) as [[[]|e] w1]; cbn [fst snd] in *.
    + destruct Hend1 as [-> Hfile].
      destruct (Nat.lt_ge_cases k (boundaries w1)) as [Hlt | Hge].
      { rewrite (Hnone tt eq_refl k) in Hs by lia. discriminate. }
      destruct (IH w1 k ltac:(lia) Hs) as (Hexit & Hlast & Hfirst & (body2 & Ht2 & Pb2) & Hc).
      split; [exact Hexit |]. split; [exact Hlast |]. split; [| split].
      * intros j Hj. destruct (Nat.lt_ge_cases j (boundaries w1)) as [Hjl | Hjg].
        -- apply (Hnone tt eq_refl). lia.
        -- apply Hfirst. lia.
      * exists (body1 ++ body2)%list. split; [| apply Forall_app; now split].
        rewrite Ht2, Ht1, Hfile, app_nil_r, <- !app_assoc. reflexivity.
      * now rewrite Hc, Hfile.
    + exact (Hint Hk Hs).
Qed.

(** The interrupt arrives in the first turn, before the row is written,
    with the log file open: the sleep is the only measurement traced, the
    file is closed and the empty line is last. *)
Lemma first_interrupt_ends_the_run_witness :
  let E := interrupted_machine in
  let cfg := logging_config in
  let w := started E "finnish" true in
  let r := main_loop E cfg 3 w in
  sigint E 4 = true /\
  fst r = Raise (SystemExit 0) /\
  boundaries (snd r) = 5%nat /\
  csv_file (snd r) = Some false.
Proof.
  intros E cfg w r.
  assert (Hs : sigint E 4 = true) by reflexivity.
  assert (Hk : (boundaries w <= 4 < boundaries (snd (main_loop E cfg 3 w)))%nat)
    by (vm_compute; lia).
  destruct (first_interrupt_ends_the_run E cfg 3 w 4%nat Hk Hs)
    as (Hexit & Hlast & _ & _ & Hfile).
  split; [exact Hs |]. split; [exact Hexit |]. split; [exact Hlast | exact Hfile].
Defined.

(** X11. Whatever happens in [n] turns of the loop, the trace grows by
    measurements (sleeps, bells, status lines and rows, the rows only with
    a CSV file configured and as wide as the header), and after them by at
    most one of two endings: the error line of an unreadable file, with
    which the run ends with exit status 3, or the output of the interrupt
    handler (the close of the log file if it was open, then the empty
    line), with which the run ends with exit status 0. Nothing is printed
    and no row is written after either, and a run that completes its
    turns has neither. *)
Theorem loop_trace_shape :
  forall (E : Env) (cfg : Config) (n : nat) (w : World),
    let r := main_loop E cfg n w in
    exists body tail : list event,
      trace (snd r) = (trace w ++ body ++ tail)%list /\
      Forall (measurement_event cfg) body /\
      match fst r with
      | Ret _ => tail = []
      | Raise e =>
          tail = [] \/
          (tail = [PrintError] /\ e = SystemExit 3) \/
          (tail = handler_output (csv_file w) /\ e = SystemExit 0)
      end.
Proof.
  intros E cfg n. induction n as [|n IH]; intros w; cbv zeta.
  - exists [], []. cbn. rewrite app_nil_r. repeat split. constructor.
  - cbn [main_loop]. unfold bind.
    destruct (iteration_shape E cfg w) as (body1 & tail1 & Ht1 & Pb1 & Hend1).
    cbv zeta in Ht1, Hend1.
    destruct (iteration E cfg w) as [[[]|e] w1]; cbn [fst snd] in *.
    + destruct Hend1 as [-> Hfile].
      destruct (IH w1) as (body2 & tail2 & Ht2 & Pb2 & Hend2). cbv zeta in Ht2, Hend2.
      exists (body1 ++ body2)%list, tail2.
      split; [| split; [apply Forall_app; now split |]].
      * rewrite Ht2, Ht1, app_nil_r, <- !app_assoc. reflexivity.
      * rewrite <- Hfile. exact Hend2.
    + exists body1, tail1. now repeat split.
Qed.

Lemma respects_lapsed_time_start_kept (E : Env) (now : f64) :
  respects start_kept (lapsed_time E now).
Proof.
  intros w t H. unfold lapsed_time. cbn. now rewrite H.
Qed.

(** X12. The start time of [lapsed_time], once set, is never changed by
    the loop: the elapsed times shown are all counted from the same
    instant. *)
Theorem start_time_is_kept :
  forall (E : Env) (cfg : Config) (n : nat) (w : World) (t : f64),
    lapsed_time_start_time w = Some t ->
    lapsed_time_start_time (snd (main_loop E cfg n w)) = Some t.
Proof.
  intros E cfg n w t H.
  assert (Hr : respects start_kept (main_loop E cfg n)).
  { apply respects_main_loop; try exact _;
      try (intros w0 v t0 H0; exact H0); try (intros w0 t0 H0; exact H0).
    apply respects_lapsed_time_start_kept. }
  exact (Hr w t H).
Qed.

Lemma start_time_is_kept_witness :
  let w := set_lapsed_time_start_time (started late_machine "finnish" false)
                                      (Some lit_1_0) in
  lapsed_time_start_time w = Some lit_1_0 /\
  lapsed_time_start_time (snd (main_loop late_machine Config_defaults 3 w))
  = Some lit_1_0.
Proof.
  intros w. split; [reflexivity |].
  apply (start_time_is_kept late_machine Config_defaults 3 w lit_1_0). reflexivity.
Defined.

Lemma count_app (p : event -> bool) (a b : list event) :
  count p (a ++ b) = (count p a + count p b)%nat.
Proof. unfold count. now rewrite filter_app, length_app. Qed.

Lemma iteration_counts (E : Env) (cfg : Config) (w w' : World) :
  iteration E cfg w = (Ret tt, w') ->
  count is_status (trace w') = S (count is_status (trace w)) /\
  count is_row (trace w')
  = (count is_row (trace w)
     + match CSV_File cfg with Some _ => 1 | None => 0 end)%nat.
Proof.
  intros H. apply iteration_ret, loop_body_ret in H. cbv zeta in H.
  destruct H as (elapsed & bell & _ & _ & _ & _ & _ & _ & _ & _ & _ & _ & Hbell & ->).
  rewrite !count_app.
  assert (Hb : forall p, (p = is_status \/ p = is_row) -> count p bell = 0%nat).
  { intros p [-> | ->]; destruct Hbell as [-> | ->]; reflexivity. }
  rewrite !Hb by auto.
  destruct (gtb _ zero), (CSV_File cfg); cbn; lia.
Qed.

(** X13. A loop that completes [n] turns has printed exactly [n] status
    lines, and has written exactly [n] rows when a CSV file is configured
    and none otherwise. *)
Theorem one_status_line_per_tick :
  forall (E : Env) (cfg : Config) (n : nat) (w : World),
    fst (main_loop E cfg n w) = Ret tt ->
    let w' := snd (main_loop E cfg n w) in
    count is_status (trace w') = (count is_status (trace w) + n)%nat /\
    count is_row (trace w')
    = (count is_row (trace w)
       + match CSV_File cfg with Some _ => n | None => 0 end)%nat.
Proof.
  intros E cfg n. induction n as [|n IH]; intros w H; cbv zeta.
  - cbn. destruct (CSV_File cfg); lia.
  - cbn [main_loop] in *. unfold bind in *.
    destruct (iteration E cfg w) as [[[]|e] w1] eqn:Hi; [| discriminate].
    apply iteration_counts in Hi as [Hs Hr].
    destruct (IH w1 H) as [Hs' Hr']. rewrite Hs', Hr', Hs, Hr.
    destruct (CSV_File cfg); lia.
Qed.

(** Three ticks without a log file: three status lines and no row. *)
Lemma one_status_line_per_tick_witness :
  let w := started late_machine "finnish" false in
  let r := main_loop late_machine Config_defaults 3 w in
  fst r = Ret tt /\
  count is_status (trace (snd r)) = 3%nat /\
  count is_row (trace (snd r)) = 0%nat.
Proof.
  intros w r.
  assert (H : fst (main_loop late_machine Config_defaults 3 w) = Ret tt)
    by (vm_compute; reflexivity).
  destruct (one_status_line_per_tick late_machine Config_defaults 3 w H) as [Hs Hr].
  split; [exact H |]. subst r. rewrite Hs, Hr. split; reflexivity.
Defined.

(** X14. An iteration that completes has stored one sample taken in that
    iteration: the thermal zone, the clock, the voltage, the GPU
    temperature and the throttle word as answered at the current reading,
    the load as the sampler computes it from the stored snapshot, and the
    elapsed time formatted from [next_tick] less the start time, which is
    [next_tick] itself when no start time was set. The decimal separator
    of the object is untouched and the next iteration takes the next
    readings. *)
Theorem completed_iteration_sample :
  forall (E : Env) (cfg : Config) (w : World),
    fst (iteration E cfg w) = Ret tt ->
    let w' := snd (iteration E cfg w) in
    let d := data w' in
    let start := match lapsed_time_start_time w with
                 | Some t => t
                 | None => next_tick w
                 end in
    (exists elapsed : string,
        strftime_gmtime E (sub (next_tick w) start) = Ret elapsed /\
        Data.time d = Some elapsed) /\
    sysfs_temp E (sensor_reads w) = Some (Ret (Data.cpu_temp d)) /\
    fst (cpu_load E w) = Ret (Data.cpu_load d) /\
    vc_measure_clock E (sensor_reads w) = Ret (Data.cpu_freq d) /\
    vc_measure_volts E (sensor_reads w) = Ret (Data.cpu_volts d) /\
    vc_measure_temp E (sensor_reads w) = Ret (Data.gpu_temp d) /\
    vc_get_throttled E (sensor_reads w) = Ret (Data.throttled d) /\
    Data.decimal_separator d = Data.decimal_separator (data w) /\
    sensor_reads w' = S (sensor_reads w) /\
    lapsed_time_start_time w' = Some start.
Proof.
  intros E cfg w H w' d start. subst w' d.
  destruct (iteration E cfg w) as [[[]|e] w'] eqn:Hi; [| discriminate].
  apply iteration_ret, loop_body_ret in Hi. cbv zeta in Hi. fold start in Hi.
  destruct Hi as (elapsed & bell & He & Hd & Ht & Hl & Hf & Hv & Hg & Hth & Hs & Hst & _).
  cbn [snd].
  split; [exists elapsed; split; [assumption | now rewrite Hd] |].
  repeat (split; [assumption |]).
  split; [now rewrite Hd |]. split; assumption.
Qed.

(** The first iteration on a machine whose throttle word is 0x50005. *)
Lemma completed_iteration_sample_witness :
  let E := late_machine in
  let w := started E "finnish" false in
  let w' := snd (iteration E Config_defaults w) in
  fst (iteration E Config_defaults w) = Ret tt /\
  Ret 0x50005 = Ret (Data.throttled (data w')) /\
  Data.decimal_separator (data w') = ","%char /\
  lapsed_time_start_time w' = Some (next_tick w).
Proof.
  intros E w w'.
  assert (H : fst (iteration E Config_defaults w) = Ret tt) by (vm_compute; reflexivity).
  destruct (completed_iteration_sample E Config_defaults w H)
    as (_ & _ & _ & _ & _ & _ & Hth & Hsep & _ & Hst).
  split; [exact H |]. split; [exact Hth |]. split; [exact Hsep | exact Hst].
Defined.

(** X15. An iteration that completes adds to the trace, in this order:
    the sleep, when [next_tick] lies ahead of the clock; the bell, if the
    alert is due; one row, when a CSV file is configured; and one status
    line. The row and the status line are made from the sample stored by
    this iteration, and the status line shows its elapsed time. *)
Theorem completed_iteration_outputs :
  forall (E : Env) (cfg : Config) (w : World),
    fst (iteration E cfg w) = Ret tt ->
    let w' := snd (iteration E cfg w) in
    let d := data w' in
    let sleep := sub (next_tick w) (clock E (clock_reads w)) in
    exists (elapsed : string) (bell : list event),
      Data.time d = Some elapsed /\
      (bell = [] \/ bell = [Bell]) /\
      trace w'
      = (trace w
         ++ (if gtb sleep zero then [Sleep sleep] else [])
         ++ bell
         ++ match CSV_File cfg with
            | Some _ => [CsvRow (Data.row cfg d)]
            | None => []
            end
         ++ [StatusLine elapsed (Data.cpu_temp d) (Data.cpu_volts d)
                        (Data.cpu_load d) (Data.cpu_freq d) (Data.gpu_temp d)
                        (Data.throttled_string d)])%list.
Proof.
  intros E cfg w H w' d sleep. subst w' d.
  destruct (iteration E cfg w) as [[[]|e] w'] eqn:Hi; [| discriminate].
  apply iteration_ret, loop_body_ret in Hi. cbv zeta in Hi. fold sleep in Hi.
  destruct Hi as (elapsed & bell & _ & Hd & _ & _ & _ & _ & _ & _ & _ & _ & Hbell & Ht).
  cbn [snd]. exists elapsed, bell.
  split; [now rewrite Hd |]. split; assumption.
Qed.

(** The first iteration with the log file open and no alert configured. *)
Lemma completed_iteration_outputs_witness :
  let E := late_machine in
  let w := started E "finnish" true in
  let w' := snd (iteration E logging_config w) in
  let d := data w' in
  fst (iteration E logging_config w) = Ret tt /\
  exists (elapsed : string) (bell : list event),
    Data.time d = Some elapsed /\
    (bell = [] \/ bell = [Bell]) /\
    trace w'
    = ([]
       ++ [Sleep lit_0_5]
       ++ bell
       ++ [CsvRow (Data.row logging_config d)]
       ++ [StatusLine elapsed (Data.cpu_temp d) (Data.cpu_volts d)
                      (Data.cpu_load d) (Data.cpu_freq d) (Data.gpu_temp d)
                      (Data.throttled_string d)])%list.
Proof.
  intros E w w' d.
  assert (H : fst (iteration E logging_config w) = Ret tt) by (vm_compute; reflexivity).
  split; [exact H |].
  exact (completed_iteration_outputs E logging_config w H).
Defined.

(** X16. When the thermal zone file cannot be opened, with no interrupt
    before the measurement and the elapsed time formatted, the iteration
    prints the error after the sleep, if any, and ends the program with
    exit status 3: no row is written and no status line printed, the log
    file is not closed, [next_tick] is not advanced, the same readings
    stay current and no further iteration runs. *)
Theorem unreadable_thermal_zone_is_fatal :
  forall (E : Env) (cfg : Config) (w : World) (elapsed : string),
    let sleep := sub (next_tick w) (clock E (clock_reads w)) in
    let start := match lapsed_time_start_time w with
                 | Some t => t
                 | None => next_tick w
                 end in
    sigint E (boundaries w) = false ->
    sigint E (S (boundaries w)) = false ->
    sigint E (S (S (boundaries w))) = false ->
    strftime_gmtime E (sub (next_tick w) start) = Ret elapsed ->
    sysfs_temp E (sensor_reads w) = None ->
    let r := iteration E cfg w in
    fst r = Raise (SystemExit 3) /\
    trace (snd r)
    = (trace w ++ (if gtb sleep zero then [Sleep sleep] else []) ++ [PrintError])%list /\
    csv_file (snd r) = csv_file w /\
    next_tick (snd r) = next_tick w /\
    sensor_reads (snd r) = sensor_reads w /\
    (forall fuel : nat, main_loop E cfg (S fuel) w = r).
Proof.
  intros E cfg w elapsed sleep start H0 H1 H2 Htime Htemp r.
  subst start.
  assert (Hbody : exists w1 : World,
             loop_body E cfg w = (Raise (SystemExit 3), w1) /\
             trace w1 = (trace w ++ (if gtb sleep zero then [Sleep sleep] else [])
                                 ++ [PrintError])%list /\
             csv_file w1 = csv_file w /\ next_tick w1 = next_tick w /\
             sensor_reads w1 = sensor_reads w).
  { rewrite loop_body_unfold.
    unfold bind at 1 2 3 4 5. unfold boundary at 1 2, time_time, ret.
    rewrite H0.
    cbn [boundaries clock_reads set_boundaries set_clock_reads next_tick].
    rewrite H1. fold sleep.
    unfold measure_and_advance. unfold bind at 2. unfold boundary at 1.
    unfold bind at 2. unfold Data_read. unfold bind at 2. unfold lapsed_time.
    unfold bind at 2. unfold set_field at 1, modify at 2.
    unfold bind at 2. unfold cpu_temp.
    destruct (gtb sleep zero); unfold bind, modify, ret;
      cbn [boundaries sensor_reads lapsed_time_start_time next_tick data
           set_boundaries set_clock_reads set_data set_lapsed_time_start_time emit];
      rewrite H2;
      cbn [boundaries sensor_reads lapsed_time_start_time next_tick data
           set_boundaries set_clock_reads set_data set_lapsed_time_start_time emit];
      rewrite Htime;
      cbn [boundaries sensor_reads lapsed_time_start_time next_tick data
           set_boundaries set_clock_reads set_data set_lapsed_time_start_time emit];
      rewrite Htemp; eexists; (split; [reflexivity |]); cbn;
      rewrite <- ?app_assoc; repeat split. }
  destruct Hbody as (w1 & Hbody & Htrace & Hfile & Htick & Hreads).
  assert (Hit : iteration E cfg w = (Raise (SystemExit 3), w1)).
  { unfold iteration, try_except. now rewrite Hbody. }
  subst r. rewrite Hit. cbn [fst snd]. repeat split; try assumption.
  intros fuel. cbn [main_loop]. unfold bind. now rewrite Hit.
Qed.

(** The first iteration on a machine without a thermal zone, the log
    file open: the file stays open. *)
Lemma unreadable_thermal_zone_is_fatal_witness :
  let E := without_thermal_zone late_machine in
  let w := started E "finnish" true in
  let r := iteration E logging_config w in
  fst r = Raise (SystemExit 3) /\
  trace (snd r) = [Sleep lit_0_5; PrintError] /\
  csv_file (snd r) = Some true.
Proof.
  intros E w r.
  destruct (unreadable_thermal_zone_is_fatal E logging_config w "00:00:00"
              eq_refl eq_refl eq_refl eq_refl eq_refl)
    as (Hexit & Htrace & Hfile & _).
  split; [exact Hexit |]. split; [| exact Hfile].
  subst r. rewrite Htrace. vm_compute. reflexivity.
Defined.


(** * Properties of the parsers and of the text functions *)

(** ** Text *)

Lemma find_absent (c : ascii) (s : string) :
  has_char c s = false -> PyStr.find c s = -1.
Proof.
  induction s as [|a s IH]; [reflexivity |].
  rewrite has_char_cons. intros H. apply orb_false_iff in H as [Ha Hs].
  cbn [PyStr.find]. rewrite Ascii.eqb_sym, Ha, (IH Hs). reflexivity.
Qed.

Lemma find_nonneg_or_absent (c : ascii) (s : string) :
  -1 <= PyStr.find c s.
Proof.
  induction s as [|a s IH]; cbn [PyStr.find]; [lia |].
  destruct (Ascii.eqb a c); [lia |].
  destruct (Z.ltb_spec (PyStr.find c s) 0); lia.
Qed.

Lemma find_first (c : ascii) (a r : string) :
  has_char c a = false ->
  PyStr.find c (a ++ String c r) = Z.of_nat (String.length a).
Proof.
  induction a as [|x a IH]; cbn [append PyStr.find String.length]; intros H.
  - now rewrite Ascii.eqb_refl.
  - rewrite has_char_cons in H. apply orb_false_iff in H as [Hx Ha].
    rewrite Ascii.eqb_sym, Hx, (IH Ha).
    destruct (Z.ltb_spec (Z.of_nat (String.length a)) 0); lia.
Qed.

Lemma drop_app (a r : string) : PyStr.drop (String.length a) (a ++ r) = r.
Proof.
  induction a as [|x a IH]; [now destruct r |]. exact IH.
Qed.

(** [s[s.find(c) + 1:]] when [c] is in [s]: what follows the first [c]. *)
Lemma after_first (c : ascii) (a r : string) :
  has_char c a = false ->
  PyStr.slice_from (PyStr.find c (a ++ String c r) + 1) (a ++ String c r) = r.
Proof.
  intros H. rewrite (find_first c a r H). unfold PyStr.slice_from.
  destruct (Z.ltb_spec (Z.of_nat (String.length a) + 1) 0); [lia |].
  replace (Z.to_nat (Z.of_nat (String.length a) + 1)) with (S (String.length a)) by lia.
  change (S (String.length a)) with (String.length (String c a)).
  clear. induction a as [|x a IH]; [now destruct r |]. exact IH.
Qed.

(** ... and when it is not: all of [s]. *)
Lemma after_absent (c : ascii) (s : string) :
  has_char c s = false -> PyStr.slice_from (PyStr.find c s + 1) s = s.
Proof.
  intros H. rewrite (find_absent c s H). unfold PyStr.slice_from. cbn.
  now destruct s.
Qed.

Lemma lstrip_if_clean (p : ascii -> bool) (s : string) :
  holds_at p (first_char s) = false -> PyStr.lstrip_if p s = s.
Proof.
  destruct s as [|c s]; [reflexivity |]. cbn. now intros ->.
Qed.

Lemma rstrip_if_clean (p : ascii -> bool) (s : string) :
  holds_at p (last_char s) = false -> PyStr.rstrip_if p s = s.
Proof.
  induction s as [|c s IH]; [reflexivity |].
  cbn [last_char PyStr.rstrip_if]. destruct s as [|c' s].
  - cbn. now intros ->.
  - intros H. rewrite (IH H). reflexivity.
Qed.

Lemma rstrip_if_all (p : ascii -> bool) (s : string) :
  all_chars p s = true -> PyStr.rstrip_if p s = EmptyString.
Proof.
  unfold all_chars. induction s as [|c s IH]; [reflexivity |].
  cbn [list_ascii_of_string forallb PyStr.rstrip_if]. intros H.
  apply andb_true_iff in H as [Hc Hs]. now rewrite (IH Hs), Hc.
Qed.

Lemma lstrip_if_all (p : ascii -> bool) (s : string) :
  all_chars p s = true -> PyStr.lstrip_if p s = EmptyString.
Proof.
  unfold all_chars. induction s as [|c s IH]; [reflexivity |].
  cbn [list_ascii_of_string forallb PyStr.lstrip_if]. intros H.
  apply andb_true_iff in H as [Hc Hs]. now rewrite Hc, (IH Hs).
Qed.

(** Trailing characters that [p] accepts are removed up to the last
    character that it refuses. *)
Lemma rstrip_if_app (p : ascii -> bool) (s tail : string) :
  all_chars p tail = true -> PyStr.rstrip_if p (s ++ tail) = PyStr.rstrip_if p s.
Proof.
  intros H. induction s as [|c s IH]; cbn [append PyStr.rstrip_if].
  - now apply rstrip_if_all.
  - now rewrite IH.
Qed.

Lemma rstrip_if_app_clean (p : ascii -> bool) (s tail : string) :
  holds_at p (last_char s) = false -> all_chars p tail = true ->
  PyStr.rstrip_if p (s ++ tail) = s.
Proof.
  intros Hs Ht. now rewrite rstrip_if_app, rstrip_if_clean.
Qed.

Lemma first_char_app (s r : string) :
  first_char (s ++ r) = match first_char s with Some c => Some c | None => first_char r end.
Proof. now destruct s. Qed.

(** [strip] of a text with clean ends and whitespace after it. *)
Lemma strip_clean (s tail : string) :
  holds_at PyStr.isspace (first_char s) = false ->
  holds_at PyStr.isspace (last_char s) = false ->
  all_chars PyStr.isspace tail = true ->
  PyStr.strip (s ++ tail) = s.
Proof.
  intros Hf Hl Ht. unfold PyStr.strip.
  destruct s as [|c s].
  - cbn [append]. now rewrite lstrip_if_all.
  - rewrite lstrip_if_clean by exact Hf. now apply rstrip_if_app_clean.
Qed.

(** ** The answers of [vcgencmd] *)

Lemma all_chars_app (p : ascii -> bool) (a b : string) :
  all_chars p (a ++ b) = all_chars p a && all_chars p b.
Proof.
  unfold all_chars. induction a as [|c a IH]; [reflexivity |].
  cbn [append list_ascii_of_string forallb]. now rewrite IH, andb_assoc.
Qed.

Lemma num_space_isspace (c : ascii) :
  PyStr.num_space c = true -> PyStr.isspace c = true.
Proof.
  unfold PyStr.num_space, PyStr.isspace. cbv zeta.
  destruct (Z.eqb_spec (PyStr.code c) 32) as [->|_]; [reflexivity |].
  destruct (Z.leb 9 (PyStr.code c) && Z.leb (PyStr.code c) 13); [reflexivity |].
  destruct (Z.leb 28 (PyStr.code c) && Z.leb (PyStr.code c) 32); [reflexivity |].
  now cbn [orb].
Qed.

Lemma all_num_space_isspace (s : string) :
  all_chars PyStr.num_space s = true -> all_chars PyStr.isspace s = true.
Proof.
  unfold all_chars. induction s as [|c s IH]; [reflexivity |].
  cbn [list_ascii_of_string forallb]. intros H.
  apply andb_true_iff in H as [Hc Hs]. now rewrite (num_space_isspace c Hc), IH.
Qed.

(** The text that the four parsers work on: what follows the first
    ['='], without the whitespace around it. *)
Lemma value_of_answer (label value tail : string) :
  has_char "=" label = false ->
  holds_at PyStr.isspace (first_char value) = false ->
  holds_at PyStr.isspace (last_char value) = false ->
  all_chars PyStr.isspace tail = true ->
  PyStr.strip
    (PyStr.slice_from (PyStr.find "=" (label ++ "=" ++ value ++ tail) + 1)
                      (label ++ "=" ++ value ++ tail))
  = value.
Proof.
  intros Hl Hf Hv Ht.
  change (label ++ "=" ++ value ++ tail) with (label ++ String "=" (value ++ tail)).
  rewrite after_first by assumption. now apply strip_clean.
Qed.

Lemma last_char_app (s r : string) :
  r <> EmptyString -> last_char (s ++ r) = last_char r.
Proof.
  intros Hr. induction s as [|c s IH]; [reflexivity |].
  cbn [append last_char]. destruct (s ++ r) eqn:E; [| exact IH].
  destruct s; cbn in E; [contradiction | discriminate].
Qed.

(** X17. The readers of [vcgencmd] answers take what follows the first
    equals sign, without the white space around it: for an answer
    [label=value] and a line feed, where [value] neither starts nor ends
    with white space, [get_throttled] reads [value] as a
    base 16 integer, [cpu_freq] reads it as a float and divides by
    1000000.0, [gpu_temp] and [cpu_volts] read it as a float after
    removing the trailing characters of the unit (any run of ['] and [C],
    or of ['] and [V]). *)
Theorem answers_are_read_after_the_equals_sign :
  forall label value : string,
    has_char "=" label = false ->
    holds_at PyStr.isspace (first_char value) = false ->
    holds_at PyStr.isspace (last_char value) = false ->
    let newline := String "010" EmptyString in
    get_throttled_of_output (label ++ "=" ++ value ++ newline) = PyStr.int16 value /\
    cpu_freq_of_output (label ++ "=" ++ value ++ newline)
    = match PyStr.float value with
      | Ret hz => Ret (div hz lit_1000000_0)
      | Raise e => Raise e
      end /\
    gpu_temp_of_output (label ++ "=" ++ (value ++ "'C") ++ newline)
    = PyStr.float (PyStr.rstrip_chars "'C" value) /\
    cpu_volts_of_output (label ++ "=" ++ (value ++ "V") ++ newline)
    = PyStr.float (PyStr.rstrip_chars "'V" value).
Proof.
  intros label value Hl Hf Hv newline.
  assert (Hn : all_chars PyStr.isspace newline = true) by reflexivity.
  unfold get_throttled_of_output, cpu_freq_of_output, gpu_temp_of_output,
    cpu_volts_of_output.
  rewrite (value_of_answer label value newline) by assumption.
  rewrite (value_of_answer label (value ++ "'C") newline); try assumption.
  2:{ rewrite first_char_app. destruct (first_char value); [exact Hf | reflexivity]. }
  2:{ now rewrite last_char_app. }
  rewrite (value_of_answer label (value ++ "V") newline); try assumption.
  2:{ rewrite first_char_app. destruct (first_char value); [exact Hf | reflexivity]. }
  2:{ now rewrite last_char_app. }
  split; [reflexivity |]. split.
  - destruct (PyStr.float value); reflexivity.
  - split; unfold PyStr.rstrip_chars; now rewrite rstrip_if_app.
Qed.

Lemma answers_are_read_after_the_equals_sign_witness :
  let newline := String "010" EmptyString in
  get_throttled_of_output ("throttled=0x50005" ++ newline) = Ret 0x50005 /\
  gpu_temp_of_output ("temp=47.2'C" ++ newline)
  = PyStr.float "47.2".
Proof.
  intros newline.
  destruct (answers_are_read_after_the_equals_sign "throttled" "0x50005"
              eq_refl eq_refl eq_refl) as (Hth & _).
  destruct (answers_are_read_after_the_equals_sign "temp" "47.2"
              eq_refl eq_refl eq_refl) as (_ & _ & Hg & _).
  split; [exact Hth | exact Hg].
Defined.

Lemma float_blank (s : string) :
  all_chars PyStr.num_space s = true -> PyStr.float s = Raise ValueError.
Proof.
  intros H. unfold PyStr.float. now rewrite lstrip_if_all.
Qed.

Lemma int16_blank (s : string) :
  all_chars PyStr.num_space s = true -> PyStr.int16 s = Raise ValueError.
Proof.
  intros H. unfold PyStr.int16. now rewrite lstrip_if_all.
Qed.

Lemma strip_blank (s : string) :
  all_chars PyStr.isspace s = true -> PyStr.strip s = EmptyString.
Proof. intros H. unfold PyStr.strip. now rewrite lstrip_if_all. Qed.

(** X18. An answer with nothing but white space after the equals sign, or
    an empty or blank text with no equals sign at all, makes every reader
    raise [ValueError]: the thermal zone file, the clock, the voltage,
    the GPU temperature and the throttle word. *)
Theorem blank_answers_raise_ValueError :
  forall label blank_text : string,
    has_char "=" label = false ->
    all_chars PyStr.num_space blank_text = true ->
    let answer := label ++ "=" ++ blank_text in
    cpu_temp_of_text blank_text = Raise ValueError /\
    cpu_freq_of_output answer = Raise ValueError /\
    cpu_volts_of_output answer = Raise ValueError /\
    gpu_temp_of_output answer = Raise ValueError /\
    get_throttled_of_output answer = Raise ValueError /\
    cpu_freq_of_output blank_text = Raise ValueError /\
    get_throttled_of_output blank_text = Raise ValueError.
Proof.
  intros label ws Hl Hws answer.
  pose proof (all_num_space_isspace ws Hws) as Hsp.
  assert (Hvalue : PyStr.strip (PyStr.slice_from (PyStr.find "=" answer + 1) answer)
                   = EmptyString).
  { subst answer. change (label ++ "=" ++ ws) with (label ++ String "=" ws).
    rewrite after_first by assumption. now apply strip_blank. }
  assert (Hwhole : PyStr.strip (PyStr.slice_from (PyStr.find "=" ws + 1) ws)
                   = EmptyString).
  { destruct (has_char "=" ws) eqn:Heq.
    - exfalso. unfold has_char in Heq. apply existsb_exists in Heq as (c & Hin & Hc).
      apply Ascii.eqb_eq in Hc. subst c.
      unfold all_chars in Hws. rewrite forallb_forall in Hws.
      specialize (Hws _ Hin). discriminate.
    - rewrite after_absent by assumption. now apply strip_blank. }
  unfold cpu_temp_of_text, cpu_freq_of_output, cpu_volts_of_output,
    gpu_temp_of_output, get_throttled_of_output.
  rewrite Hvalue, Hwhole, (float_blank ws Hws). repeat split.
Qed.

Lemma blank_answers_raise_ValueError_witness :
  cpu_temp_of_text "" = Raise ValueError /\
  gpu_temp_of_output ("temp=" ++ String "010" EmptyString) = Raise ValueError /\
  get_throttled_of_output "" = Raise ValueError.
Proof.
  destruct (blank_answers_raise_ValueError "temp" "" eq_refl eq_refl)
    as (Ht & _ & _ & _ & _ & _ & Hth).
  destruct (blank_answers_raise_ValueError "temp" (String "010" EmptyString)
                                           eq_refl eq_refl)
    as (_ & _ & _ & Hg & _).
  repeat split; assumption.
Defined.

(** ** Digits *)

(** Splits a digit below 16 into its sixteen cases. *)
Ltac digit_cases d H :=
  let E := fresh "E" in
  assert (E : d = 0 \/ d = 1 \/ d = 2 \/ d = 3 \/ d = 4 \/ d = 5 \/ d = 6 \/ d = 7 \/
              d = 8 \/ d = 9 \/ d = 10 \/ d = 11 \/ d = 12 \/ d = 13 \/ d = 14 \/
              d = 15) by lia;
  clear H;
  repeat (destruct E as [E|E]; [subst d |]); [..| subst d].

Lemma digits_below_cons (base d : Z) (ds : list Z) :
  digits_below base (d :: ds) = true ->
  0 <= d < base /\ digits_below base ds = true.
Proof.
  cbn [digits_below forallb]. intros H.
  apply andb_true_iff in H as [Hd Hds]. apply andb_true_iff in Hd as [H0 H1].
  apply Z.leb_le in H0. apply Z.ltb_lt in H1. auto.
Qed.

Lemma digits_text_cons (d : Z) (ds : list Z) :
  digits_text (d :: ds) = String (PyFmt.hex_digit d) (digits_text ds).
Proof. reflexivity. Qed.

Lemma hex_value_hex_digit (d : Z) :
  0 <= d < 16 -> PyStr.hex_value (PyFmt.hex_digit d) = Some d.
Proof. intros H. digit_cases d H; reflexivity. Qed.

Lemma hex_digit_plain (d : Z) :
  0 <= d < 16 ->
  PyStr.num_space (PyFmt.hex_digit d) = false /\
  PyStr.isspace (PyFmt.hex_digit d) = false /\
  Ascii.eqb (PyFmt.hex_digit d) "_" = false.
Proof. intros H. digit_cases d H; repeat split. Qed.

Lemma digit_is_digit (d : Z) :
  0 <= d < 10 ->
  Py.is_digit (PyFmt.hex_digit d) = true /\ Py.digit_value (PyFmt.hex_digit d) = d.
Proof.
  intros H. assert (H16 : 0 <= d < 16) by lia. digit_cases d H16; try lia; now split.
Qed.

Lemma parse_hex_digits (ds : list Z) :
  forall (acc : Z) (after_digit : bool),
    digits_below 16 ds = true ->
    (ds = [] -> after_digit = true) ->
    PyStr.parse_hex acc after_digit (digits_text ds) = Some (digits_value 16 acc ds).
Proof.
  induction ds as [|d ds IH]; intros acc after Hds Hne.
  - cbn. now rewrite Hne.
  - apply digits_below_cons in Hds as [Hd Hds].
    rewrite digits_text_cons. cbn [PyStr.parse_hex].
    rewrite (hex_value_hex_digit d Hd). now apply IH.
Qed.

Lemma digits_text_plain (base : Z) (ds : list Z) :
  base <= 16 -> digits_below base ds = true ->
  all_chars (fun c => negb (PyStr.num_space c)) (digits_text ds) = true /\
  all_chars (fun c => negb (PyStr.isspace c)) (digits_text ds) = true.
Proof.
  intros Hb. unfold all_chars. induction ds as [|d ds IH]; intros Hds; [now split |].
  apply digits_below_cons in Hds as [Hd Hds].
  destruct (hex_digit_plain d ltac:(lia)) as (Hn & Hs & _).
  destruct (IH Hds) as [IHn IHs].
  rewrite digits_text_cons. cbn [list_ascii_of_string forallb].
  now rewrite Hn, Hs, IHn, IHs.
Qed.

Lemma rstrip_if_none (p : ascii -> bool) (s : string) :
  all_chars (fun c => negb (p c)) s = true -> PyStr.rstrip_if p s = s.
Proof.
  unfold all_chars. induction s as [|c s IH]; [reflexivity |].
  cbn [list_ascii_of_string forallb PyStr.rstrip_if]. intros H.
  apply andb_true_iff in H as [Hc Hs]. rewrite (IH Hs).
  apply negb_true_iff in Hc. rewrite Hc. now destruct s.
Qed.

Lemma last_char_plain (p : ascii -> bool) (s : string) :
  all_chars (fun c => negb (p c)) s = true -> holds_at p (last_char s) = false.
Proof.
  unfold all_chars. induction s as [|c s IH]; [reflexivity |].
  cbn [list_ascii_of_string forallb]. intros H.
  apply andb_true_iff in H as [Hc Hs]. cbn [last_char].
  destruct s; [cbn; now apply negb_true_iff | now apply IH].
Qed.

Lemma split_sign_digit (d : Z) (rest : string) :
  0 <= d < 16 ->
  PyStr.split_sign (String (PyFmt.hex_digit d) rest)
  = (false, String (PyFmt.hex_digit d) rest).
Proof. intros H. digit_cases d H; reflexivity. Qed.

Lemma skip_0x_digits (ds : list Z) :
  ds <> [] -> digits_below 16 ds = true ->
  PyStr.skip_0x ("0x" ++ digits_text ds) = digits_text ds.
Proof.
  intros Hne Hds. destruct ds as [|d ds]; [contradiction |].
  apply digits_below_cons in Hds as [Hd _]. rewrite digits_text_cons.
  digit_cases d Hd; reflexivity.
Qed.

(** [int(text, 16)] of [0x] and hexadecimal digits. *)
Lemma int16_digits (ds : list Z) :
  ds <> [] -> digits_below 16 ds = true ->
  PyStr.int16 ("0x" ++ digits_text ds) = Ret (digits_value 16 0 ds).
Proof.
  intros Hne Hds. unfold PyStr.int16.
  destruct (digits_text_plain 16 ds ltac:(lia) Hds) as [Hplain _].
  assert (Hbody : PyStr.rstrip_if PyStr.num_space
                    (PyStr.lstrip_if PyStr.num_space ("0x" ++ digits_text ds))
                  = "0x" ++ digits_text ds).
  { rewrite lstrip_if_clean by reflexivity. apply rstrip_if_none.
    rewrite all_chars_app. now rewrite Hplain. }
  rewrite Hbody.
  change (PyStr.split_sign ("0x" ++ digits_text ds))
    with (false, "0x" ++ digits_text ds).
  cbv beta iota zeta.
  rewrite (skip_0x_digits ds Hne Hds).
  now rewrite (parse_hex_digits ds 0 false Hds (fun E => False_ind _ (Hne E))).
Qed.

Lemma digits_value_nonneg (base : Z) (ds : list Z) :
  forall acc : Z,
    0 <= base -> 0 <= acc -> digits_below base ds = true ->
    0 <= digits_value base acc ds.
Proof.
  induction ds as [|d ds IH]; intros acc Hb Hacc Hds; [exact Hacc |].
  apply digits_below_cons in Hds as [Hd Hds].
  cbn [digits_value fold_left]. apply (IH (base * acc + d)); try assumption. nia.
Qed.

Lemma digits_below_16 (ds : list Z) :
  digits_below 10 ds = true -> digits_below 16 ds = true.
Proof.
  induction ds as [|d ds IH]; intros H; [reflexivity |].
  apply digits_below_cons in H as [Hd Hds]. cbn [digits_below forallb].
  fold (digits_below 16 ds). rewrite (IH Hds).
  destruct (Z.leb_spec 0 d), (Z.ltb_spec d 16); solve [reflexivity | lia].
Qed.

Lemma remove_underscores_digits (ds : list Z) :
  forall prev : ascii,
    digits_below 10 ds = true ->
    (ds = [] -> Ascii.eqb prev "_" = false) ->
    PyStr.remove_underscores prev (digits_text ds) = Some (digits_text ds).
Proof.
  induction ds as [|d ds IH]; intros prev Hds Hne.
  - cbn. now rewrite Hne.
  - apply digits_below_cons in Hds as [Hd Hds].
    destruct (hex_digit_plain d ltac:(lia)) as (_ & _ & Hu).
    destruct (digit_is_digit d Hd) as [Hdig _].
    rewrite digits_text_cons. cbn [PyStr.remove_underscores].
    rewrite Hu, Hdig, andb_false_r.
    rewrite (IH (PyFmt.hex_digit d) Hds (fun _ => Hu)). reflexivity.
Qed.

Lemma take_digits_digits (ds : list Z) :
  forall acc : Z,
    digits_below 10 ds = true ->
    PyStr.take_digits acc (digits_text ds)
    = (digits_value 10 acc ds, List.length ds, EmptyString).
Proof.
  induction ds as [|d ds IH]; intros acc Hds; [reflexivity |].
  apply digits_below_cons in Hds as [Hd Hds].
  destruct (digit_is_digit d Hd) as [Hdig Hval].
  rewrite digits_text_cons. cbn [PyStr.take_digits].
  rewrite Hdig, Hval, (IH _ Hds). reflexivity.
Qed.

(** [float(text)] of decimal digits and whitespace after them: the float
    nearest to the integer. *)
Lemma float_digits (ds : list Z) (tail : string) :
  ds <> [] -> digits_below 10 ds = true ->
  all_chars PyStr.num_space tail = true ->
  PyStr.float (digits_text ds ++ tail) = Ret (of_Z (digits_value 10 0 ds)).
Proof.
  intros Hne Hds Htail. unfold PyStr.float.
  destruct (digits_text_plain 16 ds ltac:(lia) (digits_below_16 ds Hds)) as [Hplain _].
  pose proof (remove_underscores_digits ds " " Hds (fun E => False_ind _ (Hne E)))
    as Hunder.
  pose proof (take_digits_digits ds 0 Hds) as Htake.
  pose proof (digits_value_nonneg 10 ds 0 ltac:(lia) ltac:(lia) Hds) as Hpos.
  assert (Hstrip : PyStr.rstrip_if PyStr.num_space
                     (PyStr.lstrip_if PyStr.num_space (digits_text ds ++ tail))
                   = digits_text ds).
  { rewrite lstrip_if_clean.
    - apply rstrip_if_app_clean; [now apply last_char_plain | assumption].
    - destruct ds as [|d ds]; [contradiction |].
      apply digits_below_cons in Hds as [Hd _].
      rewrite digits_text_cons. cbn.
      now destruct (hex_digit_plain d ltac:(lia)) as (-> & _). }
  rewrite Hstrip, Hunder.
  destruct ds as [|d ds]; [contradiction |].
  pose proof Hds as Hall. apply digits_below_cons in Hds as [Hd Hds'].
  assert (Hsign : PyStr.split_sign (digits_text (d :: ds))
                  = (false, digits_text (d :: ds))).
  { rewrite digits_text_cons. apply split_sign_digit. lia. }
  rewrite Hsign. cbv beta iota zeta.
  assert (Hword : forall word : string,
             (word = "inf" \/ word = "infinity" \/ word = "nan") ->
             String.eqb (PyStr.lowercase (digits_text (d :: ds))) word = false).
  { intros word Hw. rewrite digits_text_cons. assert (H16 : 0 <= d < 16) by lia.
    destruct Hw as [-> | [-> | ->]]; digit_cases d H16; reflexivity. }
  rewrite !Hword by auto. cbn [orb].
  unfold PyStr.parse_decimal. rewrite Htake.
  cbn [List.length Nat.add Nat.eqb PyStr.parse_exponent].
  unfold PyStr.decimal_to_float.
  destruct (digits_value 10 0 (d :: ds)) as [|p|p] eqn:Hv; try lia.
  - reflexivity.
  - cbn [Z.of_nat Z.sub Z.opp Z.leb Z.compare Z.add]. unfold of_Z.
    now rewrite Z.pow_0_r, Z.mul_1_r.
Qed.

Lemma append_empty_r (s : string) : s ++ EmptyString = s.
Proof. induction s as [|c s IH]; [reflexivity |]. cbn. now rewrite IH. Qed.

(** X19. [get_throttled] reads the hexadecimal digits after [0x] as a
    number in base 16, the most significant digit first, with or without
    a label and a line feed around them; the result is never negative. *)
Theorem throttle_word_is_read_in_base_16 :
  forall (label : string) (ds : list Z),
    has_char "=" label = false ->
    ds <> [] ->
    digits_below 16 ds = true ->
    get_throttled_of_output
      (label ++ "=" ++ ("0x" ++ digits_text ds) ++ String "010" EmptyString)
    = Ret (digits_value 16 0 ds) /\
    get_throttled_of_output ("0x" ++ digits_text ds) = Ret (digits_value 16 0 ds) /\
    0 <= digits_value 16 0 ds.
Proof.
  intros label ds Hl Hne Hds.
  destruct (digits_text_plain 16 ds ltac:(lia) Hds) as [_ Hplain].
  assert (Hlast : holds_at PyStr.isspace (last_char ("0x" ++ digits_text ds)) = false).
  { rewrite last_char_app; [now apply last_char_plain |].
    destruct ds; [contradiction | discriminate]. }
  split; [| split].
  - unfold get_throttled_of_output.
    rewrite (value_of_answer label ("0x" ++ digits_text ds) (String "010" EmptyString));
      try assumption; try reflexivity.
    now apply int16_digits.
  - unfold get_throttled_of_output.
    assert (Hno : has_char "=" ("0x" ++ digits_text ds) = false).
    { change ("0x" ++ digits_text ds) with (String "0" (String "x" (digits_text ds))).
      rewrite !has_char_cons. cbn [Ascii.eqb Bool.eqb orb andb].
      clear - Hds. induction ds as [|d ds IH]; [reflexivity |].
      apply digits_below_cons in Hds as [Hd Hds].
      rewrite digits_text_cons, has_char_cons, (IH Hds), orb_false_r.
      digit_cases d Hd; reflexivity. }
    rewrite after_absent by assumption.
    rewrite <- (append_empty_r ("0x" ++ digits_text ds)) at 1.
    rewrite strip_clean; try assumption; try reflexivity.
    now apply int16_digits.
  - apply digits_value_nonneg; try lia; assumption.
Qed.

Lemma throttle_word_is_read_in_base_16_witness :
  get_throttled_of_output ("throttled=0x50005" ++ String "010" EmptyString)
  = Ret 0x50005.
Proof.
  exact (proj1 (throttle_word_is_read_in_base_16 "throttled" [5; 0; 0; 0; 5]
                  eq_refl ltac:(discriminate) eq_refl)).
Defined.

Lemma truediv_by_literal (x y : f64) :
  is_zero y = false -> Py.truediv x y = Ret (div x y).
Proof. intros H. unfold Py.truediv. now rewrite H. Qed.

(** X20. A thermal zone file that holds decimal digits and a line feed
    gives the float of that integer divided by 1000, and a clock answer
    [label=digits] gives the float of that integer divided by 1000000,
    each rounded once by the division. *)
Theorem integer_readings_are_scaled :
  forall (label : string) (ds : list Z),
    has_char "=" label = false ->
    ds <> [] ->
    digits_below 10 ds = true ->
    let newline := String "010" EmptyString in
    let reading := of_Z (digits_value 10 0 ds) in
    cpu_temp_of_text (digits_text ds ++ newline) = Ret (div reading (of_Z 1000)) /\
    cpu_freq_of_output (label ++ "=" ++ digits_text ds ++ newline)
    = Ret (div reading (of_Z 1000000)).
Proof.
  intros label ds Hl Hne Hds newline reading.
  destruct (digits_text_plain 16 ds ltac:(lia) (digits_below_16 ds Hds)) as [_ Hplain].
  split.
  - unfold cpu_temp_of_text.
    rewrite (float_digits ds newline Hne Hds eq_refl).
    now apply truediv_by_literal.
  - unfold cpu_freq_of_output.
    rewrite (value_of_answer label (digits_text ds) newline); try assumption;
      try reflexivity.
    + rewrite <- (append_empty_r (digits_text ds)).
      rewrite (float_digits ds EmptyString Hne Hds eq_refl).
      now apply truediv_by_literal.
    + destruct ds as [|d ds]; [contradiction |].
      apply digits_below_cons in Hds as [Hd _].
      rewrite digits_text_cons. cbn.
      now destruct (hex_digit_plain d ltac:(lia)) as (_ & -> & _).
    + now apply last_char_plain.
Qed.

(** 47774 millidegrees and 600 MHz. *)
Lemma integer_readings_are_scaled_witness :
  let newline := String "010" EmptyString in
  cpu_temp_of_text ("47774" ++ newline) = Ret (div (of_Z 47774) (of_Z 1000)) /\
  cpu_freq_of_output ("frequency(45)=600000000" ++ newline) = Ret (of_Z 600).
Proof.
  intros newline.
  destruct (integer_readings_are_scaled "frequency(45)" [4; 7; 7; 7; 4]
              eq_refl ltac:(discriminate) eq_refl) as [Ht _].
  destruct (integer_readings_are_scaled "frequency(45)" [6; 0; 0; 0; 0; 0; 0; 0; 0]
              eq_refl ltac:(discriminate) eq_refl) as [_ Hf].
  split; [exact Ht |].
  etransitivity; [exact Hf |]. vm_compute. reflexivity.
Defined.

(** ** Elapsed time *)

Lemma sub_self (x : f64) : is_finite_float x = true -> sub x x = zero.
Proof.
  destruct x as [s|s| |s m e]; try discriminate; intros _.
  - now destruct s.
  - unfold sub, SFsub. now rewrite Z.sub_diag.
Qed.

Lemma two_digits_spec (n : Z) :
  0 <= n < 100 ->
  PyFmt.two_digits n
  = String (PyFmt.hex_digit (n / 10)) (String (PyFmt.hex_digit (n mod 10)) EmptyString).
Proof.
  intros H.
  assert (Hall : forallb (fun k =>
                   String.eqb (PyFmt.two_digits (Z.of_nat k))
                              (String (PyFmt.hex_digit (Z.of_nat k / 10))
                                 (String (PyFmt.hex_digit (Z.of_nat k mod 10))
                                         EmptyString)))
                   (seq 0 100) = true) by (vm_compute; reflexivity).
  rewrite forallb_forall in Hall.
  specialize (Hall (Z.to_nat n)). rewrite Z2Nat.id in Hall by lia.
  apply String.eqb_eq, Hall, in_seq. lia.
Qed.

Lemma hex_digit_inj (a b : Z) :
  0 <= a < 16 -> 0 <= b < 16 -> PyFmt.hex_digit a = PyFmt.hex_digit b -> a = b.
Proof.
  intros Ha Hb H.
  pose proof (hex_value_hex_digit a Ha) as Va.
  pose proof (hex_value_hex_digit b Hb) as Vb.
  rewrite H in Va. congruence.
Qed.

Lemma two_digits_inj (a b : Z) :
  0 <= a < 100 -> 0 <= b < 100 -> PyFmt.two_digits a = PyFmt.two_digits b -> a = b.
Proof.
  intros Ha Hb. rewrite !two_digits_spec by assumption. intros H.
  assert (Ba : 0 <= a / 10 < 16 /\ 0 <= a mod 10 < 16)
    by (Z.to_euclidean_division_equations; lia).
  assert (Bb : 0 <= b / 10 < 16 /\ 0 <= b mod 10 < 16)
    by (Z.to_euclidean_division_equations; lia).
  injection H as H1 H2.
  apply hex_digit_inj in H1; [| tauto | tauto].
  apply hex_digit_inj in H2; [| tauto | tauto].
  rewrite (Z.div_mod a 10), (Z.div_mod b 10) by lia. lia.
Qed.

(** The label shows the hours, minutes and seconds of the count of
    seconds within its day. *)
Lemma HMS_same_label (a b : Z) :
  PyFmt.HMS a = PyFmt.HMS b <-> a mod 86400 = b mod 86400.
Proof.
  unfold PyFmt.HMS.
  assert (Hh : forall t, 0 <= (t / 3600) mod 24 < 100)
    by (intros t; pose proof (Z.mod_pos_bound (t / 3600) 24); lia).
  assert (Hm : forall t, 0 <= (t / 60) mod 60 < 100)
    by (intros t; pose proof (Z.mod_pos_bound (t / 60) 60); lia).
  assert (Hs : forall t, 0 <= t mod 60 < 100)
    by (intros t; pose proof (Z.mod_pos_bound t 60); lia).
  assert (Hday : forall t,
             t mod 86400 = 3600 * ((t / 3600) mod 24) + 60 * ((t / 60) mod 60) + t mod 60).
  { intros t. Z.to_euclidean_division_equations. lia. }
  split.
  - rewrite !two_digits_spec by auto. cbn [append]. intros H.
    injection H as H1 H2 H3 H4 H5 H6.
    assert (E1 : (a / 3600) mod 24 = (b / 3600) mod 24).
    { apply two_digits_inj; auto. rewrite !two_digits_spec by auto. congruence. }
    assert (E2 : (a / 60) mod 60 = (b / 60) mod 60).
    { apply two_digits_inj; auto. rewrite !two_digits_spec by auto. congruence. }
    assert (E3 : a mod 60 = b mod 60).
    { apply two_digits_inj; auto. rewrite !two_digits_spec by auto. congruence. }
    rewrite (Hday a), (Hday b). lia.
  - intros H.
    assert (E1 : (a / 3600) mod 24 = (b / 3600) mod 24)
      by (revert H; Z.to_euclidean_division_equations; lia).
    assert (E2 : (a / 60) mod 60 = (b / 60) mod 60)
      by (revert H; Z.to_euclidean_division_equations; lia).
    assert (E3 : a mod 60 = b mod 60)
      by (revert H; Z.to_euclidean_division_equations; lia).
    now rewrite E1, E2, E3.
Qed.

Lemma with_clock_format_formats (E : Env) : formats_elapsed_time (with_clock_format E).
Proof.
  intros lapsed t Hfloor Ht. cbn [with_clock_format strftime_gmtime].
  unfold strftime_gmtime_32. rewrite Hfloor.
  destruct (Z.leb_spec (- 2 ^ 31) t); [| lia].
  destruct (Z.ltb_spec t (2 ^ 31)); [reflexivity | lia].
Qed.

(** X21. The first call of [lapsed_time] stores its argument as the
    start time and returns [00:00:00], whatever finite time it is given,
    on a machine whose [strftime] and [gmtime] format a count of seconds
    that fits 32 bits as the time of day. *)
Theorem first_label_is_zero :
  forall (E : Env) (now : f64) (w : World),
    formats_elapsed_time E ->
    lapsed_time_start_time w = None ->
    is_finite_float now = true ->
    lapsed_time E now w
    = (Ret "00:00:00", set_lapsed_time_start_time w (Some now)).
Proof.
  intros E now w HE Hstart Hfinite. unfold lapsed_time. rewrite Hstart.
  rewrite (sub_self now Hfinite).
  now rewrite (HE zero 0 eq_refl ltac:(lia)).
Qed.

Lemma first_label_is_zero_witness :
  let E := with_clock_format late_machine in
  let w := started E "finnish" false in
  fst (lapsed_time E (next_tick w) w) = Ret "00:00:00".
Proof.
  intros E w.
  now rewrite (first_label_is_zero E (next_tick w) w
                 (with_clock_format_formats late_machine) eq_refl eq_refl).
Defined.

(** X22. After the first call, [lapsed_time] returns the hours, minutes
    and seconds of the whole seconds passed since the stored start time
    and leaves the start time as it is. The label is the time of day only:
    two counts of seconds give the same label exactly when they differ by
    a multiple of 86400, so the label starts again after 24 hours. *)
Theorem label_counts_seconds_of_the_day :
  forall (E : Env) (now start : f64) (w : World) (t : Z),
    formats_elapsed_time E ->
    lapsed_time_start_time w = Some start ->
    PyFmt.floor (sub now start) = Some t ->
    0 <= t < 2 ^ 31 ->
    fst (lapsed_time E now w) = Ret (PyFmt.HMS t) /\
    lapsed_time_start_time (snd (lapsed_time E now w)) = Some start /\
    (forall t' : Z, PyFmt.HMS t' = PyFmt.HMS t <-> t' mod 86400 = t mod 86400).
Proof.
  intros E now start w t HE Hstart Hfloor Ht. unfold lapsed_time. rewrite Hstart.
  cbn [fst snd]. rewrite (HE _ t Hfloor Ht).
  split; [reflexivity |]. split; [reflexivity |].
  intros t'. apply HMS_same_label.
Qed.

(** Twenty-five hours and a half second after the start: one hour. *)
Lemma label_counts_seconds_of_the_day_witness :
  let E := with_clock_format late_machine in
  let w := set_lapsed_time_start_time (started E "finnish" false)
                                      (Some (of_Z 1700000000)) in
  fst (lapsed_time E (add (of_Z 1700090000) lit_0_5) w) = Ret "01:00:00".
Proof.
  intros E w.
  destruct (label_counts_seconds_of_the_day E (add (of_Z 1700090000) lit_0_5)
              (of_Z 1700000000) w 90000
              (with_clock_format_formats late_machine) eq_refl)
    as (H & _).
  - vm_compute. reflexivity.
  - lia.
  - rewrite H. vm_compute. reflexivity.
Defined.

(** ** The board: revision, serial number and model *)

Lemma has_char_app (c : ascii) (a b : string) :
  has_char c (a ++ b) = has_char c a || has_char c b.
Proof.
  induction a as [|x a IH]; [reflexivity |].
  cbn [append]. now rewrite !has_char_cons, IH, orb_assoc.
Qed.

Lemma slice_to_prefix (key rest : string) :
  PyStr.slice_to (String.length key) (key ++ rest) = key.
Proof.
  unfold PyStr.slice_to. induction key as [|c key IH].
  - now destruct rest.
  - cbn [String.length append substring]. now rewrite IH.
Qed.

Lemma get_revision_skips (before rest : list string) :
  existsb (starts_with "Revision") before = false ->
  get_revision_of_lines (before ++ rest) = get_revision_of_lines rest.
Proof.
  induction before as [|line before IH]; [reflexivity |].
  cbn [existsb app get_revision_of_lines]. intros H.
  apply orb_false_iff in H as [Hline Hbefore].
  unfold starts_with in Hline. cbn [String.length] in Hline.
  rewrite Hline. now apply IH.
Qed.

Lemma get_serial_skips (before rest : list string) :
  existsb (starts_with "Serial") before = false ->
  get_serial_of_lines (before ++ rest) = get_serial_of_lines rest.
Proof.
  induction before as [|line before IH]; [reflexivity |].
  cbn [existsb app get_serial_of_lines]. intros H.
  apply orb_false_iff in H as [Hline Hbefore].
  unfold starts_with in Hline. cbn [String.length] in Hline.
  rewrite Hline. now apply IH.
Qed.

(** X23. [get_revision] and [get_serial] return what follows the first
    colon of the first line that starts with [Revision], or with
    [Serial], without the white space around it: lines before it that
    do not start with that key are skipped, whatever else they hold, and
    lines after it are not read. A matching line without a colon is
    returned whole (stripped), and when no line starts with the key the
    loop ends without a [return]: the result is [None]. *)
Theorem cpuinfo_first_match :
  forall pad value : string,
    has_char ":" pad = false ->
    (forall before after : list string,
        existsb (starts_with "Revision") before = false ->
        get_revision_of_lines (before ++ ("Revision" ++ pad ++ ":" ++ value) :: after)
        = Some (PyStr.strip value) /\
        get_revision_of_lines (before ++ ("Revision" ++ pad) :: after)
        = Some (PyStr.strip ("Revision" ++ pad)) /\
        get_revision_of_lines before = None) /\
    (forall before after : list string,
        existsb (starts_with "Serial") before = false ->
        get_serial_of_lines (before ++ ("Serial" ++ pad ++ ":" ++ value) :: after)
        = Some (PyStr.strip value) /\
        get_serial_of_lines (before ++ ("Serial" ++ pad) :: after)
        = Some (PyStr.strip ("Serial" ++ pad)) /\
        get_serial_of_lines before = None).
Proof.
  intros pad value Hpad.
  assert (HR : has_char ":" ("Revision" ++ pad) = false)
    by (rewrite has_char_app, Hpad; reflexivity).
  assert (HS : has_char ":" ("Serial" ++ pad) = false)
    by (rewrite has_char_app, Hpad; reflexivity).
  split; intros before after Hbefore; (split; [| split]).
  - rewrite get_revision_skips by assumption. cbn [get_revision_of_lines].
    rewrite (slice_to_prefix "Revision"), String.eqb_refl.
    change ("Revision" ++ pad ++ ":" ++ value)
      with (("Revision" ++ pad) ++ String ":" value).
    now rewrite after_first.
  - rewrite get_revision_skips by assumption. cbn [get_revision_of_lines].
    rewrite (slice_to_prefix "Revision"), String.eqb_refl. now rewrite after_absent.
  - rewrite <- (app_nil_r before). now rewrite get_revision_skips.
  - rewrite get_serial_skips by assumption. cbn [get_serial_of_lines].
    rewrite (slice_to_prefix "Serial"), String.eqb_refl.
    change ("Serial" ++ pad ++ ":" ++ value)
      with (("Serial" ++ pad) ++ String ":" value).
    now rewrite after_first.
  - rewrite get_serial_skips by assumption. cbn [get_serial_of_lines].
    rewrite (slice_to_prefix "Serial"), String.eqb_refl. now rewrite after_absent.
  - rewrite <- (app_nil_r before). now rewrite get_serial_skips.
Qed.

(** The lines that a Raspberry Pi 3 shows: the revision is found before
    the serial number, and the serial number after the revision. *)
Lemma cpuinfo_first_match_witness :
  let tab := String "009" EmptyString in
  let newline := String "010" EmptyString in
  let cpuinfo := [ "processor" ++ tab ++ ": 0" ++ newline;
                   "Hardware" ++ tab ++ ": BCM2835" ++ newline;
                   "Revision" ++ tab ++ ": a02082" ++ newline;
                   "Serial" ++ tab ++ tab ++ ": 00000000abcdef12" ++ newline ] in
  get_revision_of_lines cpuinfo = Some "a02082" /\
  get_serial_of_lines cpuinfo = Some "00000000abcdef12".
Proof.
  intros tab newline cpuinfo. split.
  - destruct (cpuinfo_first_match tab (" a02082" ++ newline) eq_refl) as [Hrev _].
    destruct (Hrev [ "processor" ++ tab ++ ": 0" ++ newline;
                     "Hardware" ++ tab ++ ": BCM2835" ++ newline ]
                   [ "Serial" ++ tab ++ tab ++ ": 00000000abcdef12" ++ newline ]
                   eq_refl) as [H _].
    exact H.
  - destruct (cpuinfo_first_match (tab ++ tab) (" 00000000abcdef12" ++ newline) eq_refl)
      as [_ Hser].
    destruct (Hser [ "processor" ++ tab ++ ": 0" ++ newline;
                     "Hardware" ++ tab ++ ": BCM2835" ++ newline;
                     "Revision" ++ tab ++ ": a02082" ++ newline ]
                   [] eq_refl) as [H _].
    exact H.
Defined.

(** X24. [get_model] removes the NUL characters that end the device
    tree's model text, and a single final line feed; but it strips white
    space first and NULs second, so a line feed that stands before the
    NULs stays in the result. *)
Theorem model_text_is_trimmed :
  forall (name : string) (nuls : string),
    holds_at PyStr.isspace (first_char name) = false ->
    holds_at PyStr.isspace (last_char name) = false ->
    holds_at (PyStr.member (String "000" EmptyString)) (first_char name) = false ->
    holds_at (PyStr.member (String "000" EmptyString)) (last_char name) = false ->
    all_chars (PyStr.member (String "000" EmptyString)) nuls = true ->
    let newline := String "010" EmptyString in
    get_model_of_text (name ++ nuls) = name /\
    get_model_of_text (name ++ newline) = name /\
    (name <> EmptyString -> nuls <> EmptyString ->
     get_model_of_text (name ++ newline ++ nuls) = name ++ newline).
Proof.
  intros name nuls Hf Hl Hnf Hnl Hnuls newline.
  set (nul := PyStr.member (String "000" EmptyString)) in *.
  assert (Hnot_space : forall s, all_chars nul s = true ->
                                 all_chars (fun c => negb (PyStr.isspace c)) s = true).
  { intros s. unfold all_chars. induction s as [|c s IH]; [reflexivity |].
    cbn [list_ascii_of_string forallb]. intros H.
    apply andb_true_iff in H as [Hc Hs]. rewrite (IH Hs), andb_true_r.
    subst nul. unfold PyStr.member in Hc. cbn in Hc. rewrite orb_false_r in Hc.
    apply Ascii.eqb_eq in Hc. now subst c. }
  unfold get_model_of_text, PyStr.strip_chars. fold nul.
  split; [| split].
  - assert (Hstrip : PyStr.strip (name ++ nuls) = name ++ nuls).
    { unfold PyStr.strip. destruct nuls as [|c nuls].
      - rewrite append_empty_r, lstrip_if_clean, rstrip_if_clean; auto.
      - rewrite lstrip_if_clean.
        + apply rstrip_if_clean. rewrite last_char_app by discriminate.
          apply last_char_plain. now apply Hnot_space.
        + rewrite first_char_app. destruct (first_char name) eqn:E; [exact Hf |].
          destruct name; [| discriminate]. cbn.
          apply Hnot_space in Hnuls. unfold all_chars in Hnuls. cbn in Hnuls.
          apply andb_true_iff in Hnuls as [Hc _]. now apply negb_true_iff. }
    rewrite Hstrip.
    destruct name as [|c name].
    + cbn [append]. now rewrite lstrip_if_all.
    + rewrite lstrip_if_clean by exact Hnf. now apply rstrip_if_app_clean.
  - rewrite strip_clean by (try assumption; reflexivity).
    rewrite lstrip_if_clean, rstrip_if_clean; auto.
  - intros Hname Hne.
    assert (Hstrip : PyStr.strip (name ++ newline ++ nuls) = name ++ newline ++ nuls).
    { unfold PyStr.strip. rewrite lstrip_if_clean.
      - apply rstrip_if_clean. rewrite !last_char_app; try assumption.
        + apply last_char_plain. now apply Hnot_space.
        + destruct nuls; [contradiction | discriminate].
      - rewrite first_char_app. destruct (first_char name) eqn:E; [exact Hf |].
        destruct name; [contradiction | discriminate]. }
    rewrite Hstrip.
    rewrite lstrip_if_clean.
    + change (name ++ newline ++ nuls) with (name ++ (newline ++ nuls)).
      replace (name ++ (newline ++ nuls)) with ((name ++ newline) ++ nuls).
      * apply rstrip_if_app_clean; [| assumption].
        rewrite last_char_app by discriminate. reflexivity.
      * clear. induction name as [|c name IH]; [reflexivity |]. cbn. now rewrite IH.
    + rewrite first_char_app. destruct (first_char name) eqn:E; [exact Hnf |].
      destruct name; [contradiction | discriminate].
Qed.

Lemma model_text_is_trimmed_witness :
  get_model_of_text ("Raspberry Pi 3 Model B Rev 1.2" ++ String "000" EmptyString)
  = "Raspberry Pi 3 Model B Rev 1.2".
Proof.
  exact (proj1 (model_text_is_trimmed "Raspberry Pi 3 Model B Rev 1.2"
                  (String "000" EmptyString)
                  eq_refl eq_refl eq_refl eq_refl eq_refl)).
Defined.

(** ** [toHex] *)

Lemma every_character_reads_back (c : ascii) : reads_back c = true.
Proof.
  assert (H : forallb reads_back (map ascii_of_nat (seq 0 256)) = true)
    by (vm_compute; reflexivity).
  rewrite forallb_forall in H. apply H.
  rewrite <- (ascii_nat_embedding c). apply in_map, in_seq.
  pose proof (nat_ascii_bounded c). lia.
Qed.

Lemma toHex_cons (c : ascii) (x : string) :
  toHex (String c x)
  = PyFmt.zfill 2 (PyStr.slice_from 2 (PyFmt.hex (PyStr.code c))) ++ toHex x.
Proof.
  unfold toHex. cbn [list_ascii_of_string map concat].
  destruct (list_ascii_of_string x) as [|c' l] eqn:E.
  - cbn [map concat]. now rewrite append_empty_r.
  - reflexivity.
Qed.

(** X25. [toHex] writes exactly two hexadecimal digits for each
    character (code points below 256), so the text can be read back:
    decoding the digits pair by pair gives the original string. *)
Theorem toHex_round_trip :
  forall x : string,
    fromHex (toHex x) = Some x /\
    String.length (toHex x) = (2 * String.length x)%nat /\
    all_chars (fun c => match PyStr.hex_value c with Some _ => true | None => false end)
              (toHex x) = true.
Proof.
  induction x as [|c x (IH1 & IH2 & IH3)]; [repeat split |].
  rewrite toHex_cons.
  pose proof (every_character_reads_back c) as Hc. unfold reads_back in Hc.
  destruct (PyFmt.zfill 2 (PyStr.slice_from 2 (PyFmt.hex (PyStr.code c))))
    as [|hi [|lo [|]]]; try discriminate.
  destruct (PyStr.hex_value hi) as [h|] eqn:Hh; [| discriminate].
  destruct (PyStr.hex_value lo) as [l|] eqn:Hl; [| discriminate].
  apply Ascii.eqb_eq in Hc.
  cbn [append fromHex String.length]. rewrite Hh, Hl, IH1, IH2, Hc.
  split; [reflexivity | split; [lia |]].
  unfold all_chars in *. cbn [list_ascii_of_string forallb]. now rewrite Hh, Hl, IH3.
Qed.

Lemma unbroken_cons (c : ascii) (s : string) :
  unbroken (String c s) = negb (PyFmt.linebreak c) && unbroken s.
Proof. reflexivity. Qed.

Lemma unbroken_app (a b : string) : unbroken (a ++ b) = unbroken a && unbroken b.
Proof. apply all_chars_app. Qed.

Lemma splitlines_unbroken_fuel (n : nat) :
  forall s : string, (String.length s <= n)%nat ->
    forallb unbroken (PyFmt.splitlines s) = true.
Proof.
  induction n as [|n IH]; intros s Hlen.
  - destruct s; [reflexivity | cbn in Hlen; lia].
  - destruct s as [|c s]; [reflexivity |].
    cbn [String.length] in Hlen. cbn [PyFmt.splitlines].
    destruct (PyFmt.linebreak c) eqn:Hc.
    + cbn [forallb]. change (unbroken "") with true. cbn [andb].
      destruct s as [|c' s]; [reflexivity |].
      cbn [String.length] in Hlen.
      destruct (Ascii.eqb c "013" && Ascii.eqb c' "010");
        apply IH; cbn [String.length]; lia.
    + pose proof (IH s ltac:(lia)) as Hs.
      destruct (PyFmt.splitlines s) as [|line rest].
      * cbn [forallb]. rewrite unbroken_cons, Hc. reflexivity.
      * cbn [forallb] in *. rewrite unbroken_cons, Hc. exact Hs.
Qed.

Lemma join_unbroken (parts : list string) :
  forallb unbroken parts = true -> unbroken (PyFmt.join " " parts) = true.
Proof.
  induction parts as [|part rest IH]; [reflexivity |].
  cbn [forallb PyFmt.join]. intros H. apply andb_true_iff in H as [Hp Hr].
  destruct rest as [|part' rest]; [exact Hp |].
  rewrite !unbroken_app, Hp, (IH Hr). reflexivity.
Qed.

Lemma splitlines_one_line (line : string) :
  line <> EmptyString -> unbroken line = true ->
  PyFmt.splitlines line = [line] /\
  (forall c : ascii, PyFmt.linebreak c = true ->
     PyFmt.splitlines (line ++ String c EmptyString) = [line]).
Proof.
  induction line as [|a line IH]; [contradiction |].
  intros _ H. rewrite unbroken_cons in H. apply andb_true_iff in H as [Ha Hl].
  apply negb_true_iff in Ha.
  destruct line as [|b line].
  - split; [cbn; now rewrite Ha |].
    intros c Hc. cbn. now rewrite Ha, Hc.
  - destruct (IH ltac:(discriminate) Hl) as [IH1 IH2]. split.
    + change (PyFmt.splitlines (String a (String b line)))
        with (if PyFmt.linebreak a then
                EmptyString ::
                  (if Ascii.eqb a "013" && Ascii.eqb b "010"
                   then PyFmt.splitlines line else PyFmt.splitlines (String b line))
              else match PyFmt.splitlines (String b line) with
                   | l :: rest => String a l :: rest
                   | [] => [String a EmptyString]
                   end).
      now rewrite Ha, IH1.
    + intros c Hc.
      change (PyFmt.splitlines (String a (String b line) ++ String c EmptyString))
        with (if PyFmt.linebreak a then
                EmptyString ::
                  (if Ascii.eqb a "013" && Ascii.eqb b "010"
                   then PyFmt.splitlines (line ++ String c EmptyString)
                   else PyFmt.splitlines (String b line ++ String c EmptyString))
              else match PyFmt.splitlines (String b line ++ String c EmptyString) with
                   | l :: rest => String a l :: rest
                   | [] => [String a EmptyString]
                   end).
      now rewrite Ha, (IH2 c Hc).
Qed.

(** X26. The firmware cell of the log file's header holds no line break,
    whatever [vcgencmd version] answers: a text without line breaks is
    written as it is, and two lines that each end in a line feed are
    written with one space between them and nothing after. *)
Theorem firmware_cell_is_one_line :
  forall version : string,
    unbroken (firmware_cell version) = true /\
    (unbroken version = true -> firmware_cell version = version) /\
    (forall line1 line2 : string,
       line1 <> EmptyString -> unbroken line1 = true ->
       line2 <> EmptyString -> unbroken line2 = true ->
       firmware_cell (line1 ++ String "010" (line2 ++ String "010" EmptyString))
       = line1 ++ " " ++ line2).
Proof.
  intros version. split; [| split].
  - apply join_unbroken, (splitlines_unbroken_fuel (String.length version)). lia.
  - intros H. unfold firmware_cell. destruct version as [|c v]; [reflexivity |].
    now rewrite (proj1 (splitlines_one_line (String c v) ltac:(discriminate) H)).
  - intros line1 line2 H1 U1 H2 U2. unfold firmware_cell.
    assert (Hsplit : forall rest,
              PyFmt.splitlines (line1 ++ String "010" rest)
              = line1 :: PyFmt.splitlines rest).
    { clear H2 U2 line2. intros rest.
      induction line1 as [|a l IH]; [contradiction |].
      rewrite unbroken_cons in U1. apply andb_true_iff in U1 as [Ha Hl].
      apply negb_true_iff in Ha.
      destruct l as [|b l].
      - cbn [append PyFmt.splitlines]. rewrite Ha.
        change (PyFmt.linebreak "010") with true. cbn match.
        destruct rest as [|r rest]; [reflexivity |].
        change (Ascii.eqb "010" "013") with false. reflexivity.
      - specialize (IH ltac:(discriminate) Hl).
        change (PyFmt.splitlines (String a (String b l) ++ String "010" rest))
          with (if PyFmt.linebreak a then
                  EmptyString ::
                    (if Ascii.eqb a "013" && Ascii.eqb b "010"
                     then PyFmt.splitlines (l ++ String "010" rest)
                     else PyFmt.splitlines (String b l ++ String "010" rest))
                else match PyFmt.splitlines (String b l ++ String "010" rest) with
                     | l0 :: rest0 => String a l0 :: rest0
                     | [] => [String a EmptyString]
                     end).
        now rewrite Ha, IH. }
    rewrite Hsplit.
    rewrite (proj2 (splitlines_one_line line2 H2 U2) "010"%char eq_refl).
    reflexivity.
Qed.
